(** * Product-recommendation front end: browsing history, catalog filter,
      recommendation ordering and the REST client.

    Shallow embedding of
      - [src/frontend/src/App.js]            (module [App]),
      - [src/frontend/src/components/BrowsingHistory.js]
                                             (modules [BrowsingHistory] and
                                              [Recommendations]; the second
                                              component is stored in the same
                                              source file),
      - [src/frontend/src/components/Catalog.js]   (module [Catalog]),
      - [src/frontend/src/services/api.js]         (module [Api]),
      - [src/unnamed/part_000], the source of [components/UserPreferences.js]
                                             (module [UserPreferences]).

    JavaScript arrays are lists, objects with a fixed shape are records,
    [undefined] results are [option].  A number received from JSON is the
    rational it denotes: comparing two such numbers, and the sign of their
    floating-point difference, are comparison and sign of the rationals.
    An [async] function is a tree of awaited requests with a small-step
    semantics (module [Async]).  Definitions come first, theorems follow. *)

From Stdlib Require Import QArith Qround Lqa.
From Stdlib Require OrderedTypeEx.
From stdpp Require Import base list strings sorting pretty.

Set Warnings "-register-all".

Local Open Scope Z_scope.

(** ** JavaScript array primitives used by the components *)

Module Js.

(** [Array.prototype.slice(start, end)] with non-negative arguments. *)
Definition slice {A} (start stop : nat) (l : list A) : list A :=
  take (stop - start) (drop start l).

(** [Array.prototype.find]: the first element passing the test, or
    [undefined]. *)
Fixpoint find {A} (f : A → bool) (l : list A) : option A :=
  match l with
  | [] => None
  | x :: l' => if f x then Some x else find f l'
  end.

(** [.filter(Boolean)] on an array whose entries are objects or
    [undefined]: objects are truthy, [undefined] is not. *)
Fixpoint filter_Boolean {A} (l : list (option A)) : list A :=
  match l with
  | [] => []
  | Some x :: l' => x :: filter_Boolean l'
  | None :: l' => filter_Boolean l'
  end.

(** [x || 0] on a number that may be missing: [undefined], [null] and [0]
    are falsy. *)
Definition or_zero (x : option Q) : Q :=
  match x with
  | Some q => if Qeq_bool q 0 then 0%Q else q
  | None => 0%Q
  end.

(** [Array.prototype.sort(compareFn)].  ECMAScript requires the sort to be
    stable and to place [a] before [b] when [compareFn(a, b) < 0]; for a
    consistent comparator that fixes the result, which the insertion sort
    below computes: an element moves right past [y] only when
    [compareFn(x, y) > 0]. *)
Fixpoint sort_insert {A} (compareFn : A → A → Q) (x : A) (l : list A)
  : list A :=
  match l with
  | [] => [x]
  | y :: l' =>
      if Qle_bool (compareFn x y) 0 then x :: y :: l'
      else y :: sort_insert compareFn x l'
  end.

Definition sort {A} (compareFn : A → A → Q) (l : list A) : list A :=
  foldr (sort_insert compareFn) [] l.

(** [a] may stay in front of [b]: the comparator gives no reason to
    swap them. *)
Definition ordered {A} (compareFn : A → A → Q) (a b : A) : Prop :=
  (compareFn a b <= 0)%Q.

(** [String.prototype.includes]: [sub] occurs in [s]. *)
Fixpoint includes (s sub : string) : bool :=
  String.prefix sub s
  || match s with
     | EmptyString => false
     | String _ s' => includes s' sub
     end.

(** [Array.prototype.some] *)
Definition some {A} (f : A → bool) (l : list A) : bool := existsb f l.

(** A value handed to a component where an array is expected. *)
Inductive ArrayProp (A : Type) :=
| PropUndefined
| PropNull
| PropOther (truthy : bool)  (* boolean, number, string, plain object *)
| PropArray (elems : list A).
Arguments PropUndefined {A}.
Arguments PropNull {A}.
Arguments PropOther {A}.
Arguments PropArray {A}.

Definition truthy {A} (v : ArrayProp A) : bool :=
  match v with
  | PropUndefined | PropNull => false
  | PropOther t => t
  | PropArray _ => true
  end.

Definition Array_isArray {A} (v : ArrayProp A) : bool :=
  match v with PropArray _ => true | _ => false end.

(** [new Set(values)] spread back into an array.  A [Set] keeps its members
    in insertion order and [add] leaves it alone when the value is already a
    member. *)
Definition Set_add {A} `{EqDecision A} (members : list A) (x : A) : list A :=
  if decide (x ∈ members) then members else members ++ [x].

Definition Set_values {A} `{EqDecision A} (values : list A) : list A :=
  foldl Set_add [] values.

(** The distinct values of a list, each where it occurs first. *)
Fixpoint distinct {A} `{EqDecision A} (l : list A) : list A :=
  match l with
  | [] => []
  | x :: l' => x :: filter (λ y, y ≠ x) (distinct l')
  end.

(** [Array.prototype.includes] *)
Definition Array_includes {A} `{EqDecision A} (l : list A) (x : A) : bool :=
  bool_decide (x ∈ l).

(** [Math.max(a, b)] and [Math.min(a, b)] on numbers. *)
Definition Math_max (a b : Q) : Q := if Qle_bool a b then b else a.
Definition Math_min (a b : Q) : Q := if Qle_bool a b then a else b.


(** [a <= b] on numbers is decidable. *)
#[global] Instance Qle_dec (a b : Q) : Decision (a <= b)%Q.
Proof.
  destruct (Qlt_le_dec b a) as [Hlt|Hle].
  - right. by apply Qlt_not_le.
  - by left.
Defined.

End Js.

(** ** The product record (glossary: name, price, category, brand, rating,
       inventory, tags, features)

    [Id] is the type of product identifiers; the code compares them with
    [===] and [!==], which on the values JSON can carry is a decidable
    equality: strings and numbers by value, anything else by identity
    ([NaN], the one value that differs from itself, is not JSON). *)

Record Product (Id : Type) := mkProduct {
  product_id : Id;
  product_name : string;
  product_description : string;
  product_price : Q;
  product_category : string;
  product_brand : string;
  product_rating : option Q;       (* [undefined] when absent *)
  product_inventory : option Q;
  product_tags : option (list string);
  product_features : option (list string)
}.
Arguments mkProduct {Id}.
Arguments product_id {Id}.
Arguments product_name {Id}.
Arguments product_description {Id}.
Arguments product_price {Id}.
Arguments product_category {Id}.
Arguments product_brand {Id}.
Arguments product_rating {Id}.
Arguments product_inventory {Id}.
Arguments product_tags {Id}.
Arguments product_features {Id}.

(** ** JSON values and the JavaScript operations api.js applies to them *)

Module Json.

(** A value produced by [response.json()].  An object is the list of its
    own properties. *)
Inductive value :=
| Null
| Bool (b : bool)
| Num (q : Q)
| Str (s : string)
| Arr (elems : list value)
| Obj (props : list (string * value)).

Fixpoint lookup (key : string) (props : list (string * value))
  : option value :=
  match props with
  | [] => None
  | (k, v) :: props' =>
      if String.eqb k key then Some v else lookup key props'
  end.

(** Truthiness; [None] stands for [undefined]. *)
Definition truthy (v : option value) : bool :=
  match v with
  | None | Some Null => false
  | Some (Bool b) => b
  | Some (Num q) => negb (Qeq_bool q 0)
  | Some (Str s) => negb (String.eqb s "")
  | Some (Arr _) | Some (Obj _) => true
  end.

(** [a || b] *)
Definition or (a b : option value) : option value :=
  if truthy a then a else b.

Definition Array_isArray (v : value) : bool :=
  match v with Arr _ => true | _ => false end.

End Json.

(** ** Exceptions *)

(** [class ApiError extends Error] *)
Record ApiError := mkApiError {
  message : string;
  name : string;
  status : Z;
  data : Json.value
}.

(** What a [throw] or a rejected promise carries: an [ApiError] instance or
    another [Error] ([TypeError], [SyntaxError], plain [Error], ...) with
    its name and message. *)
Inductive Exn :=
| ApiErr (e : ApiError)
| JsErr (error_name error_message : string).

(** [error instanceof ApiError] *)
Definition instanceof_ApiError (error : Exn) : bool :=
  match error with ApiErr _ => true | JsErr _ _ => false end.

(** [err.message] *)
Definition Exn_message (error : Exn) : string :=
  match error with
  | ApiErr e => message e
  | JsErr _ m => m
  end.

(** The two ways the code can make the engine itself throw. *)
Inductive EngineError :=
| NullProperty (key : string)   (* reading a property of [null] *)
| NotPrimitive.                 (* an object without a usable [toString] *)

(** Result of evaluating an expression that may throw. *)
Inductive Completion (A : Type) :=
| Normal (a : A)
| Abrupt (e : Exn).
Arguments Normal {A}.
Arguments Abrupt {A}.

Module JsOps.
Section Traverse.
Context {A B : Type} (f : A → Completion B).

(** Left to right, stopping at the first element that throws. *)
Fixpoint traverse (l : list A) : Completion (list B) :=
  match l with
  | [] => Normal []
  | x :: l' =>
      match f x with
      | Abrupt e => Abrupt e
      | Normal y =>
          match traverse l' with
          | Abrupt e => Abrupt e
          | Normal ys => Normal (y :: ys)
          end
      end
  end.
End Traverse.

Section Ops.
(** [Number.prototype.toString] of the platform, and the wording of
    the engine's [TypeError]s. *)
Variable Number_toString : Q → string.
Variable engine_message : EngineError → string.

Definition TypeError (err : EngineError) : Exn :=
  JsErr "TypeError" (engine_message err).

(** [data.key]: reading a property of [null] throws a [TypeError];
    strings, numbers, booleans and arrays have no property named
    [detail], [error], [products], ...; an object yields its own
    property or [undefined]. *)
Definition get (v : Json.value) (key : string)
  : Completion (option Json.value) :=
  match v with
  | Json.Null => Abrupt (TypeError (NullProperty key))
  | Json.Obj props => Normal (Json.lookup key props)
  | _ => Normal None
  end.

Fixpoint join (sep : string) (parts : list string) : string :=
  match parts with
  | [] => ""
  | [x] => x
  | x :: parts' => x +:+ sep +:+ join sep parts'
  end.

(** [ToString]: an array is joined with commas, [null] elements
    giving the empty string; a plain object prints as
    ["[object Object]"] unless an own property hides
    [Object.prototype.toString], in which case the conversion finds
    nothing callable and throws a [TypeError]. *)
Fixpoint ToString (v : Json.value) : Completion string :=
  match v with
  | Json.Null => Normal "null"
  | Json.Bool b => Normal (if b then "true" else "false")
  | Json.Num q => Normal (Number_toString q)
  | Json.Str s => Normal s
  | Json.Arr elems =>
      match traverse
              (λ x, match x with
                    | Json.Null => Normal ""
                    | _ => ToString x
                    end) elems with
      | Abrupt e => Abrupt e
      | Normal parts => Normal (join "," parts)
      end
  | Json.Obj props =>
      match Json.lookup "toString" props with
      | Some _ => Abrupt (TypeError NotPrimitive)
      | None => Normal "[object Object]"
      end
  end.

(** [v.length]: arrays and strings have one (only its being zero
    matters here, so the count of characters stands for it); an
    object has it as an own property or not at all. *)
Definition length_of (v : Json.value) : option Json.value :=
  match v with
  | Json.Arr elems => Some (Json.Num (inject_Z (Z.of_nat (length elems))))
  | Json.Str s => Some (Json.Num (inject_Z (Z.of_nat (String.length s))))
  | Json.Obj props => Json.lookup "length" props
  | _ => None
  end.

(** [x === 0] *)
Definition strictly_zero (x : option Json.value) : bool :=
  match x with
  | Some (Json.Num q) => Qeq_bool q 0
  | _ => false
  end.

(** [x > 0]; an operand that is not a number goes through the
    engine's conversion, [None] being [NaN]. *)
Variable ToNumber : Json.value → Completion (option Q).

Definition greater_than_zero (x : option Json.value) : Completion bool :=
  match x with
  | None => Normal false
  | Some (Json.Num q) => Normal (negb (Qle_bool q 0))
  | Some v =>
      match ToNumber v with
      | Abrupt e => Abrupt e
      | Normal (Some q) => Normal (negb (Qle_bool q 0))
      | Normal None => Normal false
      end
  end.

(** [new ApiError(message, status, data)]: [super(message)] stores
    [ToString(message)] unless the argument is [undefined]. *)
Definition new_ApiError (message : option Json.value) (status : Z)
    (data : Json.value) : Completion ApiError :=
  match message with
  | None => Normal (mkApiError "" "ApiError" status data)
  | Some m =>
      match ToString m with
      | Abrupt e => Abrupt e
      | Normal msg => Normal (mkApiError msg "ApiError" status data)
      end
  end.
End Ops.
End JsOps.

(** ** Asynchronous functions

    An [async] function is a tree: it returns, throws, awaits the outcome
    of a [fetch] it has just issued, calls a state setter of the [App]
    component, or awaits [Promise.all] of two promises that are already
    running.  [Background] only appears while a tree runs: it holds a promise
    nobody awaits any more. *)

Record Request := mkRequest {
  req_url : string;
  req_method : option string;                     (* [None]: not given *)
  req_headers : option (list (string * string));
  req_body : option string
}.

(** [fetch] sends [GET] unless the init object names a method. *)
Definition effective_method (req : Request) : string :=
  default "GET" (req_method req).

(** The body as [response.json()] will find it. *)
Inductive Body :=
| Parsed (v : Json.value)
| Unparsable (syntax_error_message : string).

Record Response := mkResponse {
  response_status : Z;
  response_body : Body
}.

(** [response.ok] *)
Definition response_ok (response : Response) : bool :=
  (200 <=? response_status response) && (response_status response <=? 299).

Inductive FetchOutcome :=
| Rejected (error_name error_message : string)   (* no response *)
| Resolved (response : Response).

Module Async.
Section Tree.
Context {St : Type}.

Inductive t (A : Type) : Type :=
| Ret (a : A)
| Throw (e : Exn)
| Fetch (req : Request) (k : FetchOutcome → t A)
| SetState (u : St → St) (k : t A)
| All2 (l r : t Json.value)
       (k : Json.value → Json.value → t A) (h : Exn → t A)
| Background (b : t Json.value) (m : t A).
Arguments Ret {A}.
Arguments Throw {A}.
Arguments Fetch {A}.
Arguments SetState {A}.
Arguments All2 {A}.
Arguments Background {A}.

Fixpoint bind {A B : Type} (m : t A) (f : A → t B) : t B :=
  match m with
  | Ret a => f a
  | Throw e => Throw e
  | Fetch req k => Fetch req (λ o, bind (k o) f)
  | SetState u k => SetState u (bind k f)
  | All2 l r k h =>
      All2 l r (λ a b, bind (k a b) f) (λ e, bind (h e) f)
  | Background b m' => Background b (bind m' f)
  end.

(** [try { m } catch (error) { handler }] *)
Fixpoint try_catch {A : Type} (m : t A) (handler : Exn → t A) : t A :=
  match m with
  | Ret a => Ret a
  | Throw e => handler e
  | Fetch req k => Fetch req (λ o, try_catch (k o) handler)
  | SetState u k => SetState u (try_catch k handler)
  | All2 l r k h =>
      All2 l r (λ a b, try_catch (k a b) handler)
               (λ e, try_catch (h e) handler)
  | Background b m' => Background b (try_catch m' handler)
  end.

(** [try { m } finally { fin }], for a [fin] that neither returns nor
    throws. *)
Fixpoint try_finally {A : Type} (m : t A) (fin : t unit) : t A :=
  match m with
  | Ret a => bind fin (λ _, Ret a)
  | Throw e => bind fin (λ _, Throw e)
  | Fetch req k => Fetch req (λ o, try_finally (k o) fin)
  | SetState u k => SetState u (try_finally k fin)
  | All2 l r k h =>
      All2 l r (λ a b, try_finally (k a b) fin)
               (λ e, try_finally (h e) fin)
  | Background b m' => Background b (try_finally m' fin)
  end.

Definition lift {A : Type} (c : Completion A) : t A :=
  match c with
  | Normal a => Ret a
  | Abrupt e => Throw e
  end.

(** [await fetch(url, init)] *)
Definition fetch (req : Request) : t Response :=
  Fetch req (λ o,
    match o with
    | Rejected error_name error_message =>
        Throw (JsErr error_name error_message)
    | Resolved response => Ret response
    end).

(** [response.json()] *)
Definition json (response : Response) : t Json.value :=
  match response_body response with
  | Parsed v => Ret v
  | Unparsable msg => Throw (JsErr "SyntaxError" msg)
  end.

(** [setX(v)] *)
Definition set (u : St → St) : t unit := SetState u (Ret tt).

(** *** Running a tree

    A suspended tree waits for the requests of [pending]; they are in
    flight.  The network answers one of them ([deliver]), the code runs
    on until every branch waits again or is finished ([start]). *)
Fixpoint pending {A : Type} (m : t A) : list Request :=
  match m with
  | Ret _ | Throw _ => []
  | Fetch req _ => [req]
  | SetState _ k => pending k
  | All2 l r _ _ => pending l ++ pending r
  | Background b m' => pending b ++ pending m'
  end.

Fixpoint deliver {A : Type} (i : nat) (o : FetchOutcome) (m : t A) : t A :=
  match m with
  | Ret _ | Throw _ => m
  | Fetch req k => match i with O => k o | S _ => m end
  | SetState u k => SetState u (deliver i o k)
  | All2 l r k h =>
      if decide (i < length (pending l))%nat
      then All2 (deliver i o l) r k h
      else All2 l (deliver (i - length (pending l)) o r) k h
  | Background b m' =>
      if decide (i < length (pending b))%nat
      then Background (deliver i o b) m'
      else Background b (deliver (i - length (pending b)) o m')
  end.

(** A settled promise that nobody awaits is dropped. *)
Definition background {A : Type} (b : t Json.value) (m : t A) : t A :=
  match b with
  | Ret _ | Throw _ => m
  | _ => Background b m
  end.

(** [Promise.all] fulfils when both promises have, and rejects as soon as
    one does: the handler runs while the other promise goes on in the
    background. *)
Fixpoint start {A : Type} (m : t A) (s : St) : t A * St :=
  match m with
  | Ret _ | Throw _ | Fetch _ _ => (m, s)
  | SetState u k => start k (u s)
  | All2 l r k h =>
      let '(l', s) := start l s in
      let '(r', s) := start r s in
      match l', r' with
      | Throw e, _ =>
          let '(m', s) := start (h e) s in (background r' m', s)
      | Ret a, Ret b => start (k a b) s
      | _, Throw e =>
          let '(m', s) := start (h e) s in (background l' m', s)
      | _, _ => (All2 l' r' k h, s)
      end
  | Background b m' =>
      let '(b', s) := start b s in
      let '(m'', s) := start m' s in
      (background b' m'', s)
  end.

Definition step {A : Type} (c : t A * St) (d : nat * FetchOutcome) : t A * St :=
  start (deliver d.1 d.2 c.1) c.2.

(** The call, then the answers [ds] in the order the network gives
    them. *)
Definition run {A : Type} (m : t A) (s : St) (ds : list (nat * FetchOutcome))
  : t A * St :=
  foldl step (start m s) ds.

(** Requests in flight. *)
Definition in_flight {A : Type} (c : t A * St) : list Request := pending c.1.

(** *** How many requests a tree can have in flight

    A [sequential] tree awaits one thing at a time.  [fits n m]: running
    [m] never needs more than [n] requests in flight, the promises it
    leaves running in the background included. *)
Inductive sequential : ∀ A, t A → Prop :=
| seq_Ret A (a : A) : sequential A (Ret a)
| seq_Throw A e : sequential A (Throw e)
| seq_Fetch A req (k : FetchOutcome → t A) :
    (∀ o, sequential A (k o)) → sequential A (Fetch req k)
| seq_SetState A u (k : t A) :
    sequential A k → sequential A (SetState u k).

Inductive fits : ∀ A, nat → t A → Prop :=
| fits_Ret A n (a : A) : fits A n (Ret a)
| fits_Throw A n e : fits A n (Throw e)
| fits_Fetch A n req (k : FetchOutcome → t A) :
    (∀ o, fits A (S n) (k o)) → fits A (S n) (Fetch req k)
| fits_SetState A n u (k : t A) :
    fits A n k → fits A n (SetState u k)
| fits_All2 A n l r (k : Json.value → Json.value → t A) h :
    sequential _ l → sequential _ r →
    (∀ a b, fits A (S (S n)) (k a b)) →
    (∀ e, fits A (S n) (h e)) →
    fits A (S (S n)) (All2 l r k h)
| fits_Background A n b (m : t A) :
    sequential _ b → fits A n m → fits A (S n) (Background b m).

(** [await Promise.all([l, r])] for two calls already made. *)
Definition all2 (l r : t Json.value) : t (Json.value * Json.value) :=
  All2 l r (λ a b, Ret (a, b)) (λ e, Throw e).
End Tree.
Arguments t : clear implicits.
Arguments Ret {St A}.
Arguments Throw {St A}.
Arguments Fetch {St A}.
Arguments SetState {St A}.
Arguments All2 {St A}.
Arguments Background {St A}.
Arguments sequential {St A}.
Arguments fits {St A}.

#[global] Instance async_bind {St} : MBind (t St) :=
  λ A B f m, bind m f.
#[global] Instance async_ret {St} : MRet (t St) := λ A a, Ret a.
End Async.

(** ** services/api.js

    [console.error] calls write to the developer console and are left
    out. *)

Module Api.
Import Async.
Section Client.
Context {St : Type}.
(** Build-time environment and platform functions. *)
Variable REACT_APP_API_URL : option string.
Variable Number_toString : Q → string.
Variable engine_message : EngineError → string.
Variable JSON_stringify : Json.value → string.
Variable encodeURIComponent : string → string.

Local Abbreviation get := (JsOps.get engine_message).
Local Abbreviation ToString :=
  (JsOps.ToString Number_toString engine_message).
Local Abbreviation new_ApiError :=
  (JsOps.new_ApiError Number_toString engine_message).

Local Abbreviation Task := (Async.t St).

(** [process.env.REACT_APP_API_URL || 'http://localhost:5000/api'] *)
Definition API_BASE_URL : string :=
  match REACT_APP_API_URL with
  | Some s => if String.eqb s "" then "http://localhost:5000/api" else s
  | None => "http://localhost:5000/api"
  end.

(** The [options] argument; [{}] is [no_options]. *)
Record Options := mkOptions {
  opt_method : option string;
  opt_headers : option (list (string * string));
  opt_body : option string
}.
Definition no_options : Options := mkOptions None None None.

(** [{ headers: {'Content-Type': ..., ...options.headers}, ...options }]:
    the spread of [options] comes last, so a [headers] property of
    [options] replaces the merged one. *)
Definition config_of (url : string) (options : Options) : Request :=
  {| req_url := url;
     req_method := opt_method options;
     req_headers :=
       Some (match opt_headers options with
             | Some headers => headers
             | None => [("Content-Type", "application/json")]
             end);
     req_body := opt_body options |}.

Definition network_error : ApiError :=
  mkApiError "Network error - please check your connection" "ApiError"
             0 Json.Null.

(** [data.detail || data.error || `HTTP error ${response.status}`] *)
Definition message_expr (data : Json.value) (status : Z)
  : Completion (option Json.value) :=
  match get data "detail" with
  | Abrupt e => Abrupt e
  | Normal detail =>
      if Json.truthy detail then Normal detail
      else
        match get data "error" with
        | Abrupt e => Abrupt e
        | Normal error =>
            Normal (Json.or error
                      (Some (Json.Str ("HTTP error " +:+ pretty status))))
        end
  end.

Definition apiRequest (endpoint : string) (options : Options)
  : Task Json.value :=
  let url := API_BASE_URL +:+ endpoint in
  let config := config_of url options in
  try_catch
    (response ← fetch config;
     data ← json response;
     if negb (response_ok response) then
       message ← lift (message_expr data (response_status response));
       error ← lift (new_ApiError message
                       (response_status response) data);
       Throw (ApiErr error)
     else
       Ret data)
    (λ error,
       if instanceof_ApiError error then Throw error
       else (* Network or other errors *)
         Throw (ApiErr network_error)).

(** [response.key || response] *)
Definition prop_or_self (response : Json.value) (key : string)
  : Completion Json.value :=
  match get response key with
  | Abrupt e => Abrupt e
  | Normal p =>
      Normal (match Json.or p (Some response) with
              | Some v => v
              | None => response
              end)
  end.

Definition fetchProducts : Task Json.value :=
  try_catch
    (response ← apiRequest "/products" no_options;
     if Json.Array_isArray response then Ret response
     else lift (prop_or_self response "products"))
    (λ error, Throw error).

Definition fetchCategories : Task Json.value :=
  try_catch
    (response ← apiRequest "/categories" no_options;
     lift (prop_or_self response "categories"))
    (λ error, Throw error).

Definition fetchProductById (productId : Json.value) : Task Json.value :=
  try_catch
    (id ← lift (ToString productId);
     response ← apiRequest ("/products/" +:+ id) no_options;
     lift (prop_or_self response "product"))
    (λ error, Throw error).

(** [searchProducts(query, limit = 20)] *)
Definition searchProducts (query : string) (limit : option Z)
  : Task Json.value :=
  let limit := default 20 limit in
  try_catch
    (response ← apiRequest ("/products/search?query="
                             +:+ encodeURIComponent query
                             +:+ "&limit=" +:+ pretty limit) no_options;
     lift (prop_or_self response "products"))
    (λ error, Throw error).

Definition filterProducts (filters : Json.value) : Task Json.value :=
  try_catch
    (response ← apiRequest "/products/filter"
                  (mkOptions (Some "POST") None
                             (Some (JSON_stringify filters)));
     lift (prop_or_self response "products"))
    (λ error, Throw error).

(** The two arguments are the [userPreferences] object and the
    [browsingHistory] array of the [App] state. *)
Definition getRecommendations (preferences browsingHistory : Json.value)
  : Task Json.value :=
  try_catch
    (response ← apiRequest "/recommendations"
                  (mkOptions (Some "POST") None
                     (Some (JSON_stringify
                              (Json.Obj
                                 [("preferences", preferences);
                                  ("browsing_history",
                                   browsingHistory)]))));
     Ret response)
    (λ error, Throw error).

(** *** The wrapping of a non-2xx payload, in the claims' terms *)

(** The payload's field [key], if the payload is an object that has
    it. *)
Definition field (payload : Json.value) (key : string)
  : option Json.value :=
  match payload with
  | Json.Obj props => Json.lookup key props
  | _ => None
  end.

Definition http_error (status : Z) : Json.value :=
  Json.Str ("HTTP error " +:+ pretty status).

(** As claimed: [detail] if present, otherwise [error] if present,
    otherwise the [HTTP error] text. *)
Definition claimed_message (payload : Json.value) (status : Z)
  : Json.value :=
  match field payload "detail" with
  | Some detail => detail
  | None =>
      match field payload "error" with
      | Some error => error
      | None => http_error status
      end
  end.

(** As amended: a field counts when it is truthy. *)
Definition wrapped_message (payload : Json.value) (status : Z)
  : Json.value :=
  match field payload "detail" with
  | Some detail =>
      if Json.truthy (Some detail) then detail
      else
        match field payload "error" with
        | Some error =>
            if Json.truthy (Some error) then error
            else http_error status
        | None => http_error status
        end
  | None =>
      match field payload "error" with
      | Some error =>
          if Json.truthy (Some error) then error else http_error status
      | None => http_error status
      end
  end.

(** How [apiRequest] ends for each outcome of its request. *)
Definition api_outcome (o : FetchOutcome) : Completion Json.value :=
  match o with
  | Rejected _ _ => Abrupt (ApiErr network_error)
  | Resolved response =>
      match response_body response with
      | Unparsable _ => Abrupt (ApiErr network_error)
      | Parsed payload =>
          if response_ok response then Normal payload
          else
            match payload with
            | Json.Null => Abrupt (ApiErr network_error)
            | _ =>
                match ToString (wrapped_message payload
                                  (response_status response)) with
                | Normal msg =>
                    Abrupt (ApiErr (mkApiError msg "ApiError"
                                      (response_status response)
                                      payload))
                | Abrupt _ => Abrupt (ApiErr network_error)
                end
            end
      end
  end.

(** The [json()] promise is returned, not awaited, so it settles
    outside the [try]. *)
Definition healthCheck : Task Json.value :=
  response ← try_catch
    (response ← fetch (mkRequest "http://localhost:5000/health"
                                 None None None);
     Ret response)
    (λ error, Throw error);
  json response.

(** Every exported operation except [healthCheck], called with
    arbitrary arguments. *)
Definition other_operations (productId : Json.value) (query : string)
    (limit : option Z) (filters preferences browsingHistory : Json.value)
  : list (Task Json.value) :=
  [fetchProducts; fetchCategories; fetchProductById productId;
   searchProducts query limit; filterProducts filters;
   getRecommendations preferences browsingHistory].
End Client.
End Api.

(** ** App.js: the browsing-history state *)

Module App.
Section History.
Context {Id : Type} `{EqDecision Id}.

(** The updater passed to [setBrowsingHistory] by [handleProductClick]. *)
Definition handleProductClick (productId : Id) (prevHistory : list Id)
  : list Id :=
  let filteredHistory := filter (λ id, id ≠ productId) prevHistory in
  Js.slice 0 50 (productId :: filteredHistory).

(** [handleClearHistory]: [setBrowsingHistory([])]. *)
Definition handleClearHistory (prevHistory : list Id) : list Id := [].

(** The same move-to-front step without the cap of 50. *)
Definition move_to_front (productId : Id) (prevHistory : list Id) : list Id :=
  productId :: filter (λ id, id ≠ productId) prevHistory.

(** The two handlers are the only callers of [setBrowsingHistory]. *)
Inductive HistoryAction :=
| ProductClick (productId : Id)
| ClearHistory.

Definition history_step (h : list Id) (a : HistoryAction) : list Id :=
  match a with
  | ProductClick productId => handleProductClick productId h
  | ClearHistory => handleClearHistory h
  end.

(** [useState([])], then any sequence of handler calls. *)
Definition initialHistory : list Id := [].

Definition run_history (acts : list HistoryAction) : list Id :=
  foldl history_step initialHistory acts.

Inductive history_reachable : list Id → Prop :=
| reach_initial : history_reachable initialHistory
| reach_step h a :
    history_reachable h → history_reachable (history_step h a).

(** The clicks since the last clear, oldest first. *)
Definition clicks_since_clear (acts : list HistoryAction) : list Id :=
  foldl (λ clicks a,
           match a with
           | ProductClick productId => clicks ++ [productId]
           | ClearHistory => []
           end) [] acts.
End History.
Arguments HistoryAction : clear implicits.

(** *** The asynchronous handlers *)

(** The [useState] cells the asynchronous handlers write. *)
Record State := mkState {
  products : Json.value;
  categories : Json.value;
  isInitialLoading : bool;
  recommendations : Json.value;
  isLoadingRecommendations : bool;
  error : option string;          (* [null] or the banner text *)
  activeView : string;
  apiStatus : string
}.

Definition initialState : State :=
  mkState (Json.Arr []) (Json.Arr []) true (Json.Arr []) false None
          "catalog" "unknown".

Definition setProducts (v : Json.value) (s : State) : State :=
  mkState v (categories s) (isInitialLoading s) (recommendations s)
          (isLoadingRecommendations s) (error s) (activeView s) (apiStatus s).
Definition setCategories (v : Json.value) (s : State) : State :=
  mkState (products s) v (isInitialLoading s) (recommendations s)
          (isLoadingRecommendations s) (error s) (activeView s) (apiStatus s).
Definition setIsInitialLoading (v : bool) (s : State) : State :=
  mkState (products s) (categories s) v (recommendations s)
          (isLoadingRecommendations s) (error s) (activeView s) (apiStatus s).
Definition setRecommendations (v : Json.value) (s : State) : State :=
  mkState (products s) (categories s) (isInitialLoading s) v
          (isLoadingRecommendations s) (error s) (activeView s) (apiStatus s).
Definition setIsLoadingRecommendations (v : bool) (s : State) : State :=
  mkState (products s) (categories s) (isInitialLoading s) (recommendations s)
          v (error s) (activeView s) (apiStatus s).
Definition setError (v : option string) (s : State) : State :=
  mkState (products s) (categories s) (isInitialLoading s) (recommendations s)
          (isLoadingRecommendations s) v (activeView s) (apiStatus s).
Definition setActiveView (v : string) (s : State) : State :=
  mkState (products s) (categories s) (isInitialLoading s) (recommendations s)
          (isLoadingRecommendations s) (error s) v (apiStatus s).
Definition setApiStatus (v : string) (s : State) : State :=
  mkState (products s) (categories s) (isInitialLoading s) (recommendations s)
          (isLoadingRecommendations s) (error s) (activeView s) v.

(** The [userPreferences] object; [other] holds the further properties a
    spread has copied into it. *)
Record UserPreferences := mkUserPreferences {
  pref_priceRange : string;
  pref_categories : list string;
  pref_brands : list string;
  pref_minRating : Q;
  pref_lifestyleType : string;
  pref_specificNeeds : string;
  pref_other : list (string * Json.value)
}.

Definition UserPreferences_value (p : UserPreferences) : Json.value :=
  Json.Obj
    ([("priceRange", Json.Str (pref_priceRange p));
      ("categories", Json.Arr (map Json.Str (pref_categories p)));
      ("brands", Json.Arr (map Json.Str (pref_brands p)));
      ("minRating", Json.Num (pref_minRating p));
      ("lifestyleType", Json.Str (pref_lifestyleType p));
      ("specificNeeds", Json.Str (pref_specificNeeds p))]
     ++ pref_other p).

(** The object the preferences panel hands to [handlePreferencesChange]:
    the three properties it validates may be missing ([undefined], [null];
    for [minRating] also [NaN], which is as falsy). *)
Record NewPreferences := mkNewPreferences {
  new_priceRange : string;
  new_categories : option (list string);
  new_brands : option (list string);
  new_minRating : option Q;
  new_lifestyleType : string;
  new_specificNeeds : string;
  new_other : list (string * Json.value)
}.

(** The value [handlePreferencesChange] passes to [setUserPreferences]. *)
Definition handlePreferencesChange (newPreferences : NewPreferences)
  : UserPreferences :=
  (* Validate preferences *)
  {| pref_priceRange := new_priceRange newPreferences;
     pref_categories := default [] (new_categories newPreferences);
     pref_brands := default [] (new_brands newPreferences);
     pref_minRating :=
       Js.Math_max 0
         (Js.Math_min 5 (Js.or_zero (new_minRating newPreferences)));
     pref_lifestyleType := new_lifestyleType newPreferences;
     pref_specificNeeds := new_specificNeeds newPreferences;
     pref_other := new_other newPreferences |}.

(** A stored [userPreferences] object handed back unchanged. *)
Definition as_new (p : UserPreferences) : NewPreferences :=
  {| new_priceRange := pref_priceRange p;
     new_categories := Some (pref_categories p);
     new_brands := Some (pref_brands p);
     new_minRating := Some (pref_minRating p);
     new_lifestyleType := pref_lifestyleType p;
     new_specificNeeds := pref_specificNeeds p;
     new_other := pref_other p |}.

(** [computedValues]; a string is truthy when it is not empty. *)
Definition hasPreferences (userPreferences : UserPreferences) : bool :=
  (0 <? length (pref_categories userPreferences))%nat
  || negb (String.eqb (pref_priceRange userPreferences) "all")
  || (0 <? length (pref_brands userPreferences))%nat
  || negb (Qle_bool (pref_minRating userPreferences) 0)
  || negb (String.eqb (pref_lifestyleType userPreferences) "")
  || negb (String.eqb (pref_specificNeeds userPreferences) "").



Section Effects.
Import Async.
Variable REACT_APP_API_URL : option string.
Variable Number_toString : Q → string.
Variable engine_message : EngineError → string.
Variable ToNumber : Json.value → Completion (option Q).
Variable JSON_stringify : Json.value → string.

Local Abbreviation Task := (Async.t State).
Local Abbreviation get := (JsOps.get engine_message).
Local Abbreviation ToString :=
  (JsOps.ToString Number_toString engine_message).
Local Abbreviation fetchProducts :=
  (Api.fetchProducts (St:=State) REACT_APP_API_URL Number_toString
                     engine_message).
Local Abbreviation fetchCategories :=
  (Api.fetchCategories (St:=State) REACT_APP_API_URL Number_toString
                       engine_message).
Local Abbreviation getRecommendations :=
  (Api.getRecommendations (St:=State) REACT_APP_API_URL Number_toString
                          engine_message JSON_stringify).

(** [new Error(message)] *)
Definition new_Error (message : string) : Exn := JsErr "Error" message.

(** [!productsData || productsData.length === 0] *)
Definition no_products (productsData : Json.value) : bool :=
  negb (Json.truthy (Some productsData))
  || JsOps.strictly_zero (JsOps.length_of productsData).

(** The body of the mount effect. *)
Definition loadInitialData : Task unit :=
  try_finally
    (try_catch
       (set (setIsInitialLoading true);;
        set (setError None);;
        (* Check API health first *)
        try_catch
          (Api.healthCheck;; set (setApiStatus "connected"))
          (λ err,
             set (setApiStatus "disconnected");;
             Throw (new_Error "Unable to connect to the recommendation service. Please check if the backend is running."));;
        (* Load products and categories in parallel *)
        '(productsData, categoriesData) ←
          all2 fetchProducts
               (try_catch fetchCategories (λ _, Ret (Json.Arr [])));
        if no_products productsData then
          Throw (new_Error "No products available. Please check the backend service.")
        else
          set (setProducts productsData);;
          set (setCategories categoriesData))
       (λ err,
          (if instanceof_ApiError err then
             set (setError (Some ("API Error: " +:+ Exn_message err)))
           else
             set (setError
                    (Some (if String.eqb (Exn_message err) ""
                           then "Failed to load product data. Please refresh the page."
                           else Exn_message err))));;
          set (setApiStatus "error")))
    (set (setIsInitialLoading false)).

(** [handleGetRecommendations], with the [userPreferences] and
    [browsingHistory] of the render that created it. *)
Definition handleGetRecommendations (userPreferences : UserPreferences)
    (browsingHistory : list Json.value) : Task unit :=
  (* Validation *)
  if Nat.eqb (length browsingHistory) 0
     && Nat.eqb (length (pref_categories userPreferences)) 0
  then
    set (setError (Some "Please set some preferences or browse products before getting recommendations."))
  else
    set (setIsLoadingRecommendations true);;
    set (setError None);;
    try_finally
      (try_catch
         (response ← getRecommendations
                       (UserPreferences_value userPreferences)
                       (Json.Arr browsingHistory);
          recs ← lift (get response "recommendations");
          found ← (if Json.truthy recs
                   then lift (JsOps.greater_than_zero ToNumber
                                (recs ≫= JsOps.length_of))
                   else Ret false);
          if found : bool then
            set (setRecommendations (default Json.Null recs));;
            set (setActiveView "recommendations")
          else
            set (setRecommendations (Json.Arr []));;
            error ← lift (get response "error");
            if Json.truthy error then
              text ← lift (ToString (default Json.Null error));
              set (setError (Some ("Recommendation Error: " +:+ text)))
            else
              set (setError (Some "No recommendations found. Try adjusting your preferences or browsing more products.")))
         (λ err,
            (if instanceof_ApiError err then
               set (setError (Some ("Failed to get recommendations: "
                                     +:+ Exn_message err)))
             else
               set (setError (Some "Unable to generate recommendations. Please try again.")));;
            set (setRecommendations (Json.Arr []))))
      (set (setIsLoadingRecommendations false)).
(** *** What the handlers leave in the state

    The same handlers read as functions from the answers of the network to
    the final state; the theorems relate them to the runs of the trees. *)

(** How [healthCheck] ends. *)
Definition health_result (o : FetchOutcome) : Completion Json.value :=
  match o with
  | Rejected error_name error_message =>
      Abrupt (JsErr error_name error_message)
  | Resolved response =>
      match response_body response with
      | Parsed payload => Normal payload
      | Unparsable msg => Abrupt (JsErr "SyntaxError" msg)
      end
  end.

(** How [fetchProducts()] ends. *)
Definition products_result (o : FetchOutcome) : Completion Json.value :=
  match Api.api_outcome Number_toString engine_message o with
  | Abrupt e => Abrupt e
  | Normal body =>
      if Json.Array_isArray body then Normal body
      else Api.prop_or_self engine_message body "products"
  end.

(** How [fetchCategories().catch(() => [])] ends: it cannot fail. *)
Definition categories_result (o : FetchOutcome) : Json.value :=
  match Api.api_outcome Number_toString engine_message o with
  | Abrupt _ => Json.Arr []
  | Normal body =>
      match Api.prop_or_self engine_message body "categories" with
      | Normal v => v
      | Abrupt _ => Json.Arr []
      end
  end.

(** The banner the [catch] block of [loadInitialData] shows for [err]. *)
Definition load_banner (err : Exn) : string :=
  if instanceof_ApiError err then "API Error: " +:+ Exn_message err
  else if String.eqb (Exn_message err) ""
       then "Failed to load product data. Please refresh the page."
       else Exn_message err.

(** [catch] and [finally] of [loadInitialData]. *)
Definition load_failed (err : Exn) (s : State) : State :=
  setIsInitialLoading false
    (setApiStatus "error" (setError (Some (load_banner err)) s)).

(** The state after the initial load, from the answers to the health check
    [oh], the products request [op] and the categories request [oc]. *)
Definition load_result (s : State) (oh op oc : FetchOutcome) : State :=
  let s := setError None (setIsInitialLoading true s) in
  match health_result oh with
  | Abrupt _ =>
      load_failed
        (new_Error "Unable to connect to the recommendation service. Please check if the backend is running.")
        (setApiStatus "disconnected" s)
  | Normal _ =>
      let s := setApiStatus "connected" s in
      match products_result op with
      | Abrupt e => load_failed e s
      | Normal productsData =>
          if no_products productsData then
            load_failed
              (new_Error "No products available. Please check the backend service.")
              s
          else
            setIsInitialLoading false
              (setCategories (categories_result oc)
                 (setProducts productsData s))
      end
  end.

(** [catch] of [handleGetRecommendations]. *)
Definition recommendations_failed (err : Exn) (s : State) : State :=
  setRecommendations (Json.Arr [])
    (setError
       (Some (if instanceof_ApiError err
              then "Failed to get recommendations: " +:+ Exn_message err
              else "Unable to generate recommendations. Please try again."))
       s).

(** The [try] block of [handleGetRecommendations] after the response has
    arrived: the exception it ends with, if any, and the state. *)
Definition show_recommendations (response : Json.value) (s : State)
  : option Exn * State :=
  match get response "recommendations" with
  | Abrupt e => (Some e, s)
  | Normal recs =>
      match (if Json.truthy recs
             then JsOps.greater_than_zero ToNumber (recs ≫= JsOps.length_of)
             else Normal false) with
      | Abrupt e => (Some e, s)
      | Normal true =>
          (None,
           setActiveView "recommendations"
             (setRecommendations (default Json.Null recs) s))
      | Normal false =>
          let s := setRecommendations (Json.Arr []) s in
          match get response "error" with
          | Abrupt e => (Some e, s)
          | Normal error =>
              if Json.truthy error then
                match ToString (default Json.Null error) with
                | Abrupt e => (Some e, s)
                | Normal text =>
                    (None,
                     setError (Some ("Recommendation Error: " +:+ text)) s)
                end
              else
                (None,
                 setError (Some "No recommendations found. Try adjusting your preferences or browsing more products.") s)
          end
      end
  end.

(** The state after [handleGetRecommendations] has received the answer [o]
    to its request. *)
Definition recommendations_result (s : State) (o : FetchOutcome) : State :=
  let s := setError None (setIsLoadingRecommendations true s) in
  setIsLoadingRecommendations false
    (match Api.api_outcome Number_toString engine_message o with
     | Abrupt e => recommendations_failed e s
     | Normal response =>
         match show_recommendations response s with
         | (Some e, s') => recommendations_failed e s'
         | (None, s') => s'
         end
     end).

(** The validation at the head of [handleGetRecommendations]. *)
Definition nothing_to_go_on (userPreferences : UserPreferences)
    (browsingHistory : list Json.value) : bool :=
  Nat.eqb (length browsingHistory) 0
  && Nat.eqb (length (pref_categories userPreferences)) 0.

End Effects.
End App.

(** ** BrowsingHistory.js: the products shown by the history panel *)

Module BrowsingHistory.
Section Panel.
Context {Id : Type} `{EqDecision Id}.

(** [products.find(p => p.id === productId)] *)
Definition find_product (products : list (Product Id)) (productId : Id)
  : option (Product Id) :=
  Js.find (λ p, bool_decide (product_id p = productId)) products.

(** [history.map(...).filter(Boolean).reverse()]; the panel renders
    [historyProducts.map(...)] in this order. *)
Definition historyProducts (history : list Id)
    (products : list (Product Id)) : list (Product Id) :=
  reverse (Js.filter_Boolean (map (find_product products) history)).

(** The claim's wording, step by step: map each ID to its product,
    drop the IDs without one, reverse. *)
Definition panel_spec (history : list Id)
    (products : list (Product Id)) : list (Product Id) :=
  rev (omap (λ productId,
               (λ i, i.2) <$> list_find (λ p, product_id p = productId)
                                        products)
            history).

(** IDs of the history that have a product in the catalog. *)
Definition surviving (history : list Id) (products : list (Product Id))
  : list Id :=
  filter (λ productId, productId ∈ map product_id products) history.
End Panel.
Section Insights.
Context {Id : Type}.

Record PriceSpan := mkPriceSpan { span_min : Q; span_max : Q }.

(** The object [browsingInsights] returns, without [avgPrice] (a rounded
    floating-point mean) and [mostViewedCategory] (which depends on the
    enumeration order of the keys of an object). *)
Record Insights := mkInsights {
  totalViewed : nat;
  priceRange : PriceSpan;
  uniqueCategories : nat;
  uniqueBrands : nat;
  topBrands : list string
}.

(** [null] when no product of the history was found; otherwise
    [Math.min(...prices)] and [Math.max(...prices)] run over at least one
    price. *)
Definition browsingInsights (historyProducts : list (Product Id))
  : option Insights :=
  match historyProducts with
  | [] => None
  | first :: rest =>
      let categories := map product_category historyProducts in
      let brands := map product_brand historyProducts in
      Some {| totalViewed := length historyProducts;
              priceRange :=
                {| span_min :=
                     foldl Js.Math_min (product_price first)
                           (map product_price rest);
                   span_max :=
                     foldl Js.Math_max (product_price first)
                           (map product_price rest) |};
              uniqueCategories := length (Js.Set_values categories);
              uniqueBrands := length (Js.Set_values brands);
              topBrands := Js.slice 0 3 (Js.Set_values brands) |}
  end.
End Insights.

End BrowsingHistory.

(** ** Catalog.js: the filtered and sorted product list *)

Module Catalog.

Record PriceRange := { min : Q; max : Q }.

Record Filters := {
  category : string;
  priceRange : PriceRange;
  sortBy : string;
  searchQuery : string
}.

(** [useState] initial value, also restored by [resetFilters]. *)
Definition initialFilters : Filters :=
  {| category := "all";
     priceRange := {| min := 0; max := 1000 |};
     sortBy := "rating";
     searchQuery := "" |}.

Section Filtered.
Context {Id : Type}.
(** String methods of the platform. *)
Variable trim : string → string.
Variable toLowerCase : string → string.
Variable localeCompare : string → string → Q.

Definition category_test (filters : Filters) (product : Product Id)
  : bool :=
  bool_decide (product_category product = category filters).

Definition price_test (filters : Filters) (product : Product Id) : bool :=
  Qle_bool (min (priceRange filters)) (product_price product)
  && Qle_bool (product_price product) (max (priceRange filters)).

(** [product.tags?.some(...)] is [undefined], hence falsy, without
    tags. *)
Definition search_test (query : string) (product : Product Id) : bool :=
  Js.includes (toLowerCase (product_name product)) query
  || Js.includes (toLowerCase (product_description product)) query
  || match product_tags product with
     | Some tags =>
         Js.some (λ tag, Js.includes (toLowerCase tag) query) tags
     | None => false
     end
  || Js.includes (toLowerCase (product_brand product)) query.

Definition compareFn (filters : Filters) (a b : Product Id) : Q :=
  if String.eqb (sortBy filters) "price-low" then
    product_price a - product_price b
  else if String.eqb (sortBy filters) "price-high" then
    product_price b - product_price a
  else if String.eqb (sortBy filters) "rating" then
    Js.or_zero (product_rating b) - Js.or_zero (product_rating a)
  else if String.eqb (sortBy filters) "name" then
    localeCompare (product_name a) (product_name b)
  else if String.eqb (sortBy filters) "inventory" then
    Js.or_zero (product_inventory b) - Js.or_zero (product_inventory a)
  else 0.

Definition filteredProducts (products : list (Product Id))
    (filters : Filters) : list (Product Id) :=
  let filtered := products in
  (* Category filter *)
  let filtered :=
    if negb (String.eqb (category filters) "all")
    then filter (λ product, category_test filters product) filtered
    else filtered in
  (* Price range filter *)
  let filtered := filter (λ product, price_test filters product) filtered in
  (* Search filter: a non-empty string is truthy *)
  let filtered :=
    if negb (String.eqb (trim (searchQuery filters)) "")
    then
      let query := toLowerCase (searchQuery filters) in
      filter (λ product, search_test query product) filtered
    else filtered in
  (* Sort products *)
  Js.sort (compareFn filters) filtered.

(** What the claim calls the active search filter: no constraint while
    the trimmed query is empty. *)
Definition passes_search (filters : Filters) (product : Product Id)
  : bool :=
  if String.eqb (trim (searchQuery filters)) "" then true
  else search_test (toLowerCase (searchQuery filters)) product.

(** The products the claim expects on display for a selected
    category. *)
Definition displayed_spec (filters : Filters) (product : Product Id)
  : Prop :=
  product_category product = category filters
  ∧ (min (priceRange filters) <= product_price product)%Q
  ∧ (product_price product <= max (priceRange filters))%Q
  ∧ passes_search filters product = true.

#[global] Instance displayed_spec_dec filters product :
  Decision (displayed_spec filters product).
Proof.
  unfold displayed_spec.
  assert (∀ x y : Q, Decision (x <= y)%Q) as Hle.
  { intros x y. destruct (Qlt_le_dec y x) as [Hlt|Hle].
    - right. by apply Qlt_not_le.
    - by left. }
  apply _.
Defined.
End Filtered.

Section Controls.
Context {Id : Type}.
(** String methods of the platform, as in [filteredProducts]. *)
Variable trim : string → string.
Variable toLowerCase : string → string.
(** [a] sorts before [b] in the order of [Array.prototype.sort()] without
    a comparator: the order of the UTF-16 code units. *)
Variable code_units_lt : string → string → bool.
(** [parseInt(value)]; [None] is [NaN]. *)
Variable parseInt : string → option Z.

(** The comparison [sort()] uses by default. *)
Definition default_compare (a b : string) : Q :=
  if code_units_lt a b then (-1)%Q
  else if code_units_lt b a then 1%Q
  else 0%Q.

(** [categories]: the options of the category select. *)
Definition categories (products : list (Product Id)) : list string :=
  let uniqueCategories := Js.Set_values (map product_category products) in
  Js.sort default_compare uniqueCategories.

(** The count shown beside a category:
    [products.filter(p => p.category === category).length]. *)
Definition category_count (products : list (Product Id))
    (category : string) : nat :=
  length (filter (λ p, product_category p = category) products).

(** The list [filteredProducts] sorts: [filtered] after the three
    filters. *)
Definition filtered (products : list (Product Id)) (filters : Filters)
  : list (Product Id) :=
  let filtered := products in
  let filtered :=
    if negb (String.eqb (category filters) "all")
    then filter (λ product, category_test filters product) filtered
    else filtered in
  let filtered := filter (λ product, price_test filters product) filtered in
  if negb (String.eqb (trim (searchQuery filters)) "")
  then
    let query := toLowerCase (searchQuery filters) in
    filter (λ product, search_test toLowerCase query product) filtered
  else filtered.



(** [handlePriceRangeChange(field, value)] for the two price inputs. *)
Inductive PriceField := field_min | field_max.

Definition handlePriceRangeChange (field : PriceField) (value : string)
    (prev : Filters) : Filters :=
  let bound := Js.Math_max 0 (Js.or_zero (inject_Z <$> parseInt value)) in
  {| category := category prev;
     priceRange :=
       match field with
       | field_min => {| min := bound; max := max (priceRange prev) |}
       | field_max => {| min := min (priceRange prev); max := bound |}
       end;
     sortBy := sortBy prev;
     searchQuery := searchQuery prev |}.

Definition resetFilters (prev : Filters) : Filters := initialFilters.




(** What the product card shows of the rating. *)
Inductive RangeError := Invalid_count.

(** [String.prototype.repeat(count)] for an integral [count]; the result
    is given as the list of its copies of [s]. *)
Definition repeat_string (s : string) (count : Z)
  : RangeError + list string :=
  if (count <? 0)%Z then inl Invalid_count
  else inr (replicate (Z.to_nat count) s).

(** The two [repeat] calls of the rating line: filled stars, then empty
    ones. *)
Definition rating_stars (rating : option Q)
  : RangeError + (list string * list string) :=
  let whole := Qfloor (Js.or_zero rating) in
  match repeat_string "★" whole with
  | inl e => inl e
  | inr filled =>
      match repeat_string "☆" (5 - whole) with
      | inl e => inl e
      | inr empty => inr (filled, empty)
      end
  end.
End Controls.

Section Viewed.
Context {Id : Type} `{EqDecision Id}.

(** [isProductViewed]: the card of a product in the browsing history is
    marked [Recently Viewed]. *)
Definition isProductViewed (browsingHistory : list Id) (productId : Id)
  : bool :=
  Js.Array_includes browsingHistory productId.
End Viewed.
End Catalog.

(** ** Recommendations (second component of BrowsingHistory.js) *)

Record Recommendation (Id : Type) := mkRecommendation {
  rec_product : Product Id;
  explanation : string;
  confidence_score : option Q      (* absent or [null] is [None] *)
}.
Arguments mkRecommendation {Id}.
Arguments rec_product {Id}.
Arguments explanation {Id}.
Arguments confidence_score {Id}.

Module Recommendations.
Section Sorted.
Context {Id : Type}.

Definition compareFn (a b : Recommendation Id) : Q :=
  let scoreA := Js.or_zero (confidence_score a) in
  let scoreB := Js.or_zero (confidence_score b) in
  scoreB - scoreA.

Definition sortedRecommendations
    (recommendations : Js.ArrayProp (Recommendation Id))
  : list (Recommendation Id) :=
  if negb (Js.truthy recommendations)
     || negb (Js.Array_isArray recommendations)
  then []
  else
    match recommendations with
    | Js.PropArray elems => Js.sort compareFn elems
    | _ => []
    end.

(** The score the claim orders by: a missing or falsy score counts
    as 0. *)
Definition score (r : Recommendation Id) : Q :=
  match confidence_score r with
  | Some q => q
  | None => 0
  end.
End Sorted.
Section Cards.
Context {Id : Type}.

(** The numeric literals [0.8], [0.6] and [0.4]: the values of the doubles
    they are read as. *)
Definition literal_0_8 : Q := 3602879701896397 # 4503599627370496.
Definition literal_0_6 : Q := 5404319552844595 # 9007199254740992.
Definition literal_0_4 : Q := 3602879701896397 # 9007199254740992.

Record ConfidenceDisplay := mkConfidenceDisplay {
  level : string;
  text : string;
  color : string
}.

Definition getConfidenceDisplay (score : Q) : ConfidenceDisplay :=
  if Qle_bool literal_0_8 score then
    mkConfidenceDisplay "high" "Perfect Match" "#28a745"
  else if Qle_bool literal_0_6 score then
    mkConfidenceDisplay "good" "Great Match" "#17a2b8"
  else if Qle_bool literal_0_4 score then
    mkConfidenceDisplay "fair" "Good Match" "#ffc107"
  else mkConfidenceDisplay "low" "Possible Match" "#6c757d".

(** The badge of a [RecommendationCard]:
    [getConfidenceDisplay(confidence_score || 0)]. *)
Definition confidenceDisplay (recommendation : Recommendation Id)
  : ConfidenceDisplay :=
  getConfidenceDisplay (Js.or_zero (confidence_score recommendation)).

(** [stats.total] and [stats.highConfidence] ([stats.avgConfidence], a
    floating-point mean, is left out). *)
Definition stats_total (sorted : list (Recommendation Id)) : nat :=
  length sorted.

Definition stats_highConfidence (sorted : list (Recommendation Id)) : nat :=
  let scores := map (λ r, Js.or_zero (confidence_score r)) sorted in
  length (filter (λ s, Qle_bool literal_0_8 s) scores).

(** Levels from best to worst. *)
Definition level_rank (level : string) : nat :=
  if String.eqb level "high" then 3
  else if String.eqb level "good" then 2
  else if String.eqb level "fair" then 1
  else 0.
End Cards.

End Recommendations.

(** ** UserPreferences.js: the preferences panel *)

Module UserPreferences.

(** [customPriceRange]; a property that is missing is [None]. *)
Record CustomPriceRange := mkCustomPriceRange {
  range_min : option Q;
  range_max : option Q
}.

(** The preferences object the panel edits.  [customPriceRange] and
    [additionalNotes] are [undefined] until set. *)
Record Preferences := mkPreferences {
  priceRange : string;
  customPriceRange : option CustomPriceRange;
  categories : list string;
  brands : list string;
  minRating : Q;
  lifestyleType : string;
  specificNeeds : string;
  additionalNotes : option string
}.

(** The [errors] object of [validatePreferences]: a key that was not
    assigned is [None]. *)
Record ValidationErrors := mkValidationErrors {
  err_priceRange : option string;
  err_categories : option string
}.

Definition no_errors : ValidationErrors := mkValidationErrors None None.

(** [Object.keys(errors)] *)
Definition Object_keys (errors : ValidationErrors) : list string :=
  match err_priceRange errors with Some _ => ["priceRange"] | None => [] end
  ++ match err_categories errors with
     | Some _ => ["categories"]
     | None => []
     end.

(** A string is truthy when it is not empty; [undefined] is falsy. *)
Definition truthy (v : option string) : bool :=
  match v with
  | Some s => negb (String.eqb s "")
  | None => false
  end.

(** [a >= b] and [a < 0] on numbers that may be [undefined]: every
    comparison with [undefined] is false. *)
Definition ge (a b : option Q) : bool :=
  match a, b with
  | Some x, Some y => Qle_bool y x
  | _, _ => false
  end.

Definition negative (a : option Q) : bool :=
  match a with
  | Some x => negb (Qle_bool 0 x)
  | None => false
  end.

Definition validatePreferences (prefs : Preferences) : ValidationErrors :=
  let errors := no_errors in
  (* Price range validation *)
  let errors :=
    if String.eqb (priceRange prefs) "custom" then
      let min := customPriceRange prefs ≫= range_min in
      let max := customPriceRange prefs ≫= range_max in
      let errors :=
        if ge min max then
          mkValidationErrors
            (Some "Minimum price must be less than maximum price")
            (err_categories errors)
        else errors in
      if negative min then
        mkValidationErrors (Some "Prices cannot be negative")
                           (err_categories errors)
      else errors
    else errors in
  (* Category validation *)
  if (5 <? length (categories prefs))%nat then
    mkValidationErrors
      (err_priceRange errors)
      (Some "Please select no more than 5 categories for better recommendations")
  else errors.

(** The two state cells of the panel the handlers write. *)
Record Panel := mkPanel {
  localPreferences : Preferences;
  validationErrors : ValidationErrors
}.

(** [updatePreferences(newPrefs)]: the panel afterwards, and the
    preferences handed to [onPreferencesChange], if it is called. *)
Definition updatePreferences (newPrefs : Preferences) (panel : Panel)
  : Panel * option Preferences :=
  let errors := validatePreferences newPrefs in
  (* Only update if no critical errors *)
  if Nat.eqb (length (Object_keys errors)) 0
     || negb (truthy (err_priceRange errors))
  then (mkPanel newPrefs errors, Some newPrefs)
  else (mkPanel (localPreferences panel) errors, None).

Definition with_categories (updated : list string) (p : Preferences)
  : Preferences :=
  mkPreferences (priceRange p) (customPriceRange p) updated (brands p)
                (minRating p) (lifestyleType p) (specificNeeds p)
                (additionalNotes p).

Definition with_brands (updated : list string) (p : Preferences)
  : Preferences :=
  mkPreferences (priceRange p) (customPriceRange p) (categories p) updated
                (minRating p) (lifestyleType p) (specificNeeds p)
                (additionalNotes p).

Definition with_price (range : string)
    (custom : option CustomPriceRange) (p : Preferences) : Preferences :=
  mkPreferences range custom (categories p) (brands p) (minRating p)
                (lifestyleType p) (specificNeeds p) (additionalNotes p).

Definition handleCategoryChange (category : string) (isChecked : bool)
    (panel : Panel) : Panel * option Preferences :=
  let localPreferences := localPreferences panel in
  let updatedCategories :=
    if isChecked then categories localPreferences ++ [category]
    else filter (λ c, c ≠ category) (categories localPreferences) in
  updatePreferences (with_categories updatedCategories localPreferences)
                    panel.

Definition handleBrandChange (brand : string) (isChecked : bool)
    (panel : Panel) : Panel * option Preferences :=
  let localPreferences := localPreferences panel in
  let updatedBrands :=
    if isChecked then brands localPreferences ++ [brand]
    else filter (λ b, b ≠ brand) (brands localPreferences) in
  updatePreferences (with_brands updatedBrands localPreferences) panel.

(** The two ways [handlePriceRangeChange(type, value)] is called:
    ['preset'] with the value of a radio button, ['custom'] with an object
    that holds one or both bounds. *)
Inductive PriceChange :=
| preset (value : string)
| custom (value : CustomPriceRange).

(** [{...localPreferences.customPriceRange, ...value}] *)
Definition spread_range (old : option CustomPriceRange)
    (value : CustomPriceRange) : CustomPriceRange :=
  {| range_min :=
       match range_min value with
       | Some x => Some x
       | None => old ≫= range_min
       end;
     range_max :=
       match range_max value with
       | Some x => Some x
       | None => old ≫= range_max
       end |}.

Definition handlePriceRangeChange (change : PriceChange) (panel : Panel)
  : Panel * option Preferences :=
  let localPreferences := localPreferences panel in
  match change with
  | preset value =>
      updatePreferences
        (with_price value
           (if String.eqb value "custom"
            then Some (mkCustomPriceRange (Some 0%Q) (Some 1000%Q))
            else None)
           localPreferences)
        panel
  | custom value =>
      updatePreferences
        (with_price "custom"
           (Some (spread_range (customPriceRange localPreferences) value))
           localPreferences)
        panel
  end.

(** [handleSimpleChange(field, value)] for the four fields the panel
    calls it with. *)
Inductive SimpleChange :=
| change_minRating (value : Q)
| change_lifestyleType (value : string)
| change_specificNeeds (value : string)
| change_additionalNotes (value : string).

Definition handleSimpleChange (change : SimpleChange) (panel : Panel)
  : Panel * option Preferences :=
  let p := localPreferences panel in
  updatePreferences
    match change with
    | change_minRating value =>
        mkPreferences (priceRange p) (customPriceRange p) (categories p)
                      (brands p) value (lifestyleType p) (specificNeeds p)
                      (additionalNotes p)
    | change_lifestyleType value =>
        mkPreferences (priceRange p) (customPriceRange p) (categories p)
                      (brands p) (minRating p) value (specificNeeds p)
                      (additionalNotes p)
    | change_specificNeeds value =>
        mkPreferences (priceRange p) (customPriceRange p) (categories p)
                      (brands p) (minRating p) (lifestyleType p) value
                      (additionalNotes p)
    | change_additionalNotes value =>
        mkPreferences (priceRange p) (customPriceRange p) (categories p)
                      (brands p) (minRating p) (lifestyleType p)
                      (specificNeeds p) (Some value)
    end
    panel.

Definition clearedPrefs : Preferences :=
  mkPreferences "all" None [] [] 0 "" "" (Some "").

(** [setValidationErrors({})], then [updatePreferences(clearedPrefs)]. *)
Definition clearPreferences (panel : Panel) : Panel * option Preferences :=
  updatePreferences clearedPrefs
    (mkPanel (localPreferences panel) no_errors).

(** [hasPreferences], as the condition it is used for. *)
Definition hasPreferences (localPreferences : Preferences) : bool :=
  (0 <? length (categories localPreferences))%nat
  || (0 <? length (brands localPreferences))%nat
  || negb (String.eqb (priceRange localPreferences) "all")
  || negb (Qle_bool (minRating localPreferences) 0)
  || negb (String.eqb (lifestyleType localPreferences) "")
  || negb (String.eqb (specificNeeds localPreferences) "")
  || truthy (additionalNotes localPreferences).

(** *** What the user can do with the panel *)

Section Events.
(** [parseInt(text)]; [None] is [NaN]. *)
Variable parseInt : string → option Z.

(** [parseInt(text) || fallback]: [NaN] and [0] are falsy. *)
Definition parsed_or (fallback : Q) (text : string) : Q :=
  match parseInt text with
  | Some n => if Z.eqb n 0 then fallback else inject_Z n
  | None => fallback
  end.

(** The controls and the handler calls their [onChange] and [onClick]
    make.  A checkbox reports the opposite of what it showed; the two
    custom price inputs exist only while the price range is ['custom']. *)
Inductive Event :=
| PriceRadio (value : string)
| MinPriceInput (text : string)
| MaxPriceInput (text : string)
| CategoryCheckbox (category : string)
| BrandCheckbox (brand : string)
| Simple (change : SimpleChange)
| ClearButton.

(** The values of the five price radio buttons and of the six rating
    radio buttons. *)
Definition price_options : list string :=
  ["all"; "budget"; "mid"; "premium"; "custom"].

Definition rating_options : list Q := [0; 3; 3.5; 4; 4.5; 5]%Q.

(** The controls the panel renders.  The ratings on offer lie between 0
    and 5, so the parent's own validation stores what it is sent; the
    effect that copies the parent's preferences back into the panel is
    therefore left out. *)
Definition rendered (panel : Panel) (e : Event) : bool :=
  match e with
  | PriceRadio value => bool_decide (value ∈ price_options)
  | MinPriceInput _ | MaxPriceInput _ =>
      String.eqb (priceRange (localPreferences panel)) "custom"
  | Simple (change_minRating value) =>
      existsb (Qeq_bool value) rating_options
  | ClearButton => hasPreferences (localPreferences panel)
  | _ => true
  end.

Definition handle (panel : Panel) (e : Event)
  : Panel * option Preferences :=
  match e with
  | PriceRadio value => handlePriceRangeChange (preset value) panel
  | MinPriceInput text =>
      handlePriceRangeChange
        (custom (mkCustomPriceRange (Some (parsed_or 0 text)) None)) panel
  | MaxPriceInput text =>
      handlePriceRangeChange
        (custom (mkCustomPriceRange None (Some (parsed_or 1000 text)))) panel
  | CategoryCheckbox category =>
      handleCategoryChange category
        (negb (Js.Array_includes (categories (localPreferences panel))
                                 category))
        panel
  | BrandCheckbox brand =>
      handleBrandChange brand
        (negb (Js.Array_includes (brands (localPreferences panel)) brand))
        panel
  | Simple change => handleSimpleChange change panel
  | ClearButton => clearPreferences panel
  end.

(** The panel states the user can reach from [start]. *)
Inductive reachable (start : Panel) : Panel → Prop :=
| reach_start : reachable start start
| reach_event panel e :
    reachable start panel → rendered panel e = true →
    reachable start (handle panel e).1.

(** The price part of the preferences is in order: a custom range has both
    bounds, a minimum that is not negative and a maximum above it; any other
    range has no custom bounds. *)
Definition price_in_order (p : Preferences) : Prop :=
  if String.eqb (priceRange p) "custom" then
    ∃ lo hi : Q,
      customPriceRange p = Some (mkCustomPriceRange (Some lo) (Some hi))
      ∧ (0 <= lo)%Q ∧ (lo < hi)%Q
  else customPriceRange p = None.

(** The preferences of the [App] state when it starts. *)
Definition initialPreferences : Preferences :=
  mkPreferences "all" None [] [] 0 "" "" None.
End Events.
End UserPreferences.

(** ** Sample values for the worked instances *)

Module Sample.
Definition preferences : App.UserPreferences :=
  App.mkUserPreferences "all" ["books"] [] 0 "" "" [].

Definition Number_toString (q : Q) : string := pretty (Qnum q).
Definition engine_message (err : EngineError) : string :=
  match err with
  | NullProperty key => "Cannot read properties of null (reading '" +:+ key +:+ "')"
  | NotPrimitive => "Cannot convert object to primitive value"
  end.
Definition ToNumber (v : Json.value) : Completion (option Q) := Normal None.
Definition JSON_stringify (v : Json.value) : string := "{}".

Definition ok (payload : Json.value) : FetchOutcome :=
  Resolved (mkResponse 200 (Parsed payload)).
Definition offline : FetchOutcome := Rejected "TypeError" "Failed to fetch".

Definition book : Json.value :=
  Json.Obj [("id", Json.Num 1); ("name", Json.Str "Dune")].

(** Lexicographic order of the character codes; on ASCII text it is the
    order of the UTF-16 code units. *)
Definition code_units_lt (a b : string) : bool := String.ltb a b.

Definition item (id : Z) (category : string) (price : Q)
    (rating : option Q) : Product Z :=
  mkProduct id "item" "" price category "Acme" rating None None None.

(** A [parseInt] for decimal digits with an optional minus sign; text
    that does not start with a digit is [NaN]. *)
Fixpoint digits (read : option Z) (s : string) : option Z :=
  match s with
  | EmptyString => read
  | String c s' =>
      let n := (Z.of_N (Ascii.N_of_ascii c) - 48)%Z in
      if (0 <=? n)%Z && (n <=? 9)%Z
      then digits (Some (10 * default 0 read + n)%Z) s'
      else read
  end.

Definition parseInt (s : string) : option Z :=
  match s with
  | String c s' =>
      if (Ascii.N_of_ascii c =? 45)%N then Z.opp <$> digits None s'
      else digits None s
  | EmptyString => None
  end.

(** The panel as the application first shows it. *)
Definition panel : UserPreferences.Panel :=
  UserPreferences.mkPanel UserPreferences.initialPreferences
                          UserPreferences.no_errors.
End Sample.

(** * Theorems *)

Section HistoryFacts.
Context {Id : Type} `{EqDecision Id}.
Implicit Types (h : list Id) (productId : Id).

Lemma slice_0 {A} n (l : list A) : Js.slice 0 n l = take n l.
Proof. unfold Js.slice. by rewrite Nat.sub_0_r, drop_0. Qed.

Lemma handleProductClick_unfold productId h :
  App.handleProductClick productId h
  = productId :: take 49 (filter (λ id, id ≠ productId) h).
Proof. unfold App.handleProductClick. cbn zeta. by rewrite slice_0. Qed.

(** C1. After a product click the clicked ID is at position 0, the IDs
    behind it are the prior history without the clicked ID, in their prior
    order, and the list holds at most 50 IDs. *)
Theorem handleProductClick_recent_first_capped productId h :
  App.handleProductClick productId h !! 0%nat = Some productId
  ∧ (∃ older, App.handleProductClick productId h = productId :: older
              ∧ older `prefix_of` filter (λ id, id ≠ productId) h)
  ∧ (length (App.handleProductClick productId h) ≤ 50)%nat.
Proof.
  rewrite handleProductClick_unfold. split_and!.
  - done.
  - eexists. split; [done|]. apply prefix_take.
  - cbn. rewrite length_take. lia.
Qed.

Lemma handleProductClick_NoDup productId h :
  NoDup h → NoDup (App.handleProductClick productId h).
Proof.
  intros Hh. rewrite handleProductClick_unfold. apply NoDup_cons. split.
  - intros Hin%subseteq_take.
    apply list_elem_of_filter in Hin as [Hne _]. by apply Hne.
  - eapply sublist_NoDup; [|apply sublist_take]. by apply NoDup_filter.
Qed.

Lemma move_to_front_NoDup productId h :
  NoDup h → NoDup (App.move_to_front productId h).
Proof.
  intros Hh. apply NoDup_cons. split; [|by apply NoDup_filter].
  intros [Hne _]%list_elem_of_filter. by apply Hne.
Qed.

Lemma length_filter_ne productId h :
  NoDup h → (length h ≤ S (length (filter (λ id, id ≠ productId) h)))%nat.
Proof.
  induction 1 as [|x h Hx Hh IH]; [cbn; lia|].
  destruct (decide (x = productId)) as [->|Hne].
  - rewrite filter_cons_False by (by intros ?).
    assert (filter (λ id, id ≠ productId) h = h) as ->; [|cbn; lia].
    clear IH Hh. induction h as [|y h IHh]; [done|].
    apply not_elem_of_cons in Hx as [Hy Hx].
    rewrite filter_cons_True by done. f_equal. by apply IHh.
  - rewrite filter_cons_True by done. cbn. lia.
Qed.

(** Cutting the history at 50 before the next click loses nothing that the
    cut after the click would keep. *)
Lemma handleProductClick_take productId h :
  NoDup h →
  App.handleProductClick productId (take 50 h)
  = take 50 (App.move_to_front productId h).
Proof.
  intros Hh. rewrite handleProductClick_unfold. unfold App.move_to_front.
  cbn [take]. f_equal.
  rewrite <-(take_drop 50 h) at 2. rewrite filter_app.
  destruct (decide (length h ≤ 50)%nat) as [Hle|Hgt].
  - by rewrite (drop_ge h 50), filter_nil, app_nil_r by done.
  - rewrite take_app_le; [done|].
    pose proof (length_filter_ne productId (take 50 h)) as Hlen.
    rewrite length_take in Hlen.
    assert (NoDup (take 50 h)) as Hnd
      by (eapply sublist_NoDup; [done|apply sublist_take]).
    specialize (Hlen Hnd). lia.
Qed.

(** After any sequence of clicks the history is the first 50 entries of the
    uncapped move-to-front list: the cap never disturbs the most-recent-first
    order. *)
Lemma history_after_clicks (clicks : list Id) :
  foldl (λ h productId, App.handleProductClick productId h) [] clicks
  = take 50 (foldl (λ h productId, App.move_to_front productId h) [] clicks)
  ∧ NoDup (foldl (λ h productId, App.move_to_front productId h) [] clicks).
Proof.
  induction clicks as [|c clicks IH] using rev_ind.
  - split; [done|]. apply NoDup_nil_2.
  - rewrite !foldl_app. cbn [foldl]. destruct IH as [-> Hnd]. split.
    + by apply handleProductClick_take.
    + by apply move_to_front_NoDup.
Qed.

Lemma handleClearHistory_NoDup h : NoDup (App.handleClearHistory h).
Proof. apply NoDup_nil_2. Qed.

Lemma history_step_NoDup h a : NoDup h → NoDup (App.history_step h a).
Proof.
  destruct a; cbn; [apply handleProductClick_NoDup|].
  intros _. apply handleClearHistory_NoDup.
Qed.

Lemma foldl_history_step_NoDup acts h :
  NoDup h → NoDup (foldl App.history_step h acts).
Proof.
  revert h. induction acts as [|a acts IH]; intros h Hh; cbn; [done|].
  by apply IH, history_step_NoDup.
Qed.

Lemma history_reachable_run h :
  App.history_reachable h ↔ ∃ acts, h = App.run_history acts.
Proof.
  split.
  - induction 1 as [|h a _ [acts ->]]; [by exists []|].
    exists (acts ++ [a]). unfold App.run_history. by rewrite foldl_app.
  - intros [acts ->]. induction acts as [|a acts IH] using rev_ind.
    + constructor.
    + unfold App.run_history. rewrite foldl_app. cbn. by constructor.
Qed.

(** The history the application can actually hold: the initial empty list
    followed by any sequence of clicks and clears. *)
Lemma history_reachable_NoDup h : App.history_reachable h → NoDup h.
Proof.
  induction 1; [apply NoDup_nil_2|]. by apply history_step_NoDup.
Qed.

(** C8. The all-IDs-distinct invariant is preserved by every operation
    that modifies the browsing history (a product click, a clear), hence
    by every sequence of them; the initial empty list satisfies it, so
    no reachable history contains a duplicate. *)
Theorem browsing_history_never_has_duplicates h :
  NoDup h →
  (∀ productId, NoDup (App.handleProductClick productId h))
  ∧ NoDup (App.handleClearHistory h)
  ∧ (∀ acts : list (App.HistoryAction Id),
       NoDup (foldl App.history_step h acts)).
Proof.
  intros Hh. split_and!.
  - intros productId. by apply handleProductClick_NoDup.
  - apply handleClearHistory_NoDup.
  - intros acts. by apply foldl_history_step_NoDup.
Qed.
End HistoryFacts.

Lemma browsing_history_never_has_duplicates_witness :
  NoDup (App.initialHistory (Id:=Z))
  ∧ (∀ productId : Z, NoDup (App.handleProductClick productId []))
  ∧ NoDup (App.handleClearHistory (Id:=Z) [])
  ∧ (∀ acts : list (App.HistoryAction Z),
       NoDup (foldl App.history_step App.initialHistory acts)).
Proof.
  split; [apply NoDup_nil_2|].
  apply (browsing_history_never_has_duplicates (Id:=Z) []).
  apply NoDup_nil_2.
Defined.

Example handleProductClick_moves_to_front :
  App.handleProductClick 3%Z [1; 2; 3; 4]%Z = [3; 1; 2; 4]%Z.
Proof. reflexivity. Qed.

Example handleProductClick_drops_the_oldest :
  App.handleProductClick 0%Z (Z.of_nat <$> seq 1 50)
  = 0%Z :: (Z.of_nat <$> seq 1 49).
Proof. vm_compute. reflexivity. Qed.

Section PanelFacts.
Context {Id : Type} `{EqDecision Id}.
Implicit Types (h : list Id) (products : list (Product Id)).

Lemma find_product_list_find products productId :
  BrowsingHistory.find_product products productId
  = (λ i, i.2) <$> list_find (λ p, product_id p = productId) products.
Proof.
  unfold BrowsingHistory.find_product.
  induction products as [|p ps IH]; csimpl; [done|].
  case_bool_decide; case_decide; try done.
  rewrite IH. by destruct (list_find _ ps) as [[??]|].
Qed.

Lemma filter_Boolean_omap {A B} (f : A → option B) (l : list A) :
  Js.filter_Boolean (map f l) = omap f l.
Proof.
  induction l as [|x l IH]; csimpl; [done|]. destruct (f x); by rewrite IH.
Qed.

Lemma find_product_Some products productId p :
  BrowsingHistory.find_product products productId = Some p →
  product_id p = productId ∧ p ∈ products.
Proof.
  unfold BrowsingHistory.find_product.
  induction products as [|q ps IH]; cbn; [done|].
  case_bool_decide as Hq.
  - intros [= <-]. split; [done|]. apply list_elem_of_here.
  - intros [? ?]%IH. split; [done|]. by apply list_elem_of_further.
Qed.

Lemma find_product_None products productId :
  BrowsingHistory.find_product products productId = None ↔
  productId ∉ map product_id products.
Proof.
  unfold BrowsingHistory.find_product.
  induction products as [|q ps IH]; cbn.
  - split; [|done]. intros _. apply not_elem_of_nil.
  - rewrite not_elem_of_cons. case_bool_decide as Hq.
    + split; [done|]. intros [Hne _]. by destruct Hne.
    + rewrite IH. split; [by intros ?; split|]. by intros [_ ?].
Qed.

Lemma panel_ids h products :
  map product_id (omap (BrowsingHistory.find_product products) h)
  = BrowsingHistory.surviving h products.
Proof.
  unfold BrowsingHistory.surviving.
  induction h as [|x h IH]; csimpl; [done|].
  destruct (BrowsingHistory.find_product products x) as [p|] eqn:E.
  - apply find_product_Some in E as E'. destruct E' as [Hid Hin].
    rewrite filter_cons_True; last first.
    { rewrite <-Hid. by apply (list_elem_of_fmap_2 product_id). }
    cbn. by rewrite Hid, IH.
  - apply find_product_None in E. by rewrite filter_cons_False.
Qed.

(** C9. The history panel shows: each history ID mapped to its product,
    IDs without a product dropped, the result reversed.  Its IDs are the
    surviving history IDs in reverse order, so for a most-recent-first
    history the first row is the earliest-clicked surviving item and the
    last row the most recent one. *)
Theorem historyProducts_is_reversed_lookup h products :
  BrowsingHistory.historyProducts h products
  = BrowsingHistory.panel_spec h products
  ∧ map product_id (BrowsingHistory.historyProducts h products)
    = reverse (BrowsingHistory.surviving h products)
  ∧ product_id <$> head (BrowsingHistory.historyProducts h products)
    = last (BrowsingHistory.surviving h products)
  ∧ product_id <$> last (BrowsingHistory.historyProducts h products)
    = head (BrowsingHistory.surviving h products).
Proof.
  assert (map product_id (BrowsingHistory.historyProducts h products)
          = reverse (BrowsingHistory.surviving h products)) as Hids.
  { unfold BrowsingHistory.historyProducts.
    rewrite filter_Boolean_omap.
    change (map product_id ?l) with (product_id <$> l).
    rewrite fmap_reverse. f_equal. apply panel_ids. }
  split_and!.
  - unfold BrowsingHistory.historyProducts, BrowsingHistory.panel_spec.
    rewrite filter_Boolean_omap. unfold reverse. rewrite <-rev_alt.
    f_equal. apply list_omap_ext, Forall2_same_length_lookup.
    split; [done|]. intros i x y Hx Hy. rewrite Hx in Hy. injection Hy as <-.
    apply find_product_list_find.
  - done.
  - rewrite <-(head_reverse (BrowsingHistory.surviving h products)), <-Hids.
    by destruct (BrowsingHistory.historyProducts h products).
  - rewrite <-(last_reverse (BrowsingHistory.surviving h products)), <-Hids.
    symmetry. apply (fmap_last product_id).
Qed.
End PanelFacts.

Example historyProducts_oldest_first :
  let product (i : Z) (n : string) :=
    mkProduct i n "" 10 "books" "Acme" None None None None in
  BrowsingHistory.historyProducts [3; 9; 1]%Z
    [product 1%Z "one"; product 2%Z "two"; product 3%Z "three"]
  = [product 1%Z "one"; product 3%Z "three"].
Proof. reflexivity. Qed.

(** ** [Array.prototype.sort] *)

Lemma StronglySorted_weaken {A} (R1 R2 : relation A) l :
  (∀ a b, R1 a b → R2 a b) → StronglySorted R1 l → StronglySorted R2 l.
Proof.
  intros HR. induction 1 as [|x l Hl IH Hx]; constructor; [done|].
  eapply Forall_impl; [exact Hx|]. intros y. apply HR.
Qed.

Section SortFacts.
Context {A : Type} (compareFn : A → A → Q).

Lemma sort_insert_Permutation x l :
  Js.sort_insert compareFn x l ≡ₚ x :: l.
Proof.
  induction l as [|y l IH]; cbn; [done|].
  destruct (Qle_bool (compareFn x y) 0); [done|].
  rewrite IH. apply Permutation_swap.
Qed.

Lemma sort_Permutation l : Js.sort compareFn l ≡ₚ l.
Proof.
  induction l as [|x l IH]; cbn; [done|].
  by rewrite sort_insert_Permutation, IH.
Qed.

Lemma elem_of_sort x l : x ∈ Js.sort compareFn l ↔ x ∈ l.
Proof. by rewrite sort_Permutation. Qed.

(** A consistent comparator: any two elements can be ordered, and the
    order is transitive. *)
Hypothesis compareFn_total :
  ∀ x y, ¬ Js.ordered compareFn x y → Js.ordered compareFn y x.
Hypothesis compareFn_trans : Transitive (Js.ordered compareFn).

Lemma sort_insert_StronglySorted x l :
  StronglySorted (Js.ordered compareFn) l →
  StronglySorted (Js.ordered compareFn) (Js.sort_insert compareFn x l).
Proof.
  induction 1 as [|y l Hl IH Hy]; cbn.
  - repeat constructor.
  - destruct (Qle_bool (compareFn x y) 0) eqn:E.
    + apply Qle_bool_iff in E.
      constructor; [by constructor|]. constructor; [done|].
      eapply Forall_impl; [exact Hy|]. intros z Hz.
      by apply (compareFn_trans _ y).
    + constructor; [done|]. rewrite sort_insert_Permutation.
      constructor; [|done]. apply compareFn_total.
      unfold Js.ordered. rewrite <-Qle_bool_iff, E. discriminate.
Qed.

Lemma sort_StronglySorted l :
  StronglySorted (Js.ordered compareFn) (Js.sort compareFn l).
Proof.
  induction l as [|x l IH]; cbn; [constructor|].
  by apply sort_insert_StronglySorted.
Qed.
End SortFacts.

(** ** Catalog *)

Section CatalogFacts.
Context {Id : Type}.
Variable trim : string → string.
Variable toLowerCase : string → string.
Variable localeCompare : string → string → Q.

Local Abbreviation filteredProducts :=
  (Catalog.filteredProducts (Id:=Id) trim toLowerCase localeCompare).
Local Abbreviation displayed_spec :=
  (Catalog.displayed_spec (Id:=Id) trim toLowerCase).

Lemma price_test_spec filters (product : Product Id) :
  Catalog.price_test filters product = true ↔
  (Catalog.min (Catalog.priceRange filters) <= product_price product)%Q
  ∧ (product_price product <= Catalog.max (Catalog.priceRange filters))%Q.
Proof.
  unfold Catalog.price_test.
  by rewrite andb_true_iff, !Qle_bool_iff.
Qed.

Lemma filteredProducts_selected_category products filters :
  Catalog.category filters ≠ "all" →
  filteredProducts products filters
  ≡ₚ filter (displayed_spec filters) products.
Proof.
  intros Hcat. unfold Catalog.filteredProducts. cbn zeta.
  rewrite sort_Permutation.
  apply String.eqb_neq in Hcat. rewrite Hcat. cbn [negb].
  destruct (String.eqb (trim (Catalog.searchQuery filters)) "") eqn:Eq;
    cbn [negb]; rewrite !list_filter_filter;
    apply reflexive_eq, list_filter_iff; intros p;
    unfold Catalog.displayed_spec, Catalog.passes_search,
      Catalog.category_test;
    rewrite Eq, !Is_true_true, price_test_spec, bool_decide_eq_true; tauto.
Qed.

(** C4. With a category other than ['all'] selected, the displayed list
    is a rearrangement of exactly the products of that category that lie
    in the price range and pass the search filter; every displayed product
    has the selected category. *)
Theorem filteredProducts_shows_selected_category products filters :
  Catalog.category filters ≠ "all" →
  filteredProducts products filters
    ≡ₚ filter (displayed_spec filters) products
  ∧ (∀ product,
       product ∈ filteredProducts products filters
       ↔ product ∈ products ∧ displayed_spec filters product)
  ∧ Forall (λ product, product_category product = Catalog.category filters)
           (filteredProducts products filters).
Proof.
  intros Hcat.
  pose proof (filteredProducts_selected_category products filters Hcat)
    as Hperm.
  split_and!.
  - done.
  - intros product. rewrite Hperm, list_elem_of_filter. tauto.
  - rewrite Hperm. apply Forall_forall.
    intros product [Hp _]%list_elem_of_filter. apply Hp.
Qed.
End CatalogFacts.

Example filteredProducts_electronics_by_rating :
  let item (i : Z) (category : string) (price : Q) (rating : option Q) :=
    mkProduct i "item" "" price category "Acme" rating None None None in
  Catalog.filteredProducts (λ s, s) (λ s, s) (λ _ _, 0%Q)
    [item 1%Z "electronics" 299%Q (Some 4.1%Q); item 2%Z "books" 12%Q None;
     item 3%Z "electronics" 1500%Q (Some 4.9%Q);
     item 4%Z "electronics" 99%Q (Some 4.7%Q);
     item 5%Z "electronics" 5%Q None]
    {| Catalog.category := "electronics";
       Catalog.priceRange := {| Catalog.min := 0; Catalog.max := 1000 |};
       Catalog.sortBy := "rating";
       Catalog.searchQuery := "" |}
  = [item 4%Z "electronics" 99%Q (Some 4.7%Q);
     item 1%Z "electronics" 299%Q (Some 4.1%Q);
     item 5%Z "electronics" 5%Q None].
Proof. reflexivity. Qed.

Lemma filteredProducts_shows_selected_category_witness :
  let trim := λ s : string, s in
  let toLowerCase := λ s : string, s in
  let localeCompare := λ _ _ : string, 0%Q in
  let phone :=
    mkProduct 1%Z "Phone" "A phone" 299 "electronics" "Acme" (Some 4.5%Q)
              (Some 12%Q) (Some ["mobile"]) None in
  let novel :=
    mkProduct 2%Z "Novel" "A story" 12 "books" "Penguin" None None None None in
  let products := [novel; phone] in
  let filters :=
    {| Catalog.category := "electronics";
       Catalog.priceRange := {| Catalog.min := 0; Catalog.max := 1000 |};
       Catalog.sortBy := "rating";
       Catalog.searchQuery := "" |} in
  Catalog.filteredProducts trim toLowerCase localeCompare products filters
    ≡ₚ filter (Catalog.displayed_spec trim toLowerCase filters) products
  ∧ (∀ product,
       product ∈ Catalog.filteredProducts trim toLowerCase localeCompare
                   products filters
       ↔ product ∈ products
         ∧ Catalog.displayed_spec trim toLowerCase filters product)
  ∧ Forall (λ product, product_category product = "electronics")
           (Catalog.filteredProducts trim toLowerCase localeCompare
              products filters).
Proof.
  cbn zeta.
  apply (filteredProducts_shows_selected_category (Id:=Z)
           (λ s, s) (λ s, s) (λ _ _, 0%Q)).
  discriminate.
Defined.

(** ** Recommendations *)

Section RecommendationsFacts.
Context {Id : Type}.
Implicit Types a b r : Recommendation Id.

Lemma or_zero_score r :
  (Js.or_zero (confidence_score r) == Recommendations.score r)%Q.
Proof.
  unfold Js.or_zero, Recommendations.score.
  destruct (confidence_score r) as [q|]; [|reflexivity].
  destruct (Qeq_bool q 0) eqn:E; [|reflexivity].
  apply Qeq_bool_iff in E. by rewrite E.
Qed.

Lemma ordered_compareFn a b :
  Js.ordered Recommendations.compareFn a b
  ↔ (Recommendations.score b <= Recommendations.score a)%Q.
Proof.
  unfold Js.ordered, Recommendations.compareFn. cbn zeta.
  rewrite !or_zero_score. split; intros; lra.
Qed.

(** C10. For an array the panel shows a permutation of it in
    non-increasing order of confidence score, a missing or falsy score
    counting as 0; any other input, [null] included, gives the empty
    list. *)
Theorem sortedRecommendations_permutation_by_score
    (recommendations : Js.ArrayProp (Recommendation Id)) :
  match recommendations with
  | Js.PropArray elems =>
      Recommendations.sortedRecommendations recommendations ≡ₚ elems
      ∧ StronglySorted
          (λ a b, (Recommendations.score b <= Recommendations.score a)%Q)
          (Recommendations.sortedRecommendations recommendations)
  | _ => Recommendations.sortedRecommendations recommendations = []
  end.
Proof.
  destruct recommendations as [| |t|elems]; try done.
  - by destruct t.
  - cbn. split; [apply sort_Permutation|].
    apply (StronglySorted_weaken (Js.ordered Recommendations.compareFn)).
    + intros a b. apply ordered_compareFn.
    + apply sort_StronglySorted.
      * intros a b. rewrite !ordered_compareFn. lra.
      * intros a b c. rewrite !ordered_compareFn. lra.
Qed.
End RecommendationsFacts.

(** ** JSON values *)

(** Induction that reaches the elements of arrays and the property values
    of objects. *)
Lemma Json_value_ind (P : Json.value → Prop) :
  P Json.Null →
  (∀ b, P (Json.Bool b)) →
  (∀ q, P (Json.Num q)) →
  (∀ s, P (Json.Str s)) →
  (∀ elems, Forall P elems → P (Json.Arr elems)) →
  (∀ props, Forall (λ kv, P kv.2) props → P (Json.Obj props)) →
  ∀ v, P v.
Proof.
  intros HNull HBool HNum HStr HArr HObj. fix IH 1. intros [| | | |elems|props].
  - exact HNull.
  - apply HBool.
  - apply HNum.
  - apply HStr.
  - apply HArr. induction elems as [|x l IHl]; constructor; [apply IH|done].
  - apply HObj. induction props as [|[k x] l IHl]; constructor;
      [apply IH|done].
Qed.

Example sortedRecommendations_by_score :
  let product := mkProduct 1%Z "p" "" 10 "books" "Acme" None None None None in
  let r (score : option Q) := mkRecommendation product "" score in
  Recommendations.sortedRecommendations
    (Js.PropArray [r (Some 0.5%Q); r None; r (Some 0.9%Q); r (Some 0.5%Q)])
  = [r (Some 0.9%Q); r (Some 0.5%Q); r (Some 0.5%Q); r None]
  ∧ Recommendations.sortedRecommendations (Js.PropNull (A:=Recommendation Z))
    = []
  ∧ Recommendations.sortedRecommendations
      (Js.PropOther (A:=Recommendation Z) true)
    = [].
Proof. cbn zeta. split_and!; reflexivity. Qed.

(** ** services/api.js *)

Section ApiFacts.
Context {St : Type}.
Variable REACT_APP_API_URL : option string.
Variable Number_toString : Q → string.
Variable engine_message : EngineError → string.
Variable JSON_stringify : Json.value → string.
Variable encodeURIComponent : string → string.

Local Abbreviation API_BASE_URL := (Api.API_BASE_URL REACT_APP_API_URL).
Local Abbreviation apiRequest :=
  (Api.apiRequest (St:=St) REACT_APP_API_URL Number_toString
                  engine_message).
Local Abbreviation ToString :=
  (JsOps.ToString Number_toString engine_message).
Local Abbreviation api_outcome :=
  (Api.api_outcome Number_toString engine_message).
Implicit Types (s : St) (o : FetchOutcome) (payload : Json.value).

Lemma apiRequest_pending endpoint options :
  Async.pending (apiRequest endpoint options)
  = [Api.config_of (API_BASE_URL +:+ endpoint) options].
Proof. reflexivity. Qed.

Lemma message_expr_wrapped payload st :
  payload ≠ Json.Null →
  Api.message_expr engine_message payload st
  = Normal (Some (Api.wrapped_message payload st)).
Proof.
  intros Hnull. unfold Api.message_expr, Api.wrapped_message.
  destruct payload as [|b|q|str|elems|props]; try done;
    cbn [JsOps.get Api.field].
  destruct (Json.lookup "detail" props) as [d|] eqn:Ed.
  - destruct (Json.truthy (Some d)) eqn:Td; [done|].
    destruct (Json.lookup "error" props) as [e|]; [|done].
    unfold Json.or. by destruct (Json.truthy (Some e)).
  - change (Json.truthy None) with false. cbn iota.
    destruct (Json.lookup "error" props) as [e|]; [|done].
    unfold Json.or. by destruct (Json.truthy (Some e)).
Qed.

(** A failing string conversion is the engine's [TypeError]. *)
Lemma ToString_Abrupt (v : Json.value) e :
  ToString v = Abrupt e →
  e = JsOps.TypeError engine_message NotPrimitive.
Proof.
  revert e. induction v as [| | | |elems IH|props _] using Json_value_ind;
    intros e; cbn; try discriminate.
  - destruct (JsOps.traverse _ elems) as [parts|e'] eqn:Et;
      [discriminate|].
    intros [= <-]. revert e' Et.
    induction IH as [|x l Hx _ IHl]; intros e'; cbn; [discriminate|].
    destruct (match x with Json.Null => _ | _ => _ end) as [sx|ex] eqn:Ex.
    + destruct (JsOps.traverse _ l) as [sl|el]; [discriminate|].
      intros [= <-]. by apply IHl.
    + intros [= <-]. destruct x; try discriminate; by apply Hx.
  - destruct (Json.lookup "toString" props); [|discriminate].
    by intros [= <-].
Qed.

Lemma apiRequest_deliver endpoint options o :
  Async.deliver 0 o (apiRequest endpoint options)
  = Async.lift (api_outcome o).
Proof.
  destruct o as [n m|[st [payload|m]]]; cbn; try done.
  unfold Api.api_outcome. cbn.
  destruct (response_ok _) eqn:Hok; cbn; [done|].
  assert (payload = Json.Null ∨ payload ≠ Json.Null) as [->|Hnull]
    by (destruct payload; (by left) || (by right)).
  { done. }
  rewrite message_expr_wrapped by done. cbn.
  destruct (ToString (Api.wrapped_message payload st)) as [msg|e] eqn:Emsg;
    cbn; [by destruct payload|].
  apply ToString_Abrupt in Emsg as ->. by destruct payload.
Qed.

Lemma start_lift {A} (c : Completion A) s :
  Async.start (St:=St) (Async.lift c) s = (Async.lift c, s).
Proof. by destruct c. Qed.

Lemma apiRequest_run endpoint options s o :
  Async.run (apiRequest endpoint options) s [(0%nat, o)]
  = (Async.lift (api_outcome o), s).
Proof.
  unfold Async.run, Async.step. cbn [foldl fst snd Async.start].
  change (Async.start (apiRequest endpoint options) s)
    with (apiRequest endpoint options, s).
  cbn [fst snd]. by rewrite apiRequest_deliver, start_lift.
Qed.

Lemma api_outcome_Normal_or_ApiErr o :
  (∃ payload, api_outcome o = Normal payload)
  ∨ (∃ e, api_outcome o = Abrupt (ApiErr e)).
Proof.
  unfold Api.api_outcome.
  destruct o as [n m|[st [payload|m]]]; cbn; eauto.
  destruct (response_ok _); eauto.
  destruct (ToString _); destruct payload; eauto.
Qed.

(** C2, amended.  [apiRequest] issues one request.  Whatever its outcome,
    the call returns the parsed body or throws an [ApiError] and nothing
    else.  A 2xx response with a JSON body returns that body.  A failed
    fetch or a body that is not JSON, whatever the status, gives the
    [ApiError] with status 0 and [null] data.  A non-2xx response whose
    body is a JSON value other than [null], with a message that converts
    to a string, gives an [ApiError] with the response status and the
    payload. *)
Theorem apiRequest_returns_or_throws_ApiError endpoint options s o :
  let result := (Async.run (apiRequest endpoint options) s [(0%nat, o)]).1 in
  Async.in_flight (Async.run (apiRequest endpoint options) s [])
    = [Api.config_of (API_BASE_URL +:+ endpoint) options]
  ∧ ((∃ payload, result = Async.Ret payload)
     ∨ (∃ e, result = Async.Throw (ApiErr e)))
  ∧ match o with
    | Rejected _ _ => result = Async.Throw (ApiErr Api.network_error)
    | Resolved response =>
        match response_body response with
        | Unparsable _ => result = Async.Throw (ApiErr Api.network_error)
        | Parsed payload =>
            if response_ok response then result = Async.Ret payload
            else
              match payload with
              | Json.Null => True
              | _ =>
                  match ToString (Api.wrapped_message payload
                                    (response_status response)) with
                  | Normal msg =>
                      result = Async.Throw
                                 (ApiErr (mkApiError msg "ApiError"
                                            (response_status response)
                                            payload))
                  | Abrupt _ => True
                  end
              end
        end
    end
  ∧ status Api.network_error = 0
  ∧ data Api.network_error = Json.Null.
Proof.
  cbn zeta. rewrite apiRequest_run. cbn [fst]. split_and!; try done.
  - destruct (api_outcome_Normal_or_ApiErr o) as [[p ->]|[e ->]]; cbn; eauto.
  - unfold Api.api_outcome.
    destruct o as [n m|[st [payload|m]]]; cbn; try done.
    destruct (response_ok _); [done|].
    destruct (ToString _); by destruct payload.
Qed.

(** What the amended statements leave out: a [null] payload of a non-2xx
    response cannot be read, and ends as the status-0 error. *)
Lemma apiRequest_null_payload endpoint options s st :
  response_ok (mkResponse st (Parsed Json.Null)) = false →
  (Async.run (apiRequest endpoint options) s
     [(0%nat, Resolved (mkResponse st (Parsed Json.Null)))]).1
  = Async.Throw (ApiErr Api.network_error).
Proof.
  intros Hok. rewrite apiRequest_run. cbn [fst].
  unfold Api.api_outcome. cbn [response_body]. by rewrite Hok.
Qed.

(** C5, amended.  For a non-2xx response whose payload is not [null], the
    [ApiError] thrown carries as message the string form of the payload's
    [detail] field if that field is truthy, otherwise of its [error] field
    if truthy, otherwise [HTTP error] followed by the status; endpoint and
    options play no part. *)
Theorem apiRequest_error_message endpoint options s response payload msg :
  response_ok response = false →
  response_body response = Parsed payload →
  payload ≠ Json.Null →
  ToString (Api.wrapped_message payload (response_status response))
    = Normal msg →
  (Async.run (apiRequest endpoint options) s [(0%nat, Resolved response)]).1
  = Async.Throw (ApiErr (mkApiError msg "ApiError"
                           (response_status response) payload)).
Proof.
  intros Hok Hbody Hnull Hmsg. rewrite apiRequest_run. cbn [fst].
  unfold Api.api_outcome. rewrite Hbody, Hok, Hmsg. by destruct payload.
Qed.

Local Abbreviation getRecommendations :=
  (Api.getRecommendations (St:=St) REACT_APP_API_URL Number_toString
                          engine_message JSON_stringify).

Lemma try_catch_rethrow_lift {A} (c : Completion A) :
  Async.try_catch (St:=St) (Async.lift c) (λ error, Async.Throw error)
  = Async.lift c.
Proof. by destruct c. Qed.

Lemma bind_lift_Ret {A} (c : Completion A) :
  Async.bind (St:=St) (Async.lift c) (λ a, Async.Ret a) = Async.lift c.
Proof. by destruct c. Qed.

Lemma getRecommendations_run preferences browsingHistory s o :
  Async.run (getRecommendations preferences browsingHistory) s [(0%nat, o)]
  = (Async.lift (api_outcome o), s).
Proof.
  unfold Async.run, Async.step. cbn [foldl fst snd Async.start].
  change (Async.start (getRecommendations preferences browsingHistory) s)
    with (getRecommendations preferences browsingHistory, s).
  cbn [fst snd].
  set (options := Api.mkOptions (Some "POST") None
                    (Some (JSON_stringify
                             (Json.Obj [("preferences", preferences);
                                        ("browsing_history",
                                         browsingHistory)])))).
  assert (Async.deliver 0 o (getRecommendations preferences browsingHistory)
          = Async.try_catch
              (Async.bind
                 (Async.deliver 0 o (apiRequest "/recommendations" options))
                 (λ response, Async.Ret response))
              (λ error, Async.Throw error)) as -> by reflexivity.
  rewrite apiRequest_deliver, bind_lift_Ret, try_catch_rethrow_lift.
  apply start_lift.
Qed.

(** C3. [getRecommendations] sends one [POST] request to
    [/recommendations] whose body is the JSON text of an object with
    exactly the keys [preferences] and [browsing_history], bound to the two
    arguments; a 2xx response's parsed body is returned as it is, and every
    other outcome ends as [apiRequest] ends it. *)
Theorem getRecommendations_posts_and_returns_response
    preferences browsingHistory s :
  (∃ props,
     Async.in_flight
       (Async.run (getRecommendations preferences browsingHistory) s [])
     = [mkRequest (API_BASE_URL +:+ "/recommendations") (Some "POST")
          (Some [("Content-Type", "application/json")])
          (Some (JSON_stringify (Json.Obj props)))]
     ∧ map fst props = ["preferences"; "browsing_history"]
     ∧ Json.lookup "preferences" props = Some preferences
     ∧ Json.lookup "browsing_history" props = Some browsingHistory)
  ∧ (∀ status payload,
       (Async.run (getRecommendations preferences browsingHistory) s
          [(0%nat, Resolved (mkResponse status (Parsed payload)))]).1
       = if response_ok (mkResponse status (Parsed payload))
         then Async.Ret payload
         else Async.lift
                (api_outcome (Resolved (mkResponse status (Parsed payload)))))
  ∧ (∀ o,
       Async.run (getRecommendations preferences browsingHistory) s
         [(0%nat, o)]
       = Async.run (apiRequest "/recommendations"
                      (Api.mkOptions (Some "POST") None
                         (Some (JSON_stringify
                                  (Json.Obj
                                     [("preferences", preferences);
                                      ("browsing_history",
                                       browsingHistory)])))))
           s [(0%nat, o)]).
Proof.
  split_and!.
  - eexists. split; [reflexivity|]. by split_and!.
  - intros st payload. rewrite getRecommendations_run. cbn [fst].
    unfold Api.api_outcome. cbn [response_body].
    by destruct (response_ok _).
  - intros o. by rewrite getRecommendations_run, apiRequest_run.
Qed.

Local Abbreviation healthCheck := (Api.healthCheck (St:=St)).

Lemma prefix_app (a b : string) : String.prefix a (a +:+ b) = true.
Proof.
  induction a as [|c a IH]; [by destruct b|].
  change (match Ascii.ascii_dec c c with
          | left _ => String.prefix a (a +:+ b)
          | right _ => false
          end = true).
  by destruct (Ascii.ascii_dec c c).
Qed.

(** C6. [healthCheck] sends one request, a [GET], to
    [http://localhost:5000/health]: the path [/health] at the server root,
    which is not under the [/api] base the other operations put in front
    of their paths.  Whatever the status, it returns the parsed JSON body;
    it throws what [fetch] or [json()] throw. *)
Theorem healthCheck_gets_root_health s o
    productId query limit filters preferences browsingHistory :
  let request := mkRequest "http://localhost:5000/health" None None None in
  Async.in_flight (Async.run healthCheck s []) = [request]
  ∧ effective_method request = "GET"
  ∧ String.prefix "http://localhost:5000/api" (req_url request) = false
  ∧ Api.API_BASE_URL None = "http://localhost:5000/api"
  ∧ Forall (λ task,
              Forall (λ req,
                        String.prefix API_BASE_URL (req_url req) = true)
                     (Async.pending task))
      (Api.other_operations (St:=St) REACT_APP_API_URL Number_toString
         engine_message JSON_stringify encodeURIComponent
         productId query limit filters preferences browsingHistory)
  ∧ (Async.run healthCheck s [(0%nat, o)]).1
    = match o with
      | Rejected error_name error_message =>
          Async.Throw (JsErr error_name error_message)
      | Resolved response =>
          match response_body response with
          | Parsed payload => Async.Ret payload
          | Unparsable msg => Async.Throw (JsErr "SyntaxError" msg)
          end
      end.
Proof.
  cbn zeta. split_and!; try reflexivity.
  - assert (∀ path options,
              Forall (λ req, String.prefix API_BASE_URL (req_url req) = true)
                     [Api.config_of (API_BASE_URL +:+ path) options])
      as Hone.
    { intros path options. repeat constructor. apply prefix_app. }
    unfold Api.other_operations.
    apply Forall_cons_2; [apply Hone|].
    apply Forall_cons_2; [apply Hone|].
    apply Forall_cons_2.
    { unfold Api.fetchProductById.
      destruct (ToString productId) as [id|e]; [apply Hone|constructor]. }
    apply Forall_cons_2; [apply Hone|].
    apply Forall_cons_2; [apply Hone|].
    apply Forall_cons_2; [apply Hone|]. apply Forall_nil_2.
  - destruct o as [n m|[st [payload|m]]]; reflexivity.
Qed.
End ApiFacts.

Lemma apiRequest_error_message_witness :
  (Async.run
     (Api.apiRequest (St:=unit) None (λ _, "") (λ _, "") "/products/42"
                     Api.no_options) ()
     [(0%nat, Resolved (mkResponse 404
                          (Parsed (Json.Obj
                             [("detail", Json.Str "Product not found")]))))]).1
  = Async.Throw
      (ApiErr (mkApiError "Product not found" "ApiError" 404
                 (Json.Obj [("detail", Json.Str "Product not found")]))).
Proof.
  apply (apiRequest_error_message (St:=unit) None (λ _, "") (λ _, "")
           "/products/42" Api.no_options ()
           (mkResponse 404
              (Parsed (Json.Obj [("detail", Json.Str "Product not found")])))
           (Json.Obj [("detail", Json.Str "Product not found")])
           "Product not found").
  - reflexivity.
  - reflexivity.
  - discriminate.
  - reflexivity.
Defined.

(** C2 as stated fails: a 500 response whose body is the JSON value [null]
    is a non-2xx response with a parsed payload, yet the error thrown has
    status 0, not 500. *)
Lemma apiRequest_null_payload_loses_status :
  let response := mkResponse 500 (Parsed Json.Null) in
  response_ok response = false
  ∧ ∃ e,
      (Async.run
         (Api.apiRequest (St:=unit) None (λ _, "") (λ _, "") "/products"
                         Api.no_options) ()
         [(0%nat, Resolved response)]).1
      = Async.Throw (ApiErr e)
      ∧ status e = 0
      ∧ status e ≠ response_status response.
Proof.
  cbn zeta. split; [reflexivity|]. eexists. split; [reflexivity|].
  split; [reflexivity|]. cbn. discriminate.
Qed.

(** C5 as stated fails: with an empty [detail] next to an [error] text the
    field [detail] is present, but the message is the [error] text. *)
Lemma apiRequest_empty_detail_is_skipped :
  let payload :=
    Json.Obj [("detail", Json.Str ""); ("error", Json.Str "quota exceeded")] in
  Api.field payload "detail" = Some (Json.Str "")
  ∧ Api.claimed_message payload 500 = Json.Str ""
  ∧ ∃ e,
      (Async.run
         (Api.apiRequest (St:=unit) None (λ _, "") (λ _, "") "/recommendations"
                         Api.no_options) ()
         [(0%nat, Resolved (mkResponse 500 (Parsed payload)))]).1
      = Async.Throw (ApiErr e)
      ∧ message e = "quota exceeded"
      ∧ Json.Str (message e) ≠ Api.claimed_message payload 500.
Proof.
  cbn zeta. split; [reflexivity|]. split; [reflexivity|].
  eexists. split; [reflexivity|]. split; [reflexivity|]. cbn. discriminate.
Qed.

(** ** Requests in flight *)

Section AsyncFacts.
Context {St : Type}.
Import Async.
Implicit Types (s : St) (o : FetchOutcome) (i n : nat).

Lemma sequential_fits {A} (m : Async.t St A) n :
  sequential m → fits (S n) m.
Proof. induction 1; constructor; auto. Qed.

Lemma fits_mono {A} (m : Async.t St A) n n' :
  fits n m → (n ≤ n')%nat → fits n' m.
Proof.
  intros Hm. revert n'.
  induction Hm as [| |A n req k _ IH|A n u k _ IH|A n l r k h Hl Hr _ IHk _ IHh
                  |A n b m Hb _ IH]; intros n' Hle.
  - constructor.
  - constructor.
  - destruct n' as [|n']; [lia|]. constructor. intros o. apply IH. lia.
  - constructor. by apply IH.
  - destruct n' as [|[|n']]; [lia..|]. constructor; [done..| |].
    + intros a b. apply IHk. lia.
    + intros e. apply IHh. lia.
  - destruct n' as [|n']; [lia|]. constructor; [done|]. apply IH. lia.
Qed.

Lemma pending_sequential {A} (m : Async.t St A) :
  sequential m → (length (pending m) ≤ 1)%nat.
Proof. induction 1; cbn; lia. Qed.

Lemma pending_fits {A} (m : Async.t St A) n :
  fits n m → (length (pending m) ≤ n)%nat.
Proof.
  induction 1 as [| | | |A n l r k h Hl Hr _ _ _ _|A n b m Hb _ IH]; cbn;
    try lia.
  - apply pending_sequential in Hl, Hr. rewrite length_app. lia.
  - apply pending_sequential in Hb. rewrite length_app. lia.
Qed.

Lemma deliver_sequential {A} (m : Async.t St A) i o :
  sequential m → sequential (deliver i o m).
Proof.
  intros Hm. revert i.
  induction Hm as [| |A req k Hk _|A u k _ IH]; intros i; cbn.
  - constructor.
  - constructor.
  - destruct i; [done|]. by constructor.
  - constructor. auto.
Qed.

Lemma deliver_fits {A} (m : Async.t St A) n i o :
  fits n m → fits n (deliver i o m).
Proof.
  intros Hm. revert i.
  induction Hm as [| |A n req k Hk _|A n u k _ IH|A n l r k h Hl Hr Hk _ Hh _
                  |A n b m Hb Hm IH]; intros i; cbn.
  - constructor.
  - constructor.
  - destruct i; [done|]. by constructor.
  - constructor. auto.
  - case_decide; constructor; auto using deliver_sequential.
  - case_decide; constructor; auto using deliver_sequential.
Qed.

Lemma start_sequential {A} (m : Async.t St A) s :
  sequential m → sequential (start m s).1.
Proof.
  intros Hm. revert s. induction Hm; intros s; cbn; try by constructor.
  auto.
Qed.

Lemma background_fits {A} (b : Async.t St Json.value) (m : Async.t St A) n :
  sequential b → fits n m → fits (S n) (background b m).
Proof.
  intros Hb Hm. destruct b; cbn;
    try (by constructor); eapply fits_mono; eauto.
Qed.

Lemma start_fits {A} (m : Async.t St A) n s :
  fits n m → fits n (start m s).1.
Proof.
  intros Hm. revert s.
  induction Hm as [| |A n req k Hk _|A n u k _ IH|A n l r k h Hl Hr Hk IHk Hh IHh
                  |A n b m Hb _ IH]; intros s; cbn.
  - constructor.
  - constructor.
  - by constructor.
  - apply IH.
  - pose proof (start_sequential l s Hl) as Hl'.
    destruct (start l s) as [l' s1]. cbn in Hl'.
    pose proof (start_sequential r s1 Hr) as Hr'.
    destruct (start r s1) as [r' s2]. cbn in Hr'.
    assert (∀ e b', sequential b' →
              fits (S (S n))
                (let '(m', s3) := start (h e) s2 in (background b' m', s3)).1)
      as Hrej.
    { intros e b' Hb'. specialize (IHh e s2).
      destruct (start (h e) s2) as [m' s3]. cbn in *.
      by apply background_fits. }
    destruct l' as [a| | | | |], r' as [b| | | | |];
      try apply Hrej; try apply IHk; try done; by constructor.
  - pose proof (start_sequential b s Hb) as Hb'.
    destruct (start b s) as [b' s1]. cbn in Hb'.
    specialize (IH s1). destruct (start m s1) as [m' s2]. cbn in *.
    by apply background_fits.
Qed.

Lemma run_fits {A} (m : Async.t St A) n s ds :
  fits n m → fits n (run m s ds).1.
Proof.
  intros Hm. unfold run.
  assert (fits n (start m s).1) as Hc by by apply start_fits.
  revert Hc. generalize (start m s). clear Hm.
  induction ds as [|d ds IH]; intros c Hc; cbn; [done|].
  apply IH. unfold step. by apply start_fits, deliver_fits.
Qed.

(** A tree that [fits n] never has more than [n] requests in flight. *)
Lemma in_flight_fits {A} (m : Async.t St A) n s ds :
  fits n m → (length (in_flight (run m s ds)) ≤ n)%nat.
Proof. intros Hm. by apply pending_fits, run_fits. Qed.

(** *** [sequential] and [fits] through the control operators *)

Lemma sequential_lift {A} (c : Completion A) :
  sequential (St:=St) (lift c).
Proof. destruct c; constructor. Qed.

Lemma sequential_bind {A B} (m : Async.t St A) (f : A → Async.t St B) :
  sequential m → (∀ a, sequential (f a)) → sequential (bind m f).
Proof. induction 1; intros Hf; cbn; try constructor; auto. Qed.

Lemma sequential_try_catch {A} (m : Async.t St A) h :
  sequential m → (∀ e, sequential (h e)) → sequential (try_catch m h).
Proof. induction 1; intros Hh; cbn; try constructor; auto. Qed.

Lemma sequential_try_finally {A} (m : Async.t St A) fin :
  sequential m → sequential fin → sequential (try_finally m fin).
Proof.
  induction 1; intros Hfin; cbn; try constructor; auto;
    apply sequential_bind; auto; intros; constructor.
Qed.

Lemma sequential_fetch req : sequential (St:=St) (fetch req).
Proof. constructor. intros []; constructor. Qed.

Lemma sequential_json response : sequential (St:=St) (json response).
Proof. unfold json. destruct (response_body response); constructor. Qed.

Lemma sequential_set u : sequential (St:=St) (set u).
Proof. repeat constructor. Qed.

Lemma fits_bind_sequential {A B} (m : Async.t St A) (f : A → Async.t St B) n :
  sequential m → (∀ a, fits (S n) (f a)) → fits (S n) (bind m f).
Proof. induction 1; intros Hf; cbn; try constructor; auto. Qed.

Lemma fits_bind_quiet {A B} (m : Async.t St A) (f : A → Async.t St B) n :
  fits n m → (∀ a, fits 0 (f a)) → fits n (bind m f).
Proof.
  induction 1; intros Hf; cbn; try (constructor; auto).
  eapply fits_mono; [apply Hf|lia].
Qed.

Lemma fits_try_catch_quiet {A} (m : Async.t St A) h n :
  fits n m → (∀ e, fits 0 (h e)) → fits n (try_catch m h).
Proof.
  induction 1; intros Hh; cbn; try (constructor; auto).
  eapply fits_mono; [apply Hh|lia].
Qed.

Lemma fits_try_finally_quiet {A} (m : Async.t St A) fin n :
  fits n m → fits 0 fin → fits n (try_finally m fin).
Proof.
  induction 1; intros Hfin; cbn; try (constructor; auto);
    (eapply fits_mono; [|apply Nat.le_0_l]);
    apply fits_bind_quiet; auto; intros; constructor.
Qed.

Lemma fits_set u n : fits (St:=St) n (set u).
Proof. repeat constructor. Qed.
End AsyncFacts.

(** ** App.js: requests of the asynchronous handlers *)

Ltac sequential_step :=
  first
    [ progress intros
    | apply sequential_bind
    | apply sequential_try_catch
    | apply sequential_try_finally
    | apply sequential_fetch
    | apply sequential_json
    | apply sequential_lift
    | apply sequential_set
    | apply Async.seq_Ret
    | apply Async.seq_Throw
    | match goal with
      | |- Async.sequential (if ?b then _ else _) => destruct b
      | |- Async.sequential (match ?p with (_, _) => _ end) => destruct p
      | |- Async.sequential (match ?p with Normal _ => _ | Abrupt _ => _ end) =>
          destruct p
      end ].

Ltac quiet_step :=
  first
    [ progress intros
    | apply fits_set
    | apply Async.fits_Ret
    | apply Async.fits_Throw
    | apply fits_bind_quiet
    | match goal with
      | |- Async.fits _ (if ?b then _ else _) => destruct b
      | |- Async.fits _ (match ?p with (_, _) => _ end) => destruct p
      end ].

Section HandlerFacts.
Variable REACT_APP_API_URL : option string.
Variable Number_toString : Q → string.
Variable engine_message : EngineError → string.
Variable ToNumber : Json.value → Completion (option Q).
Variable JSON_stringify : Json.value → string.

Local Abbreviation loadInitialData :=
  (App.loadInitialData REACT_APP_API_URL Number_toString engine_message).
Local Abbreviation handleGetRecommendations :=
  (App.handleGetRecommendations REACT_APP_API_URL Number_toString
     engine_message ToNumber JSON_stringify).

Lemma sequential_apiRequest {St} endpoint options :
  Async.sequential
    (Api.apiRequest (St:=St) REACT_APP_API_URL Number_toString engine_message
                    endpoint options).
Proof. unfold Api.apiRequest. repeat sequential_step. Qed.

Lemma sequential_healthCheck {St} :
  Async.sequential (Api.healthCheck (St:=St)).
Proof. unfold Api.healthCheck. repeat sequential_step. Qed.

Lemma sequential_fetchProducts {St} :
  Async.sequential
    (Api.fetchProducts (St:=St) REACT_APP_API_URL Number_toString
                       engine_message).
Proof.
  unfold Api.fetchProducts.
  repeat first [apply sequential_apiRequest | sequential_step].
Qed.

Lemma sequential_fetchCategories {St} :
  Async.sequential
    (Api.fetchCategories (St:=St) REACT_APP_API_URL Number_toString
                         engine_message).
Proof.
  unfold Api.fetchCategories.
  repeat first [apply sequential_apiRequest | sequential_step].
Qed.

Lemma sequential_getRecommendations {St} preferences browsingHistory :
  Async.sequential
    (Api.getRecommendations (St:=St) REACT_APP_API_URL Number_toString
                            engine_message JSON_stringify
                            preferences browsingHistory).
Proof.
  unfold Api.getRecommendations.
  repeat first [apply sequential_apiRequest | sequential_step].
Qed.

Lemma sequential_handleGetRecommendations userPreferences browsingHistory :
  Async.sequential (handleGetRecommendations userPreferences browsingHistory).
Proof.
  unfold App.handleGetRecommendations.
  repeat first [apply sequential_getRecommendations | sequential_step].
Qed.

Lemma fits_loadInitialData : Async.fits 2 loadInitialData.
Proof.
  unfold App.loadInitialData.
  apply fits_try_finally_quiet; [|apply fits_set].
  apply fits_try_catch_quiet; [|repeat quiet_step].
  apply fits_bind_sequential; [apply sequential_set|intros _].
  apply fits_bind_sequential; [apply sequential_set|intros _].
  apply fits_bind_sequential.
  { repeat first [apply sequential_healthCheck | sequential_step]. }
  intros _. apply fits_bind_quiet; [|repeat quiet_step].
  apply Async.fits_All2.
  - apply sequential_fetchProducts.
  - repeat first [apply sequential_fetchCategories | sequential_step].
  - constructor.
  - constructor.
Qed.

Local Abbreviation get_request path :=
  (mkRequest (Api.API_BASE_URL REACT_APP_API_URL +:+ path) None
             (Some [("Content-Type", "application/json")]) None).

(** C7, amended.  The recommendation action never has more than one
    request in flight.  The initial load has the health check in flight
    alone; once that has answered with a JSON body, the products and the
    categories requests are in flight together, and at no time are there
    more than two. *)
Theorem requests_in_flight_per_action userPreferences browsingHistory s ds
    response :
  (length (Async.in_flight
             (Async.run
                (handleGetRecommendations userPreferences browsingHistory)
                s ds)) ≤ 1)%nat
  ∧ (length (Async.in_flight (Async.run loadInitialData s ds)) ≤ 2)%nat
  ∧ Async.in_flight (Async.run loadInitialData s [])
    = [mkRequest "http://localhost:5000/health" None None None]
  ∧ Async.in_flight
      (Async.run loadInitialData s [(0%nat, Resolved response)])
    = match response_body response with
      | Parsed _ => [get_request "/products"; get_request "/categories"]
      | Unparsable _ => []
      end.
Proof.
  split_and!.
  - apply in_flight_fits, sequential_fits, sequential_handleGetRecommendations.
  - apply in_flight_fits, fits_loadInitialData.
  - reflexivity.
  - destruct response as [st [payload|msg]]; reflexivity.
Qed.
End HandlerFacts.

(** C7 as stated fails: when the health check has answered, the initial
    load has two requests in flight. *)
Lemma loadInitialData_two_requests_in_flight :
  let healthy :=
    Resolved (mkResponse 200
                (Parsed (Json.Obj [("status", Json.Str "healthy")]))) in
  let get_request path :=
    mkRequest ("http://localhost:5000/api" +:+ path) None
              (Some [("Content-Type", "application/json")]) None in
  Async.in_flight
    (Async.run (App.loadInitialData None (λ _, "") (λ _, ""))
               App.initialState [(0%nat, healthy)])
  = [get_request "/products"; get_request "/categories"]
  ∧ (1 < length
           (Async.in_flight
              (Async.run (App.loadInitialData None (λ _, "") (λ _, ""))
                         App.initialState [(0%nat, healthy)])))%nat.
Proof. cbn zeta. split; [reflexivity|]. cbn. lia. Qed.

(** ** services/api.js: the operations built on [apiRequest] *)

Section ApiWrapperFacts.
Context {St : Type}.
Variable REACT_APP_API_URL : option string.
Variable Number_toString : Q → string.
Variable engine_message : EngineError → string.
Variable JSON_stringify : Json.value → string.
Variable encodeURIComponent : string → string.

Local Abbreviation apiRequest :=
  (Api.apiRequest (St:=St) REACT_APP_API_URL Number_toString
                  engine_message).
Local Abbreviation api_outcome :=
  (Api.api_outcome Number_toString engine_message).
Local Abbreviation fetchProducts :=
  (Api.fetchProducts (St:=St) REACT_APP_API_URL Number_toString
                     engine_message).
Local Abbreviation fetchCategories :=
  (Api.fetchCategories (St:=St) REACT_APP_API_URL Number_toString
                       engine_message).
Local Abbreviation searchProducts :=
  (Api.searchProducts (St:=St) REACT_APP_API_URL Number_toString
                      engine_message encodeURIComponent).
Local Abbreviation filterProducts :=
  (Api.filterProducts (St:=St) REACT_APP_API_URL Number_toString
                      engine_message JSON_stringify).
Local Abbreviation TypeError := (JsOps.TypeError engine_message).
Implicit Types (s : St) (o : FetchOutcome).

Lemma bind_lift {A B} (c : Completion A) (f : A → Async.t St B) :
  Async.bind (Async.lift c) f
  = match c with Normal a => f a | Abrupt e => Async.Throw e end.
Proof. by destruct c. Qed.

Lemma fetchProducts_deliver o :
  Async.deliver 0 o fetchProducts
  = Async.lift
      (match api_outcome o with
       | Abrupt e => Abrupt e
       | Normal body =>
           if Json.Array_isArray body then Normal body
           else Api.prop_or_self engine_message body "products"
       end).
Proof.
  assert (Async.deliver 0 o fetchProducts
          = Async.try_catch
              (Async.bind
                 (Async.deliver 0 o (apiRequest "/products" Api.no_options))
                 (λ response,
                    if Json.Array_isArray response then Async.Ret response
                    else Async.lift
                           (Api.prop_or_self engine_message response
                              "products")))
              (λ error, Async.Throw error)) as -> by reflexivity.
  rewrite apiRequest_deliver, bind_lift.
  destruct (api_outcome o) as [body|e]; [|done].
  destruct (Json.Array_isArray body); [done|].
  by destruct (Api.prop_or_self _ _ _).
Qed.

(** The operations that return [response.key || response]. *)
Lemma keyed_deliver endpoint options key o :
  Async.deliver 0 o
    (Async.try_catch
       (Async.bind (apiRequest endpoint options)
          (λ response,
             Async.lift (Api.prop_or_self engine_message response key)))
       (λ error, Async.Throw error))
  = Async.lift
      (match api_outcome o with
       | Abrupt e => Abrupt e
       | Normal body => Api.prop_or_self engine_message body key
       end).
Proof.
  assert (∀ (f : Json.value → Async.t St Json.value) h,
            Async.deliver 0 o
              (Async.try_catch (Async.bind (apiRequest endpoint options) f) h)
            = Async.try_catch
                (Async.bind (Async.deliver 0 o (apiRequest endpoint options))
                            f) h) as -> by reflexivity.
  rewrite apiRequest_deliver, bind_lift.
  destruct (api_outcome o) as [body|e]; [|done].
  by destruct (Api.prop_or_self _ _ _).
Qed.

Lemma run_single {A} (m : Async.t St A) s o c :
  Async.start m s = (m, s) →
  Async.deliver 0 o m = Async.lift c →
  Async.run m s [(0%nat, o)] = (Async.lift c, s).
Proof.
  intros Hs Hd. unfold Async.run, Async.step. cbn [foldl]. rewrite Hs.
  cbn [fst snd]. rewrite Hd. apply start_lift.
Qed.

(** X1. [fetchProducts] passes every [ApiError] of [apiRequest] on
    unchanged; a 2xx array body is returned as it is, any other body gives
    its truthy [products] property or else the body itself; and a 2xx body
    that is the JSON value [null] makes it throw the engine's [TypeError],
    which is not an [ApiError]. *)
Theorem fetchProducts_outcome s o :
  let result := (Async.run fetchProducts s [(0%nat, o)]).1 in
  match api_outcome o with
  | Abrupt e => result = Async.Throw e
  | Normal Json.Null =>
      result = Async.Throw (TypeError (NullProperty "products"))
  | Normal (Json.Arr elems) => result = Async.Ret (Json.Arr elems)
  | Normal body =>
      result = Async.Ret
                 (if Json.truthy (Api.field body "products")
                  then default body (Api.field body "products")
                  else body)
  end.
Proof.
  cbn zeta.
  rewrite (run_single fetchProducts s o _ eq_refl (fetchProducts_deliver o)).
  cbn [fst]. destruct (api_outcome o) as [body|e]; [|done].
  destruct body as [|b|q|str|elems|props]; try done.
  cbn. unfold Api.prop_or_self, Json.or. cbn.
  by destruct (Json.lookup "products" props) as [v|];
    [destruct (Json.truthy (Some v))|].
Qed.

(** X2. [fetchCategories], [searchProducts] and [filterProducts] end alike:
    an [ApiError] of [apiRequest] is passed on unchanged, a 2xx body gives
    its truthy property ([categories], [products]) or else the body itself,
    arrays included, and a 2xx [null] body throws the engine's
    [TypeError]. *)
Theorem keyed_operations_outcome s o query limit filters :
  let ends (task : Async.t St Json.value) (key : string) :=
    let result := (Async.run task s [(0%nat, o)]).1 in
    match api_outcome o with
    | Abrupt e => result = Async.Throw e
    | Normal Json.Null => result = Async.Throw (TypeError (NullProperty key))
    | Normal body =>
        result = Async.Ret
                   (if Json.truthy (Api.field body key)
                    then default body (Api.field body key)
                    else body)
    end in
  ends fetchCategories "categories"
  ∧ ends (searchProducts query limit) "products"
  ∧ ends (filterProducts filters) "products".
Proof.
  cbn zeta.
  assert (∀ endpoint options key,
            let result :=
              (Async.run
                 (Async.try_catch
                    (Async.bind (apiRequest endpoint options)
                       (λ response,
                          Async.lift
                            (Api.prop_or_self engine_message response key)))
                    (λ error, Async.Throw error)) s [(0%nat, o)]).1 in
            match api_outcome o with
            | Abrupt e => result = Async.Throw e
            | Normal Json.Null =>
                result = Async.Throw (TypeError (NullProperty key))
            | Normal body =>
                result = Async.Ret
                           (if Json.truthy (Api.field body key)
                            then default body (Api.field body key)
                            else body)
            end) as Hkeyed.
  { intros endpoint options key. cbn zeta.
    match goal with
    | |- context [Async.run ?task s _] =>
        rewrite (run_single task s o _ eq_refl
                   (keyed_deliver endpoint options key o))
    end.
    cbn [fst]. destruct (api_outcome o) as [body|e]; [|done].
    destruct body as [|b|q|str|elems|props]; try done.
    cbn. unfold Api.prop_or_self, Json.or. cbn.
    by destruct (Json.lookup key props) as [v|];
      [destruct (Json.truthy (Some v))|]. }
  split_and!; apply Hkeyed.
Qed.

(** X3. When [options] brings its own [headers], the request goes out with
    exactly those: the spread of [options] replaces the merged headers, so
    the default [Content-Type] is sent only if the caller repeats it.
    Without [headers] the request carries the JSON content type alone. *)
Theorem apiRequest_headers endpoint method headers body s :
  req_headers <$>
    Async.in_flight
      (Async.run (apiRequest endpoint (Api.mkOptions method headers body))
                 s [])
  = [Some (default [("Content-Type", "application/json")] headers)].
Proof. by destruct headers. Qed.
End ApiWrapperFacts.

(** ** [Promise.all] of two single-request calls

    [l] and [r] have issued one request each and end, when it is answered,
    as [resl] and [resr] say; the continuations [K] and [H] issue no further
    request and leave the states [fK] and [fH]. *)

Section PromiseAllSteps.
Context {St A : Type}.
Implicit Types (l r : Async.t St Json.value) (s : St).
Variable K : Json.value → Json.value → Async.t St A.
Variable H : Exn → Async.t St A.

Lemma start_All2_waiting l r s :
  length (Async.pending l) = 1%nat → length (Async.pending r) = 1%nat →
  Async.start l s = (l, s) → Async.start r s = (r, s) →
  Async.start (Async.All2 l r K H) s = (Async.All2 l r K H, s).
Proof.
  intros Hl Hr Hsl Hsr. cbn [Async.start]. rewrite Hsl, Hsr.
  destruct l; cbn in Hl; try lia; destruct r; cbn in Hr; try lia; done.
Qed.

Lemma start_All2_left_value a r s :
  length (Async.pending r) = 1%nat → Async.start r s = (r, s) →
  Async.start (Async.All2 (Async.Ret a) r K H) s
  = (Async.All2 (Async.Ret a) r K H, s).
Proof.
  intros Hr Hsr. cbn [Async.start]. rewrite Hsr.
  destruct r; cbn in Hr; try lia; done.
Qed.

Lemma start_All2_right_value l b s :
  length (Async.pending l) = 1%nat → Async.start l s = (l, s) →
  Async.start (Async.All2 l (Async.Ret b) K H) s
  = (Async.All2 l (Async.Ret b) K H, s).
Proof.
  intros Hl Hsl. cbn [Async.start]. rewrite Hsl.
  destruct l; cbn in Hl; try lia; done.
Qed.

Lemma start_All2_left_throws e r s :
  length (Async.pending r) = 1%nat → Async.start r s = (r, s) →
  Async.start (Async.All2 (Async.Throw e) r K H) s
  = (Async.Background r (Async.start (H e) s).1, (Async.start (H e) s).2).
Proof.
  intros Hr Hsr. cbn [Async.start]. rewrite Hsr.
  destruct (Async.start (H e) s) as [m' s'].
  destruct r; cbn in Hr; try lia; done.
Qed.

Lemma start_All2_right_throws l e s :
  length (Async.pending l) = 1%nat → Async.start l s = (l, s) →
  Async.start (Async.All2 l (Async.Throw e) K H) s
  = (Async.Background l (Async.start (H e) s).1, (Async.start (H e) s).2).
Proof.
  intros Hl Hsl. cbn [Async.start]. rewrite Hsl.
  destruct (Async.start (H e) s) as [m' s'].
  destruct l; cbn in Hl; try lia; done.
Qed.
End PromiseAllSteps.

Section PromiseAllFacts.
Context {St A : Type}.
Variables (l r : Async.t St Json.value).
Variables (resl resr : FetchOutcome → Completion Json.value).
Variable K : Json.value → Json.value → Async.t St A.
Variable H : Exn → Async.t St A.
Variable fK : Json.value → Json.value → St → A * St.
Variable fH : Exn → St → A * St.
Hypothesis l_start : ∀ s, Async.start l s = (l, s).
Hypothesis r_start : ∀ s, Async.start r s = (r, s).
Hypothesis l_pending : length (Async.pending l) = 1%nat.
Hypothesis r_pending : length (Async.pending r) = 1%nat.
Hypothesis l_deliver : ∀ o, Async.deliver 0 o l = Async.lift (resl o).
Hypothesis r_deliver : ∀ o, Async.deliver 0 o r = Async.lift (resr o).
Hypothesis K_start :
  ∀ a b s, Async.start (K a b) s = (Async.Ret (fK a b s).1, (fK a b s).2).
Hypothesis H_start :
  ∀ e s, Async.start (H e) s = (Async.Ret (fH e s).1, (fH e s).2).

(** The left answer first. *)
Lemma All2_left_first s ol or :
  foldl Async.step (Async.All2 l r K H, s) [(0%nat, ol); (0%nat, or)]
  = match resl ol with
    | Abrupt e => (Async.Ret (fH e s).1, (fH e s).2)
    | Normal a =>
        match resr or with
        | Abrupt e => (Async.Ret (fH e s).1, (fH e s).2)
        | Normal b => (Async.Ret (fK a b s).1, (fK a b s).2)
        end
    end.
Proof.
  cbn [foldl]. unfold Async.step at 2. cbn [fst snd Async.deliver].
  rewrite decide_True by lia. rewrite l_deliver.
  destruct (resl ol) as [a|e]; cbn [Async.lift].
  - rewrite start_All2_left_value by done.
    unfold Async.step. cbn [fst snd Async.deliver Async.pending length].
    rewrite decide_False by lia. cbn [Nat.sub]. rewrite r_deliver.
    destruct (resr or) as [b|e]; cbn [Async.lift Async.start].
    + apply K_start.
    + by rewrite H_start.
  - rewrite start_All2_left_throws, H_start by done. cbn [fst snd].
    unfold Async.step. cbn [fst snd Async.deliver].
    rewrite decide_True by lia. rewrite r_deliver.
    by destruct (resr or).
Qed.

(** The right answer first. *)
Lemma All2_right_first s ol or :
  foldl Async.step (Async.All2 l r K H, s) [(1%nat, or); (0%nat, ol)]
  = match resr or with
    | Abrupt e => (Async.Ret (fH e s).1, (fH e s).2)
    | Normal b =>
        match resl ol with
        | Abrupt e => (Async.Ret (fH e s).1, (fH e s).2)
        | Normal a => (Async.Ret (fK a b s).1, (fK a b s).2)
        end
    end.
Proof.
  cbn [foldl]. unfold Async.step at 2. cbn [fst snd Async.deliver].
  rewrite decide_False by lia. rewrite l_pending. cbn [Nat.sub].
  rewrite r_deliver.
  destruct (resr or) as [b|e]; cbn [Async.lift].
  - rewrite start_All2_right_value by done.
    unfold Async.step. cbn [fst snd Async.deliver].
    rewrite decide_True by lia. rewrite l_deliver.
    destruct (resl ol) as [a|e]; cbn [Async.lift Async.start].
    + apply K_start.
    + by rewrite H_start.
  - rewrite start_All2_right_throws, H_start by done. cbn [fst snd].
    unfold Async.step. cbn [fst snd Async.deliver].
    rewrite decide_True by lia. rewrite l_deliver.
    by destruct (resl ol).
Qed.
End PromiseAllFacts.

(** ** App.js: what the asynchronous handlers leave in the state *)

Lemma run_finished {St A} (a : A) (s : St) ds :
  foldl Async.step (Async.Ret a, s) ds = (Async.Ret a, s).
Proof. induction ds as [|d ds IH]; [done|]. cbn. apply IH. Qed.

Section HandlerOutcomeFacts.
Variable REACT_APP_API_URL : option string.
Variable Number_toString : Q → string.
Variable engine_message : EngineError → string.
Variable ToNumber : Json.value → Completion (option Q).
Variable JSON_stringify : Json.value → string.

Local Abbreviation loadInitialData :=
  (App.loadInitialData REACT_APP_API_URL Number_toString engine_message).
Local Abbreviation handleGetRecommendations :=
  (App.handleGetRecommendations REACT_APP_API_URL Number_toString
     engine_message ToNumber JSON_stringify).
Local Abbreviation getRecommendations :=
  (Api.getRecommendations (St:=App.State) REACT_APP_API_URL Number_toString
                          engine_message JSON_stringify).
Local Abbreviation api_outcome :=
  (Api.api_outcome Number_toString engine_message).
Local Abbreviation recommendations_result :=
  (App.recommendations_result Number_toString engine_message ToNumber).
Local Abbreviation show_recommendations :=
  (App.show_recommendations Number_toString engine_message ToNumber).
Implicit Types (s : App.State) (o : FetchOutcome).

Lemma getRecommendations_deliver preferences browsingHistory o :
  Async.deliver 0 o (getRecommendations preferences browsingHistory)
  = Async.lift (api_outcome o).
Proof.
  set (options := Api.mkOptions (Some "POST") None
                    (Some (JSON_stringify
                             (Json.Obj [("preferences", preferences);
                                        ("browsing_history",
                                         browsingHistory)])))).
  assert (Async.deliver 0 o (getRecommendations preferences browsingHistory)
          = Async.try_catch
              (Async.bind
                 (Async.deliver 0 o
                    (Api.apiRequest REACT_APP_API_URL Number_toString
                       engine_message "/recommendations" options))
                 (λ response, Async.Ret response))
              (λ error, Async.Throw error)) as -> by reflexivity.
  by rewrite apiRequest_deliver, bind_lift_Ret, try_catch_rethrow_lift.
Qed.

Lemma handleGetRecommendations_run userPreferences browsingHistory s o :
  App.nothing_to_go_on userPreferences browsingHistory = false →
  Async.run (handleGetRecommendations userPreferences browsingHistory) s
            [(0%nat, o)]
  = (Async.Ret (), recommendations_result s o).
Proof.
  intros Hgo. unfold App.handleGetRecommendations.
  change (Nat.eqb _ 0 && Nat.eqb _ 0)
    with (App.nothing_to_go_on userPreferences browsingHistory).
  rewrite Hgo. unfold Async.run, Async.step.
  cbn [foldl Async.start mbind Async.async_bind Async.bind Async.set fst snd].
  match goal with
  | |- context [Async.start ?t ?s1] =>
      change (Async.start t s1) with (t, s1)
  end.
  cbn [fst snd].
  match goal with
  | |- context [Async.deliver 0 o (Async.try_finally
                  (Async.try_catch (?m ≫= ?f) ?h) ?fin)] =>
      change (Async.deliver 0 o (Async.try_finally
                (Async.try_catch (m ≫= f) h) fin))
        with (Async.try_finally
                (Async.try_catch (Async.bind (Async.deliver 0 o m) f) h) fin)
  end.
  rewrite getRecommendations_deliver.
  unfold App.recommendations_result, App.show_recommendations.
  destruct (api_outcome o) as [response|e].
  - cbn [Async.lift Async.bind].
    destruct (JsOps.get engine_message response "recommendations")
      as [recs|e1]; [|by destruct e1].
    cbn [Async.lift Async.bind mbind Async.async_bind].
    destruct (Json.truthy recs).
    + destruct (JsOps.greater_than_zero ToNumber _) as [[|]|e2];
        [done| |by destruct e2].
      cbn [Async.lift Async.bind mbind Async.async_bind].
      destruct (JsOps.get engine_message response "error") as [err|e3];
        [|by destruct e3].
      cbn [Async.lift Async.bind mbind Async.async_bind].
      destruct (Json.truthy err); [|done].
      destruct (JsOps.ToString _ _ _) as [text|e4]; [done|by destruct e4].
    + cbn [Async.lift Async.bind mbind Async.async_bind].
      destruct (JsOps.get engine_message response "error") as [err|e3];
        [|by destruct e3].
      cbn [Async.lift Async.bind mbind Async.async_bind].
      destruct (Json.truthy err); [|done].
      destruct (JsOps.ToString _ _ _) as [text|e4]; [done|by destruct e4].
  - by destruct e.
Qed.
Local Abbreviation fetchProducts :=
  (Api.fetchProducts (St:=App.State) REACT_APP_API_URL Number_toString
                     engine_message).
Local Abbreviation fetchCategories :=
  (Api.fetchCategories (St:=App.State) REACT_APP_API_URL Number_toString
                       engine_message).
Local Abbreviation products_result :=
  (App.products_result Number_toString engine_message).
Local Abbreviation categories_result :=
  (App.categories_result Number_toString engine_message).
Local Abbreviation load_result :=
  (App.load_result Number_toString engine_message).

Lemma healthCheck_deliver o :
  Async.deliver 0 o (Api.healthCheck (St:=App.State))
  = Async.lift (App.health_result o).
Proof. by destruct o as [n m|[st [payload|msg]]]. Qed.

Lemma categories_or_empty_deliver o :
  Async.deliver 0 o
    (Async.try_catch fetchCategories (λ _, Async.Ret (Json.Arr [])))
  = Async.lift (Normal (categories_result o)).
Proof.
  assert (Async.deliver 0 o
            (Async.try_catch fetchCategories (λ _, Async.Ret (Json.Arr [])))
          = Async.try_catch (Async.deliver 0 o fetchCategories)
                            (λ _, Async.Ret (Json.Arr []))) as ->
    by reflexivity.
  rewrite (keyed_deliver (St:=App.State) REACT_APP_API_URL Number_toString
             engine_message "/categories" Api.no_options "categories" o
           : Async.deliver 0 o fetchCategories = _).
  unfold App.categories_result.
  destruct (api_outcome o) as [body|e]; [|done].
  by destruct (Api.prop_or_self _ _ _).
Qed.

(** The load after the health check has failed: nothing more is asked. *)
Lemma load_run_health_failed s oh e ds :
  App.health_result oh = Abrupt e →
  Async.run loadInitialData s ((0%nat, oh) :: ds)
  = (Async.Ret (),
     App.load_failed
       (App.new_Error "Unable to connect to the recommendation service. Please check if the backend is running.")
       (App.setApiStatus "disconnected"
          (App.setError None (App.setIsInitialLoading true s)))).
Proof.
  intros He. unfold Async.run. cbn [foldl].
  assert (Async.step (Async.start loadInitialData s) (0%nat, oh)
          = (Async.Ret (),
             App.load_failed
               (App.new_Error "Unable to connect to the recommendation service. Please check if the backend is running.")
               (App.setApiStatus "disconnected"
                  (App.setError None (App.setIsInitialLoading true s)))))
    as ->; [|apply run_finished].
  destruct oh as [n m|[st [payload|msg]]]; try done.
Qed.

Lemma load_run_health_passed s oh payload :
  App.health_result oh = Normal payload →
  ∃ K H,
    Async.step (Async.start loadInitialData s) (0%nat, oh)
    = (Async.All2 fetchProducts
         (Async.try_catch fetchCategories (λ _, Async.Ret (Json.Arr [])))
         K H,
       App.setApiStatus "connected"
         (App.setError None (App.setIsInitialLoading true s)))
    ∧ (∀ a b s',
         Async.start (K a b) s'
         = (Async.Ret (),
            if App.no_products a
            then App.load_failed
                   (App.new_Error "No products available. Please check the backend service.")
                   s'
            else App.setIsInitialLoading false
                   (App.setCategories b (App.setProducts a s'))))
    ∧ (∀ e s', Async.start (H e) s' = (Async.Ret (), App.load_failed e s')).
Proof.
  intros Hh. destruct oh as [n m|[st [body|msg]]]; try done.
  do 2 eexists. split; [reflexivity|]. split.
  - intros a b s'. cbn. unfold App.load_failed, App.load_banner.
    by destruct (App.no_products a).
  - intros e s'. cbn. unfold App.load_failed, App.load_banner.
    by destruct (instanceof_ApiError e).
Qed.

Lemma load_run (first_products : bool) s oh op oc :
  Async.run loadInitialData s
    ((0%nat, oh)
     :: if first_products then [(0%nat, op); (0%nat, oc)]
        else [(1%nat, oc); (0%nat, op)])
  = (Async.Ret (), load_result s oh op oc).
Proof.
  unfold App.load_result. cbn zeta.
  destruct (App.health_result oh) as [payload|e] eqn:Hh.
  - destruct (load_run_health_passed s oh payload Hh) as (K & H & Hs & HK & HH).
    unfold Async.run. cbn [foldl]. rewrite Hs.
    set (s2 := App.setApiStatus "connected" _).
    set (fK := λ (a b : Json.value) (s' : App.State),
           ((), if App.no_products a
                then App.load_failed
                       (App.new_Error "No products available. Please check the backend service.")
                       s'
                else App.setIsInitialLoading false
                       (App.setCategories b (App.setProducts a s')))).
    set (fH := λ (e : Exn) (s' : App.State), ((), App.load_failed e s')).
    destruct first_products.
    + rewrite (All2_left_first fetchProducts _ products_result
                 (λ o, Normal (categories_result o)) K H fK fH);
        try done.
      * by destruct (products_result op).
      * intros o. apply fetchProducts_deliver.
      * intros o. apply categories_or_empty_deliver.
    + rewrite (All2_right_first fetchProducts _ products_result
                 (λ o, Normal (categories_result o)) K H fK fH);
        try done.
      * by destruct (products_result op).
      * intros o. apply fetchProducts_deliver.
      * intros o. apply categories_or_empty_deliver.
  - by rewrite (load_run_health_failed s oh e _ Hh).
Qed.
Lemma no_products_nonempty_array product more :
  App.no_products (Json.Arr (product :: more)) = false.
Proof.
  unfold App.no_products. cbn. apply not_true_is_false.
  intros Heq%Qeq_bool_iff. unfold Qeq in Heq. cbn in Heq. lia.
Qed.

(** X4. Whichever of the products and the categories answer arrives first,
    the initial load ends in the same state; it ends without throwing, with
    no request left in flight and [isInitialLoading] false. *)
Theorem loadInitialData_order_independent s oh op oc :
  Async.run loadInitialData s [(0%nat, oh); (0%nat, op); (0%nat, oc)]
  = Async.run loadInitialData s [(0%nat, oh); (1%nat, oc); (0%nat, op)]
  ∧ (Async.run loadInitialData s
       [(0%nat, oh); (0%nat, op); (0%nat, oc)]).1 = Async.Ret ()
  ∧ Async.in_flight
      (Async.run loadInitialData s [(0%nat, oh); (0%nat, op); (0%nat, oc)])
    = []
  ∧ App.isInitialLoading
      (Async.run loadInitialData s
         [(0%nat, oh); (0%nat, op); (0%nat, oc)]).2 = false.
Proof.
  rewrite (load_run true s oh op oc), (load_run false s oh op oc).
  split_and!; try done. cbn [snd]. unfold App.load_result. cbn zeta.
  destruct (App.health_result oh); [|done].
  destruct (products_result op) as [pd|e]; [|done].
  by destruct (App.no_products pd).
Qed.

(** X5. When the health check fails, because [fetch] rejects or the body is
    not JSON, the initial load asks for nothing else, whatever arrives
    later: it ends with the banner [Unable to connect ...], [apiStatus]
    [error], [isInitialLoading] false and the product and category lists
    untouched. *)
Theorem loadInitialData_health_check_failed s ds error_name error_message
    status msg :
  let failed (oh : FetchOutcome) :=
    let c := Async.run loadInitialData s ((0%nat, oh) :: ds) in
    c.1 = Async.Ret ()
    ∧ Async.in_flight c = []
    ∧ App.error c.2
      = Some "Unable to connect to the recommendation service. Please check if the backend is running."
    ∧ App.apiStatus c.2 = "error"
    ∧ App.isInitialLoading c.2 = false
    ∧ App.products c.2 = App.products s
    ∧ App.categories c.2 = App.categories s in
  failed (Rejected error_name error_message)
  ∧ failed (Resolved (mkResponse status (Unparsable msg))).
Proof.
  cbn zeta. split.
  - by rewrite (load_run_health_failed s (Rejected error_name error_message)
                  (JsErr error_name error_message) ds eq_refl).
  - by rewrite (load_run_health_failed s
                  (Resolved (mkResponse status (Unparsable msg)))
                  (JsErr "SyntaxError" msg) ds eq_refl).
Qed.

(** X6. The health check passes on any response with a JSON body, whatever
    its status.  If then the products request brings a 2xx non-empty array,
    the load ends with that array as [products], [apiStatus] [connected] and
    no banner, in either order of arrival and whatever happens to the
    categories request: a categories request that fails in any way leaves
    [categories] as the empty array. *)
Theorem loadInitialData_tolerates_categories_failure
    (first_products : bool) s health_status health_body products_status
    product more oc :
  response_ok (mkResponse products_status (Parsed (Json.Arr (product :: more))))
    = true →
  let c :=
    Async.run loadInitialData s
      ((0%nat, Resolved (mkResponse health_status (Parsed health_body)))
       :: let op :=
            Resolved (mkResponse products_status
                        (Parsed (Json.Arr (product :: more)))) in
          if first_products then [(0%nat, op); (0%nat, oc)]
          else [(1%nat, oc); (0%nat, op)]) in
  c.1 = Async.Ret ()
  ∧ App.products c.2 = Json.Arr (product :: more)
  ∧ App.categories c.2 = categories_result oc
  ∧ App.error c.2 = None
  ∧ App.apiStatus c.2 = "connected"
  ∧ App.isInitialLoading c.2 = false
  ∧ match api_outcome oc with
    | Abrupt _ => categories_result oc = Json.Arr []
    | Normal Json.Null => categories_result oc = Json.Arr []
    | Normal _ => True
    end.
Proof.
  intros Hok. cbn zeta. rewrite load_run.
  assert (load_result s
            (Resolved (mkResponse health_status (Parsed health_body)))
            (Resolved (mkResponse products_status
                         (Parsed (Json.Arr (product :: more))))) oc
          = App.setIsInitialLoading false
              (App.setCategories (categories_result oc)
                 (App.setProducts (Json.Arr (product :: more))
                    (App.setApiStatus "connected"
                       (App.setError None
                          (App.setIsInitialLoading true s)))))) as ->.
  { unfold App.load_result. cbn zeta. cbn [App.health_result response_body].
    unfold App.products_result, Api.api_outcome. cbn [response_body].
    rewrite Hok. cbn [Json.Array_isArray].
    by rewrite no_products_nonempty_array. }
  split_and!; try done.
  unfold App.categories_result.
  destruct (api_outcome oc) as [[| | | | |]|e]; done.
Qed.


(** X8. When the products request ends in an [ApiError], the load ends with
    the banner [API Error: ] followed by the error's message and
    [apiStatus] [error]; a network failure of that request therefore reads
    [API Error: Network error - please check your connection]. *)
Theorem loadInitialData_products_error (first_products : bool) s
    health_status health_body op oc e :
  api_outcome op = Abrupt (ApiErr e) →
  let c :=
    Async.run loadInitialData s
      ((0%nat, Resolved (mkResponse health_status (Parsed health_body)))
       :: if first_products then [(0%nat, op); (0%nat, oc)]
          else [(1%nat, oc); (0%nat, op)]) in
  c.1 = Async.Ret ()
  ∧ App.error c.2 = Some ("API Error: " +:+ message e)
  ∧ App.apiStatus c.2 = "error"
  ∧ App.products c.2 = App.products s
  ∧ App.isInitialLoading c.2 = false.
Proof.
  intros He. cbn zeta. rewrite load_run. unfold App.load_result.
  cbn zeta. cbn [App.health_result response_body].
  unfold App.products_result. by rewrite He.
Qed.

(** X9. Once [handleGetRecommendations] has passed its validation it shows
    the loading flag with the banner cleared while its request is in
    flight, and whatever answer arrives it ends without throwing, with no
    request in flight and the loading flag off. *)
Theorem handleGetRecommendations_settles userPreferences browsingHistory s o :
  App.nothing_to_go_on userPreferences browsingHistory = false →
  let waiting :=
    Async.run (handleGetRecommendations userPreferences browsingHistory) s []
  in
  let settled :=
    Async.run (handleGetRecommendations userPreferences browsingHistory) s
              [(0%nat, o)] in
  length (Async.in_flight waiting) = 1%nat
  ∧ App.isLoadingRecommendations waiting.2 = true
  ∧ App.error waiting.2 = None
  ∧ settled.1 = Async.Ret ()
  ∧ Async.in_flight settled = []
  ∧ App.isLoadingRecommendations settled.2 = false.
Proof.
  intros Hgo. cbn zeta. rewrite handleGetRecommendations_run by done.
  split_and!; try done;
    unfold App.handleGetRecommendations;
    change (Nat.eqb _ 0 && Nat.eqb _ 0)
      with (App.nothing_to_go_on userPreferences browsingHistory);
    by rewrite Hgo.
Qed.

(** X10. With an empty browsing history and no category selected,
    [handleGetRecommendations] sends no request at all, whatever the other
    preferences are: it only sets the banner asking for preferences. *)
Theorem handleGetRecommendations_refuses userPreferences s ds :
  App.pref_categories userPreferences = [] →
  Async.run (handleGetRecommendations userPreferences []) s ds
  = (Async.Ret (),
     App.setError
       (Some "Please set some preferences or browse products before getting recommendations.")
       s).
Proof.
  intros Hcat. unfold App.handleGetRecommendations, Async.run.
  rewrite Hcat. apply run_finished.
Qed.

(** X11. A 2xx answer whose [recommendations] field is a non-empty array
    puts exactly that array into the state, switches the view to
    [recommendations], and leaves no banner. *)
Theorem handleGetRecommendations_shows_recommendations
    userPreferences browsingHistory s status props first more :
  App.nothing_to_go_on userPreferences browsingHistory = false →
  response_ok (mkResponse status (Parsed (Json.Obj props))) = true →
  Json.lookup "recommendations" props = Some (Json.Arr (first :: more)) →
  let settled :=
    Async.run (handleGetRecommendations userPreferences browsingHistory) s
      [(0%nat, Resolved (mkResponse status (Parsed (Json.Obj props))))] in
  App.recommendations settled.2 = Json.Arr (first :: more)
  ∧ App.activeView settled.2 = "recommendations"
  ∧ App.error settled.2 = None
  ∧ App.isLoadingRecommendations settled.2 = false.
Proof.
  intros Hgo Hok Hrecs. cbn zeta.
  rewrite handleGetRecommendations_run by done. cbn [snd].
  unfold App.recommendations_result, Api.api_outcome. cbn [response_body].
  rewrite Hok. unfold App.show_recommendations. cbn [JsOps.get].
  rewrite Hrecs. done.
Qed.

(** X12. When the request ends in an [ApiError] the banner reads
    [Failed to get recommendations: ] followed by its message; when a 2xx
    answer is the JSON value [null] the banner is the generic
    [Unable to generate recommendations ...].  Either way the
    recommendations are emptied, the view stays where it was and the loading
    flag is off. *)
Theorem handleGetRecommendations_failure userPreferences browsingHistory s o
    e status :
  App.nothing_to_go_on userPreferences browsingHistory = false →
  api_outcome o = Abrupt (ApiErr e) →
  response_ok (mkResponse status (Parsed Json.Null)) = true →
  let failed (o : FetchOutcome) (banner : string) :=
    let settled :=
      Async.run (handleGetRecommendations userPreferences browsingHistory) s
                [(0%nat, o)] in
    App.error settled.2 = Some banner
    ∧ App.recommendations settled.2 = Json.Arr []
    ∧ App.activeView settled.2 = App.activeView s
    ∧ App.isLoadingRecommendations settled.2 = false in
  failed o ("Failed to get recommendations: " +:+ message e)
  ∧ failed (Resolved (mkResponse status (Parsed Json.Null)))
           "Unable to generate recommendations. Please try again.".
Proof.
  intros Hgo He Hok. cbn beta zeta.
  rewrite !handleGetRecommendations_run by done. cbn [snd].
  unfold App.recommendations_result. rewrite He.
  unfold Api.api_outcome. cbn [response_body]. by rewrite Hok.
Qed.
End HandlerOutcomeFacts.

Lemma loadInitialData_tolerates_categories_failure_witness :
  let c :=
    Async.run
      (App.loadInitialData None Sample.Number_toString Sample.engine_message)
      App.initialState
      [(0%nat, Sample.ok Json.Null);
       (1%nat, Sample.offline);
       (0%nat, Sample.ok (Json.Arr [Sample.book]))] in
  App.products c.2 = Json.Arr [Sample.book]
  ∧ App.categories c.2 = Json.Arr []
  ∧ App.error c.2 = None.
Proof.
  pose proof (loadInitialData_tolerates_categories_failure
                None Sample.Number_toString Sample.engine_message false
                App.initialState 200 Json.Null 200 Sample.book []
                Sample.offline eq_refl) as H.
  cbn zeta in H. destruct H as (_ & Hp & Hc & He & _ & _ & Hempty).
  cbn zeta. split_and!; [exact Hp| |exact He].
  etrans; [exact Hc|exact Hempty].
Defined.


Lemma loadInitialData_products_error_witness :
  App.error
    (Async.run
       (App.loadInitialData None Sample.Number_toString Sample.engine_message)
       App.initialState
       [(0%nat, Sample.ok Json.Null);
        (0%nat, Sample.offline);
        (0%nat, Sample.ok (Json.Arr [Json.Str "books"]))]).2
  = Some "API Error: Network error - please check your connection".
Proof.
  exact (proj1 (proj2
    (loadInitialData_products_error
       None Sample.Number_toString Sample.engine_message true
       App.initialState 200 Json.Null Sample.offline
       (Sample.ok (Json.Arr [Json.Str "books"])) Api.network_error
       eq_refl))).
Defined.

Lemma handleGetRecommendations_settles_witness :
  App.isLoadingRecommendations
    (Async.run
       (App.handleGetRecommendations None Sample.Number_toString
          Sample.engine_message Sample.ToNumber Sample.JSON_stringify
          Sample.preferences [])
       App.initialState [(0%nat, Sample.offline)]).2
  = false.
Proof.
  apply (handleGetRecommendations_settles
           None Sample.Number_toString Sample.engine_message Sample.ToNumber
           Sample.JSON_stringify Sample.preferences [] App.initialState
           Sample.offline eq_refl).
Defined.

Lemma handleGetRecommendations_refuses_witness :
  App.error
    (Async.run
       (App.handleGetRecommendations None Sample.Number_toString
          Sample.engine_message Sample.ToNumber Sample.JSON_stringify
          (App.mkUserPreferences "luxury" [] ["Acme"] 4 "" "" []) [])
       App.initialState [(0%nat, Sample.ok Json.Null)]).2
  = Some "Please set some preferences or browse products before getting recommendations.".
Proof.
  by rewrite (handleGetRecommendations_refuses
                None Sample.Number_toString Sample.engine_message
                Sample.ToNumber Sample.JSON_stringify
                (App.mkUserPreferences "luxury" [] ["Acme"] 4 "" "" [])
                App.initialState [(0%nat, Sample.ok Json.Null)] eq_refl).
Defined.

Lemma handleGetRecommendations_shows_recommendations_witness :
  let settled :=
    Async.run
      (App.handleGetRecommendations None Sample.Number_toString
         Sample.engine_message Sample.ToNumber Sample.JSON_stringify
         Sample.preferences [])
      App.initialState
      [(0%nat,
        Sample.ok (Json.Obj [("recommendations", Json.Arr [Sample.book])]))]
  in
  App.recommendations settled.2 = Json.Arr [Sample.book]
  ∧ App.activeView settled.2 = "recommendations".
Proof.
  pose proof (handleGetRecommendations_shows_recommendations
                None Sample.Number_toString Sample.engine_message
                Sample.ToNumber Sample.JSON_stringify Sample.preferences []
                App.initialState 200
                [("recommendations", Json.Arr [Sample.book])] Sample.book []
                eq_refl eq_refl eq_refl) as H.
  cbn zeta in H. destruct H as (Hr & Hv & _). by split.
Defined.

Lemma handleGetRecommendations_failure_witness :
  App.error
    (Async.run
       (App.handleGetRecommendations None Sample.Number_toString
          Sample.engine_message Sample.ToNumber Sample.JSON_stringify
          Sample.preferences [])
       App.initialState [(0%nat, Sample.offline)]).2
  = Some "Failed to get recommendations: Network error - please check your connection".
Proof.
  exact (proj1 (proj1
    (handleGetRecommendations_failure
       None Sample.Number_toString Sample.engine_message Sample.ToNumber
       Sample.JSON_stringify Sample.preferences [] App.initialState
       Sample.offline Api.network_error 200 eq_refl eq_refl eq_refl))).
Defined.

(** ** The history as the list of distinct recent clicks *)

Section DistinctFacts.
Context {A : Type} `{EqDecision A}.
Implicit Types (l : list A) (x : A).

Lemma elem_of_distinct x l : x ∈ Js.distinct l ↔ x ∈ l.
Proof.
  induction l as [|y l IH]; [done|]. cbn [Js.distinct].
  rewrite !elem_of_cons, list_elem_of_filter, IH.
  destruct (decide (x = y)); tauto.
Qed.

Lemma NoDup_distinct l : NoDup (Js.distinct l).
Proof.
  induction l as [|x l IH]; [apply NoDup_nil_2|]. cbn [Js.distinct].
  apply NoDup_cons. split; [|by apply NoDup_filter].
  intros [Hne _]%list_elem_of_filter. by apply Hne.
Qed.

Lemma distinct_filter (P : A → Prop) `{∀ x, Decision (P x)} l :
  Js.distinct (filter P l) = filter P (Js.distinct l).
Proof.
  induction l as [|x l IH]; [done|]. cbn [Js.distinct].
  destruct (decide (P x)) as [HP|HP].
  - rewrite !filter_cons_True by done. cbn [Js.distinct].
    rewrite IH. f_equal. rewrite !list_filter_filter.
    apply list_filter_iff. intros y. tauto.
  - rewrite !filter_cons_False by done. rewrite IH, list_filter_filter.
    apply list_filter_iff. intros y. split; [|tauto].
    intros HPy. split; [done|]. by intros ->.
Qed.

Lemma filter_all (P : A → Prop) `{∀ x, Decision (P x)} l :
  Forall P l → filter P l = l.
Proof.
  induction 1 as [|x l HP _ IH]; [done|].
  by rewrite filter_cons_True, IH by done.
Qed.

Lemma filter_full_length (P : A → Prop) `{∀ x, Decision (P x)} l :
  length (filter P l) = length l → filter P l = l.
Proof.
  induction l as [|x l IH]; [done|]. intros Hlen.
  pose proof (length_filter P l) as Hle.
  destruct (decide (P x)) as [HP|HP].
  - rewrite filter_cons_True in * by done. cbn in Hlen. f_equal.
    apply IH. lia.
  - rewrite filter_cons_False in Hlen by done. cbn in Hlen. lia.
Qed.

Lemma foldl_Set_add members l :
  foldl Js.Set_add members l
  = members ++ Js.distinct (filter (λ x, x ∉ members) l).
Proof.
  revert members. induction l as [|x l IH]; intros members; cbn [foldl].
  - by rewrite filter_nil, app_nil_r.
  - unfold Js.Set_add at 2. destruct (decide (x ∈ members)) as [Hin|Hout].
    + rewrite IH. by rewrite filter_cons_False by (by intros ?).
    + rewrite IH, filter_cons_True by done. cbn [Js.distinct].
      rewrite <-app_assoc. cbn [app]. do 2 f_equal.
      rewrite <-distinct_filter, list_filter_filter. f_equal.
      apply list_filter_iff. intros y.
      rewrite not_elem_of_app, list_elem_of_singleton. tauto.
Qed.

Lemma Set_values_distinct l : Js.Set_values l = Js.distinct l.
Proof.
  unfold Js.Set_values. rewrite foldl_Set_add. cbn [app]. f_equal.
  apply filter_all, Forall_forall. intros x _. apply not_elem_of_nil.
Qed.
End DistinctFacts.

Section HistoryOrderFacts.
Context {Id : Type} `{EqDecision Id}.
Implicit Types (h : list Id) (productId : Id).

Lemma clicks_since_clear_snoc (acts : list (App.HistoryAction Id)) a :
  App.clicks_since_clear (acts ++ [a])
  = match a with
    | App.ProductClick productId =>
        App.clicks_since_clear acts ++ [productId]
    | App.ClearHistory => []
    end.
Proof. unfold App.clicks_since_clear. by rewrite foldl_app. Qed.

(** X13. Whatever the sequence of clicks and clears, the browsing history
    holds the distinct products clicked since the last clear, the most
    recently clicked first, cut off after 50: the cap only ever drops the
    products whose last click is oldest. *)
Theorem browsing_history_is_recent_distinct_clicks
    (acts : list (App.HistoryAction Id)) :
  App.run_history acts
  = take 50 (Js.distinct (reverse (App.clicks_since_clear acts))).
Proof.
  induction acts as [|a acts IH] using rev_ind; [done|].
  unfold App.run_history in *. rewrite foldl_app, clicks_since_clear_snoc.
  cbn [foldl]. rewrite IH. destruct a as [productId|]; cbn [App.history_step].
  - rewrite handleProductClick_take by apply NoDup_distinct.
    by rewrite reverse_app.
  - done.
Qed.

(** X14. The [Recently Viewed] mark after a click: the clicked product is
    marked; no other product becomes marked; a marked product keeps its
    mark unless the history was full (50 entries) and did not yet hold the
    clicked product, and then only the oldest entry can lose it. *)
Theorem isProductViewed_after_click h productId :
  let h' := App.handleProductClick productId h in
  Catalog.isProductViewed h' productId = true
  ∧ (∀ other, other ≠ productId →
       Catalog.isProductViewed h' other = true →
       Catalog.isProductViewed h other = true)
  ∧ (∀ other,
       (length h ≤ 50)%nat →
       Catalog.isProductViewed h other = true →
       Catalog.isProductViewed h' other = false →
       length h = 50%nat ∧ (productId ∉ h) ∧ last h = Some other).
Proof.
  cbn zeta. unfold Catalog.isProductViewed, Js.Array_includes.
  rewrite handleProductClick_unfold. split_and!.
  - apply bool_decide_eq_true. by left.
  - intros other Hne. rewrite !bool_decide_eq_true.
    intros [->|Hin%subseteq_take]%elem_of_cons; [done|].
    by apply list_elem_of_filter in Hin as [_ Hin].
  - intros other Hlen. rewrite bool_decide_eq_true, bool_decide_eq_false.
    intros Hin Hout. apply not_elem_of_cons in Hout as [Hne Hout].
    assert (other ∈ filter (λ id, id ≠ productId) h) as Hf
      by (by apply list_elem_of_filter).
    destruct (decide (length (filter (λ id, id ≠ productId) h) ≤ 49)%nat)
      as [Hshort|Hlong].
    { by rewrite take_ge in Hout by done. }
    assert (length (filter (λ id, id ≠ productId) h) ≤ length h)%nat as Hfl
      by apply length_filter.
    assert (length h = 50%nat) as Hfull by lia.
    assert (filter (λ id, id ≠ productId) h = h) as Hsame
      by (apply filter_full_length; lia).
    assert (productId ∉ h) as Hfresh.
    { intros Hp. rewrite <-Hsame in Hp.
      apply list_elem_of_filter in Hp as [Hp _]. by apply Hp. }
    split_and!; [done..|].
    rewrite Hsame in Hout.
    destruct h as [|x h _] using rev_ind; [by apply elem_of_nil in Hin|].
    rewrite last_snoc. f_equal.
    rewrite length_app in Hfull. cbn in Hfull.
    rewrite take_app_le, take_ge in Hout by lia.
    apply elem_of_app in Hin as [Hin|Hin]; [done|].
    by apply list_elem_of_singleton in Hin.
Qed.
End HistoryOrderFacts.

(** ** Preferences: validation and what counts as an interaction *)

Section PreferencesFacts.
Implicit Types (p : App.UserPreferences) (n : App.NewPreferences).

Lemma Math_max_spec (a b : Q) :
  (a <= Js.Math_max a b)%Q ∧ (b <= Js.Math_max a b)%Q
  ∧ (Js.Math_max a b = a ∨ Js.Math_max a b = b).
Proof.
  unfold Js.Math_max. destruct (Qle_bool a b) eqn:Hab.
  - apply Qle_bool_iff in Hab. split_and!; [done|apply Qle_refl|by right].
  - assert (b <= a)%Q.
    { destruct (Qlt_le_dec a b) as [Hlt%Qlt_le_weak|Hle]; [|done].
      apply Qle_bool_iff in Hlt. congruence. }
    split_and!; [apply Qle_refl|done|by left].
Qed.

Lemma Math_min_spec (a b : Q) :
  (Js.Math_min a b <= a)%Q ∧ (Js.Math_min a b <= b)%Q
  ∧ (Js.Math_min a b = a ∨ Js.Math_min a b = b).
Proof.
  unfold Js.Math_min. destruct (Qle_bool a b) eqn:Hab.
  - apply Qle_bool_iff in Hab. split_and!; [apply Qle_refl|done|by left].
  - assert (b <= a)%Q.
    { destruct (Qlt_le_dec a b) as [Hlt%Qlt_le_weak|Hle]; [|done].
      apply Qle_bool_iff in Hlt. congruence. }
    split_and!; [done|apply Qle_refl|by right].
Qed.

Lemma clamp_range (x : Q) :
  (0 <= Js.Math_max 0 (Js.Math_min 5 x) <= 5)%Q.
Proof.
  pose proof (Math_max_spec 0 (Js.Math_min 5 x)) as (H0 & _ & Hcase).
  pose proof (Math_min_spec 5 x) as (H5 & _).
  destruct Hcase as [Heq|Heq]; rewrite Heq in *; lra.
Qed.

Lemma clamp_inside (x : Q) :
  (0 <= x)%Q → (x <= 5)%Q → (Js.Math_max 0 (Js.Math_min 5 x) == x)%Q.
Proof.
  intros H0 H5. unfold Js.Math_max, Js.Math_min.
  destruct (Qle_bool 5 x) eqn:H5x.
  - apply Qle_bool_iff in H5x. cbn. by apply Qle_antisym.
  - apply Qle_bool_iff in H0. by rewrite H0.
Qed.

Lemma or_zero_Qeq (x : Q) : (Js.or_zero (Some x) == x)%Q.
Proof.
  unfold Js.or_zero. destruct (Qeq_bool x 0) eqn:Hx; [|done].
  apply Qeq_bool_iff in Hx. by rewrite Hx.
Qed.

(** X15. [handlePreferencesChange] stores a rating between 0 and 5 whatever
    it is given: a rating already in that range is kept, a larger one becomes
    5, a negative or missing one 0.  Missing category and brand lists become
    empty lists; lists that are present, and every other property, are
    stored as given (a selection of more than five categories included).
    Validating the stored preferences again changes nothing. *)
Theorem handlePreferencesChange_validates n :
  let stored := App.handlePreferencesChange n in
  (0 <= App.pref_minRating stored <= 5)%Q
  ∧ (∀ rating, App.new_minRating n = Some rating →
       ((0 <= rating)%Q → (rating <= 5)%Q →
        (App.pref_minRating stored == rating)%Q)
       ∧ ((5 <= rating)%Q → (App.pref_minRating stored == 5)%Q)
       ∧ ((rating <= 0)%Q → (App.pref_minRating stored == 0)%Q))
  ∧ (App.new_minRating n = None → App.pref_minRating stored = 0%Q)
  ∧ App.pref_categories stored = default [] (App.new_categories n)
  ∧ App.pref_brands stored = default [] (App.new_brands n)
  ∧ App.pref_priceRange stored = App.new_priceRange n
  ∧ App.pref_lifestyleType stored = App.new_lifestyleType n
  ∧ App.pref_specificNeeds stored = App.new_specificNeeds n
  ∧ App.pref_other stored = App.new_other n
  ∧ App.handlePreferencesChange (App.as_new stored) = stored.
Proof.
  cbn zeta. cbn [App.handlePreferencesChange App.pref_minRating
                 App.pref_categories App.pref_brands App.pref_priceRange
                 App.pref_lifestyleType App.pref_specificNeeds
                 App.pref_other].
  split_and!; try done.
  - apply clamp_range.
  - apply clamp_range.
  - intros rating ->. pose proof (or_zero_Qeq rating) as Hr. split_and!.
    + intros H0 H5. rewrite clamp_inside; [done|by rewrite Hr..].
    + intros H5. unfold Js.Math_min.
      assert (Qle_bool 5 (Js.or_zero (Some rating)) = true) as ->
        by (apply Qle_bool_iff; by rewrite Hr).
      done.
    + intros H0. unfold Js.Math_max.
      destruct (Qle_bool 0 _) eqn:Hle; [|done].
      apply Qle_bool_iff in Hle.
      pose proof (Math_min_spec 5 (Js.or_zero (Some rating)))
        as (_ & Hmin & _).
      lra.
  - by intros ->.
  - unfold App.handlePreferencesChange, App.as_new. cbn. f_equal.
    set (m := Js.Math_max 0 (Js.Math_min 5 (Js.or_zero (App.new_minRating n)))).
    assert (m = 0%Q ∨ (¬ (m == 0)%Q ∧ (0 <= m <= 5)%Q)) as [->|[Hm0 Hm]].
    { destruct (Qeq_dec m 0) as [Heq|Hne]; [|right; split; [done|]].
      - left. subst m. unfold Js.Math_max in *.
        destruct (Qle_bool 0 _) eqn:Hle; [|done].
        unfold Js.Math_min in *. destruct (Qle_bool 5 _); [done|].
        unfold Js.or_zero in *. destruct (App.new_minRating n) as [q|]; [|done].
        destruct (Qeq_bool q 0) eqn:Hq; [done|].
        apply Qeq_bool_iff in Heq. congruence.
      - apply clamp_range. }
    + done.
    + unfold Js.or_zero.
      assert (Qeq_bool m 0 = false) as ->.
      { apply not_true_is_false. by intros ?%Qeq_bool_iff. }
      unfold Js.Math_min. destruct (Qle_bool 5 m) eqn:H5m.
      * subst m. unfold Js.Math_max, Js.Math_min in *.
        destruct (Qle_bool 0 _) eqn:Hle; [|done].
        destruct (Qle_bool 5 (Js.or_zero _)) eqn:H5; [done|].
        congruence.
      * unfold Js.Math_max.
        assert (Qle_bool 0 m = true) as -> by (apply Qle_bool_iff, Hm).
        done.
Qed.


End PreferencesFacts.

(** ** Catalog: order of the displayed list, price range, controls *)

Section StableSortFacts.
Context {A : Type} (compareFn : A → A → Q).
Variable P : A → bool.
(** Between any two elements of the class [P] the comparator gives no
    reason to swap. *)
Hypothesis P_tied : ∀ a b, P a → P b → (compareFn a b <= 0)%Q.

Lemma sort_insert_filter x l :
  filter (λ a, P a) (Js.sort_insert compareFn x l)
  = filter (λ a, P a) (x :: l).
Proof.
  induction l as [|y l IH]; [done|]. cbn [Js.sort_insert].
  destruct (Qle_bool (compareFn x y) 0) eqn:Hxy; [done|].
  rewrite filter_cons, IH, !(filter_cons _ x), (filter_cons _ y).
  destruct (decide (P x)) as [Hx|Hx], (decide (P y)) as [Hy|Hy]; try done.
  apply (P_tied x y Hx), Qle_bool_iff in Hy. congruence.
Qed.

Lemma sort_filter l :
  filter (λ a, P a) (Js.sort compareFn l) = filter (λ a, P a) l.
Proof.
  induction l as [|x l IH]; [done|]. cbn [Js.sort foldr].
  rewrite sort_insert_filter, !(filter_cons _ x).
  fold (Js.sort compareFn l). by rewrite IH.
Qed.
End StableSortFacts.

Section CatalogOrderFacts.
Context {Id : Type}.
Variable trim : string → string.
Variable toLowerCase : string → string.
Variable localeCompare : string → string → Q.

Local Abbreviation filteredProducts :=
  (Catalog.filteredProducts (Id:=Id) trim toLowerCase localeCompare).
Local Abbreviation filtered :=
  (Catalog.filtered (Id:=Id) trim toLowerCase).
Local Abbreviation compareFn := (Catalog.compareFn (Id:=Id) localeCompare).
Implicit Types (products : list (Product Id)) (filters : Catalog.Filters).

Lemma filteredProducts_sort products filters :
  filteredProducts products filters
  = Js.sort (compareFn filters) (filtered products filters).
Proof.
  unfold Catalog.filteredProducts, Catalog.filtered. cbn zeta.
  by destruct (negb (String.eqb (trim _) "")).
Qed.

Lemma filtered_sublist products filters :
  filtered products filters `sublist_of` products.
Proof.
  unfold Catalog.filtered. cbn zeta.
  repeat match goal with
         | |- context [if ?b then _ else _] => destruct b
         end;
    repeat (etrans; [apply sublist_filter|]); done.
Qed.

Lemma filtered_price_test products filters :
  Forall (λ product, Catalog.price_test filters product = true)
         (filtered products filters).
Proof.
  unfold Catalog.filtered. cbn zeta. apply Forall_forall. intros product.
  destruct (negb (String.eqb (trim _) "")).
  - intros [_ Hin]%list_elem_of_filter. revert Hin.
    intros [Hp _]%list_elem_of_filter. by apply Is_true_true.
  - intros [Hp _]%list_elem_of_filter. by apply Is_true_true.
Qed.

Lemma sorted_by (key : Product Id → Q) filters l :
  (∀ a b, (compareFn filters a b <= 0)%Q ↔ (key a <= key b)%Q) →
  StronglySorted (λ a b, (key a <= key b)%Q)
                 (Js.sort (compareFn filters) l).
Proof.
  intros Hkey. apply (StronglySorted_weaken (Js.ordered (compareFn filters))).
  - intros a b. apply Hkey.
  - apply sort_StronglySorted.
    + intros a b. unfold Js.ordered. rewrite !Hkey. lra.
    + intros a b c. unfold Js.ordered. rewrite !Hkey. lra.
Qed.

Lemma sort_by_rating filters l :
  Catalog.sortBy filters = "rating" →
  StronglySorted
    (λ a b, (Js.or_zero (product_rating b)
             <= Js.or_zero (product_rating a))%Q)
    (Js.sort (compareFn filters) l).
Proof.
  intros Hkey.
  apply (StronglySorted_weaken
           (λ a b, (- Js.or_zero (product_rating a)
                    <= - Js.or_zero (product_rating b))%Q)).
  { intros a b. lra. }
  apply (sorted_by (λ p, - Js.or_zero (product_rating p))%Q). intros a b.
  unfold Catalog.compareFn. rewrite Hkey.
  change (String.eqb "rating" "price-low") with false.
  change (String.eqb "rating" "price-high") with false.
  change (String.eqb "rating" "rating") with true. cbv iota.
  split; intros; lra.
Qed.

(** X17. The displayed list is in the order its sort key names: by price
    ascending for [price-low], by price descending for [price-high], by
    rating or by inventory descending for [rating] and [inventory], a missing
    rating or inventory counting as 0. *)
Theorem filteredProducts_sorted_by_key products filters :
  let shown := filteredProducts products filters in
  (Catalog.sortBy filters = "price-low" →
   StronglySorted (λ a b, (product_price a <= product_price b)%Q) shown)
  ∧ (Catalog.sortBy filters = "price-high" →
     StronglySorted (λ a b, (product_price b <= product_price a)%Q) shown)
  ∧ (Catalog.sortBy filters = "rating" →
     StronglySorted
       (λ a b, (Js.or_zero (product_rating b)
                <= Js.or_zero (product_rating a))%Q) shown)
  ∧ (Catalog.sortBy filters = "inventory" →
     StronglySorted
       (λ a b, (Js.or_zero (product_inventory b)
                <= Js.or_zero (product_inventory a))%Q) shown).
Proof.
  cbn zeta. rewrite filteredProducts_sort. split_and!; intros Hkey.
  - apply (sorted_by product_price). intros a b.
    unfold Catalog.compareFn. rewrite Hkey.
    change (String.eqb "price-low" "price-low") with true. cbv iota.
    split; intros; lra.
  - apply (StronglySorted_weaken
             (λ a b, (- product_price a <= - product_price b)%Q)).
    { intros a b. lra. }
    apply (sorted_by (λ p, - product_price p)%Q). intros a b.
    unfold Catalog.compareFn. rewrite Hkey.
    change (String.eqb "price-high" "price-low") with false.
    change (String.eqb "price-high" "price-high") with true. cbv iota.
    split; intros; lra.
  - by apply sort_by_rating.
  - apply (StronglySorted_weaken
             (λ a b, (- Js.or_zero (product_inventory a)
                      <= - Js.or_zero (product_inventory b))%Q)).
    { intros a b. lra. }
    apply (sorted_by (λ p, - Js.or_zero (product_inventory p))%Q).
    intros a b. unfold Catalog.compareFn. rewrite Hkey.
    change (String.eqb "inventory" "price-low") with false.
    change (String.eqb "inventory" "price-high") with false.
    change (String.eqb "inventory" "rating") with false.
    change (String.eqb "inventory" "name") with false.
    change (String.eqb "inventory" "inventory") with true. cbv iota.
    split; intros; lra.
Qed.

(** X18. Sorting never reorders ties: the displayed products of any class
    within which the comparator returns no positive number are in their
    catalogue order.  In particular a sort key the comparator does not know
    leaves the filtered products exactly in catalogue order. *)
Theorem filteredProducts_ties_keep_catalog_order products filters :
  let shown := filteredProducts products filters in
  (∀ tied : Product Id → bool,
     (∀ a b, tied a → tied b → (compareFn filters a b <= 0)%Q) →
     filter (λ p, tied p) shown
     = filter (λ p, tied p) (filtered products filters))
  ∧ (Catalog.sortBy filters
       ∉ ["price-low"; "price-high"; "rating"; "name"; "inventory"] →
     shown = filtered products filters)
  ∧ filtered products filters `sublist_of` products.
Proof.
  cbn zeta. rewrite filteredProducts_sort. split_and!.
  - intros tied Htied. by apply sort_filter.
  - intros Hkey.
    assert (∀ a b, compareFn filters a b = 0%Q) as Hzero.
    { intros a b. unfold Catalog.compareFn.
      repeat match goal with
             | |- context [String.eqb ?s ?t] =>
                 destruct (String.eqb_spec s t) as [Heq|_];
                 [exfalso; apply Hkey; rewrite Heq;
                  repeat (first [by left | right])|]
             end.
      done. }
    assert (∀ a b : Product Id,
              true → true → (compareFn filters a b <= 0)%Q) as Htied.
    { intros a b _ _. by rewrite Hzero. }
    pose proof (sort_filter (compareFn filters) (λ _, true) Htied
                  (filtered products filters)) as Hall.
    by rewrite !filter_all in Hall by (by apply Forall_true).
  - apply filtered_sublist.
Qed.

(** X19. Whatever the filters, every displayed product has its price within
    the range, bounds included; a range whose maximum is below its minimum
    shows nothing; the list never shows more products than the catalogue
    holds, nor, when a category is selected, more than the count the
    category select shows beside that category. *)
Theorem filteredProducts_within_price_range products filters :
  let shown := filteredProducts products filters in
  Forall (λ product,
            (Catalog.min (Catalog.priceRange filters)
             <= product_price product
             <= Catalog.max (Catalog.priceRange filters))%Q) shown
  ∧ ((Catalog.max (Catalog.priceRange filters)
      < Catalog.min (Catalog.priceRange filters))%Q → shown = [])
  ∧ (length shown ≤ length products)%nat
  ∧ (Catalog.category filters ≠ "all" →
     (length shown
      ≤ Catalog.category_count products (Catalog.category filters))%nat).
Proof.
  cbn zeta.
  assert (Forall (λ product,
            (Catalog.min (Catalog.priceRange filters)
             <= product_price product
             <= Catalog.max (Catalog.priceRange filters))%Q)
            (filteredProducts products filters)) as Hrange.
  { rewrite filteredProducts_sort. apply Forall_forall. intros product.
    rewrite elem_of_sort. intros Hin.
    pose proof (filtered_price_test products filters) as Hall.
    rewrite Forall_forall in Hall. by apply price_test_spec, Hall. }
  split_and!.
  - done.
  - intros Hempty.
    destruct (filteredProducts products filters) as [|product shown];
      [done|].
    apply Forall_cons_1 in Hrange as [[Hmin Hmax] _]. lra.
  - rewrite filteredProducts_sort, sort_Permutation.
    apply sublist_length, filtered_sublist.
  - intros Hcat. rewrite filteredProducts_sort, sort_Permutation.
    assert (filtered products filters
            `sublist_of` filter (λ p, Catalog.category_test filters p)
                                products) as Hsub.
    { unfold Catalog.filtered. cbn zeta.
      apply String.eqb_neq in Hcat. rewrite Hcat. cbn [negb].
      destruct (negb (String.eqb (trim _) ""));
        [etrans; [apply sublist_filter|]|]; apply sublist_filter. }
    apply sublist_length in Hsub. etrans; [exact Hsub|].
    apply Nat.eq_le_incl. unfold Catalog.category_count. f_equal.
    apply list_filter_iff. intros p. unfold Catalog.category_test.
    by rewrite Is_true_true, bool_decide_eq_true.
Qed.

(** X20. With the filters as they are at the start and after
    [resetFilters], a product is displayed exactly when its price lies
    between 0 and 1000: dearer products are hidden although no filter was
    chosen.  The list is ordered by rating, highest first. *)
Theorem initialFilters_hide_prices_above_1000 products (prev : Catalog.Filters) :
  trim "" = "" →
  let shown := filteredProducts products (Catalog.resetFilters prev) in
  shown ≡ₚ filter (λ product,
                     (0 <= product_price product <= 1000)%Q) products
  ∧ (∀ product,
       product ∈ shown
       ↔ product ∈ products ∧ (0 <= product_price product <= 1000)%Q)
  ∧ StronglySorted
      (λ a b, (Js.or_zero (product_rating b)
               <= Js.or_zero (product_rating a))%Q) shown.
Proof.
  intros Htrim. cbn zeta.
  assert (filteredProducts products Catalog.initialFilters
          ≡ₚ filter (λ product,
                       (0 <= product_price product <= 1000)%Q) products)
    as Hperm.
  { rewrite filteredProducts_sort, sort_Permutation.
    unfold Catalog.filtered. cbn zeta.
    cbn [Catalog.initialFilters Catalog.category Catalog.searchQuery].
    rewrite Htrim.
    change (String.eqb "all" "all") with true.
    change (String.eqb "" "") with true. cbn [negb].
    apply reflexive_eq, list_filter_iff. intros product.
    by rewrite Is_true_true, price_test_spec. }
  unfold Catalog.resetFilters. split_and!.
  - done.
  - intros product. by rewrite Hperm, list_elem_of_filter, (comm and).
  - rewrite filteredProducts_sort. by apply sort_by_rating.
Qed.
End CatalogOrderFacts.

Section CountFacts.
Context {A : Type}.

Lemma sum_list_with_add (f g : A → nat) (l : list A) :
  sum_list_with (λ x, f x + g x)%nat l
  = (sum_list_with f l + sum_list_with g l)%nat.
Proof. induction l as [|x l IH]; cbn; lia. Qed.

Lemma sum_list_with_zero (l : list A) : sum_list_with (λ _, 0%nat) l = 0%nat.
Proof. induction l as [|x l IH]; cbn; lia. Qed.

Lemma sum_list_with_ext (f g : A → nat) (l : list A) :
  (∀ x, f x = g x) → sum_list_with f l = sum_list_with g l.
Proof. intros Hfg. induction l as [|x l IH]; cbn; [done|]. by rewrite Hfg, IH. Qed.

(** Over a list without duplicates, exactly one member is [y]. *)
Lemma sum_list_with_indicator `{EqDecision A} (y : A) (l : list A) :
  NoDup l →
  sum_list_with (λ x, if decide (y = x) then 1 else 0)%nat l
  = (if decide (y ∈ l) then 1 else 0)%nat.
Proof.
  induction 1 as [|x l Hx Hl IH]; [done|]. cbn [sum_list_with]. rewrite IH.
  repeat case_decide; simplify_eq; try done.
  - exfalso. match goal with H : _ ∉ _ :: _ |- _ => apply H end. by right.
  - exfalso. match goal with H : _ ∉ _ :: _ |- _ => apply H end. by left.
  - exfalso.
    match goal with
    | H : _ ∈ _ :: _ |- _ => apply elem_of_cons in H as [?|?]
    end; done.
Qed.

Lemma StronglySorted_NoDup_strict (R : relation A) (l : list A) :
  StronglySorted R l → NoDup l →
  StronglySorted (λ a b, R a b ∧ a ≠ b) l.
Proof.
  induction 1 as [|x l Hl IH Hx]; intros Hnd; [constructor|].
  apply NoDup_cons in Hnd as [Hout Hnd]. constructor; [by apply IH|].
  apply Forall_forall. intros y Hy. rewrite Forall_forall in Hx.
  split; [by apply Hx|]. by intros ->.
Qed.
End CountFacts.

Section CatalogControlFacts.
Context {Id : Type}.
Variable trim : string → string.
Variable toLowerCase : string → string.
Variable localeCompare : string → string → Q.
Variable code_units_lt : string → string → bool.
Variable parseInt : string → option Z.

Local Abbreviation categories := (Catalog.categories (Id:=Id) code_units_lt).
Local Abbreviation filteredProducts :=
  (Catalog.filteredProducts (Id:=Id) trim toLowerCase localeCompare).
Implicit Types (products : list (Product Id)) (filters : Catalog.Filters).

Lemma categories_Permutation products :
  categories products ≡ₚ Js.distinct (map product_category products).
Proof.
  unfold Catalog.categories. cbn zeta.
  by rewrite sort_Permutation, Set_values_distinct.
Qed.

Lemma category_count_cons (p : Product Id) products category :
  Catalog.category_count (p :: products) category
  = ((if decide (product_category p = category) then 1 else 0)
     + Catalog.category_count products category)%nat.
Proof.
  unfold Catalog.category_count. rewrite filter_cons.
  by destruct (decide (product_category p = category)).
Qed.

Lemma category_counts_add_up products (options : list string) :
  NoDup options →
  (∀ p, p ∈ products → product_category p ∈ options) →
  sum_list_with (Catalog.category_count products) options = length products.
Proof.
  intros Hnd. induction products as [|p products IH]; intros Hcover.
  - apply sum_list_with_zero.
  - rewrite (sum_list_with_ext _ _ _ (category_count_cons p products)).
    rewrite sum_list_with_add, sum_list_with_indicator by done.
    rewrite decide_True by (apply Hcover; by left).
    rewrite IH; [done|]. intros q Hq. apply Hcover. by right.
Qed.

(** X21. The category select offers every category of the catalogue
    exactly once and nothing else; each option's count is positive and the
    counts add up to the number of products, which is the count shown beside
    [All Categories]. *)
Theorem categories_options_cover_catalog products :
  let options := categories products in
  NoDup options
  ∧ (∀ category,
       category ∈ options
       ↔ ∃ product, product ∈ products
                    ∧ product_category product = category)
  ∧ Forall (λ category,
              (0 < Catalog.category_count products category)%nat) options
  ∧ sum_list_with (Catalog.category_count products) options
    = length products.
Proof.
  cbn zeta.
  assert (∀ category,
            category ∈ categories products
            ↔ ∃ product, product ∈ products
                         ∧ product_category product = category) as Hmem.
  { intros category.
    rewrite categories_Permutation, elem_of_distinct, list_elem_of_fmap.
    split; intros (p & ? & ?); by exists p. }
  assert (NoDup (categories products)) as Hnd.
  { rewrite categories_Permutation. apply NoDup_distinct. }
  split_and!; [done..| |].
  - apply Forall_forall. intros category (p & Hp & Hc)%Hmem.
    unfold Catalog.category_count.
    assert (p ∈ filter (λ p, product_category p = category) products) as Hin
      by (by apply list_elem_of_filter).
    destruct (filter _ products); [by apply elem_of_nil in Hin|cbn; lia].
  - apply category_counts_add_up; [done|].
    intros p Hp. apply Hmem. by exists p.
Qed.

(** X22. When the platform's default string order is a strict total order,
    the options of the category select are in strictly ascending order. *)
Theorem categories_options_ascending products :
  (∀ a b, code_units_lt a b = true → code_units_lt b a = false) →
  (∀ a b c, code_units_lt a b = true → code_units_lt b c = true →
            code_units_lt a c = true) →
  (∀ a b, code_units_lt a b = false → code_units_lt b a = false → a = b) →
  StronglySorted (λ a b, code_units_lt a b = true) (categories products).
Proof.
  intros Hasym Htrans Htotal.
  assert (∀ a b,
            Js.ordered (Catalog.default_compare code_units_lt) a b
            ↔ code_units_lt b a = false) as Hord.
  { intros a b. unfold Js.ordered, Catalog.default_compare.
    destruct (code_units_lt a b) eqn:Hab.
    - rewrite (Hasym _ _ Hab). split; [done|]. intros _. lra.
    - destruct (code_units_lt b a); split; try done; intros; lra. }
  apply (StronglySorted_weaken
           (λ a b, Js.ordered (Catalog.default_compare code_units_lt) a b
                   ∧ a ≠ b)).
  { intros a b [Hab%Hord Hne].
    destruct (code_units_lt a b) eqn:Hlt; [done|].
    by destruct Hne; apply Htotal. }
  apply StronglySorted_NoDup_strict.
  - unfold Catalog.categories. cbn zeta. apply sort_StronglySorted.
    + intros a b. rewrite !Hord. intros Hab%not_false_is_true.
      by apply Hasym.
    + intros a b c. rewrite !Hord. intros Hab Hbc.
      destruct (code_units_lt c a) eqn:Hca; [|done].
      destruct (code_units_lt a b) eqn:Hlt.
      * by rewrite (Htrans _ _ _ Hca Hlt) in Hbc.
      * rewrite (Htotal _ _ Hlt Hab) in Hca. congruence.
  - rewrite categories_Permutation. apply NoDup_distinct.
Qed.




(** X24. The star line of a product card: for a rating from 0 up to, but
    not including, 6 (a missing rating counting as 0) it shows five stars
    in all, as many filled as the whole part of the rating, except that a
    rating from 5 up shows five filled ones and no empty one.  A negative
    rating, and a rating of 6 or more, make [repeat] throw a [RangeError]
    while the card renders. *)
Theorem rating_stars_five_or_RangeError (rating : option Q) :
  match Catalog.rating_stars rating with
  | inr (filled, empty) =>
      (0 <= Js.or_zero rating)%Q ∧ (Js.or_zero rating < 6)%Q
      ∧ filled = replicate (Z.to_nat (Qfloor (Js.or_zero rating))) "★"
      ∧ empty = replicate (5 - Z.to_nat (Qfloor (Js.or_zero rating))) "☆"
      ∧ (length filled + length empty = 5)%nat
  | inl Catalog.Invalid_count =>
      (Js.or_zero rating < 0)%Q ∨ (6 <= Js.or_zero rating)%Q
  end.
Proof.
  unfold Catalog.rating_stars, Catalog.repeat_string. cbn zeta.
  set (r := Js.or_zero rating).
  pose proof (Qfloor_le r) as Hfloor.
  pose proof (Qlt_floor r) as Hnext.
  rewrite inject_Z_plus in Hnext. change (inject_Z 1) with 1%Q in Hnext.
  destruct (Z.ltb_spec (Qfloor r) 0) as [Hneg|Hpos].
  - left. assert (Qfloor r <= -1)%Z as Hle by lia.
    rewrite Zle_Qle in Hle. change (inject_Z (-1)) with (-1)%Q in Hle.
    lra.
  - destruct (Z.ltb_spec (5 - Qfloor r) 0) as [Hbig|Hsmall].
    + right. assert (6 <= Qfloor r)%Z as H6 by lia.
      rewrite Zle_Qle in H6. change (inject_Z 6) with 6%Q in H6. lra.
    + assert (0 <= r)%Q.
      { rewrite Zle_Qle in Hpos. change (inject_Z 0) with 0%Q in Hpos. lra. }
      assert (r < 6)%Q.
      { assert (Qfloor r <= 5)%Z as H5 by lia.
        rewrite Zle_Qle in H5. change (inject_Z 5) with 5%Q in H5. lra. }
      split_and!; try done.
      * f_equal. lia.
      * rewrite !length_replicate. lia.
Qed.
End CatalogControlFacts.

Lemma initialFilters_hide_prices_above_1000_witness :
  let products :=
    [Sample.item 1 "books" 20 None;
     Sample.item 2 "audio" 1500 (Some 4.8%Q)] in
  Catalog.filteredProducts (λ s, s) (λ s, s) (λ _ _, 0%Q) products
    (Catalog.resetFilters
       {| Catalog.category := "audio";
          Catalog.priceRange := {| Catalog.min := 5; Catalog.max := 10 |};
          Catalog.sortBy := "name";
          Catalog.searchQuery := "x" |})
  ≡ₚ filter (λ product, (0 <= product_price product <= 1000)%Q) products.
Proof.
  apply (initialFilters_hide_prices_above_1000 (Id:=Z)
           (λ s, s) (λ s, s) (λ _ _, 0%Q)).
  reflexivity.
Defined.

Section StringOrder.
Import OrderedTypeEx.

Lemma code_units_lt_asym a b :
  Sample.code_units_lt a b = true → Sample.code_units_lt b a = false.
Proof.
  unfold Sample.code_units_lt, String.ltb.
  rewrite (String.compare_antisym a b).
  by destruct (String.compare b a).
Qed.

Lemma code_units_lt_trans a b c :
  Sample.code_units_lt a b = true → Sample.code_units_lt b c = true →
  Sample.code_units_lt a c = true.
Proof.
  unfold Sample.code_units_lt, String.ltb.
  destruct (String.compare a b) eqn:Hab; try done.
  destruct (String.compare b c) eqn:Hbc; try done. intros _ _.
  apply String_as_OT.cmp_lt in Hab, Hbc.
  pose proof (String_as_OT.lt_trans _ _ _ Hab Hbc) as H.
  apply String_as_OT.cmp_lt in H. unfold String_as_OT.cmp in H.
  by rewrite H.
Qed.

Lemma code_units_lt_total a b :
  Sample.code_units_lt a b = false → Sample.code_units_lt b a = false →
  a = b.
Proof.
  unfold Sample.code_units_lt, String.ltb.
  rewrite (String.compare_antisym a b).
  destruct (String.compare b a) eqn:Hba; try done.
  intros _ _. symmetry. by apply String.compare_eq_iff.
Qed.
End StringOrder.

Lemma categories_options_ascending_witness :
  StronglySorted (λ a b, Sample.code_units_lt a b = true)
    (Catalog.categories Sample.code_units_lt
       [Sample.item 1 "books" 20 None;
        Sample.item 2 "audio" 1500 (Some 4.8%Q);
        Sample.item 3 "books" 7 None]).
Proof.
  apply (categories_options_ascending (Id:=Z) Sample.code_units_lt).
  - apply code_units_lt_asym.
  - apply code_units_lt_trans.
  - apply code_units_lt_total.
Defined.

(** ** Recommendations: badges and statistics *)

Section SortedPrefixFacts.
Context {A : Type} (R : relation A) (P : A → bool).
(** [P] is closed towards the front of a list sorted by [R]. *)
Hypothesis P_up : ∀ a b, R a b → P b → P a.

Lemma filter_none (l : list A) :
  Forall (λ a, ¬ P a) l → filter (λ a, P a) l = [].
Proof.
  induction 1 as [|x l Hx _ IH]; [done|].
  by rewrite filter_cons_False.
Qed.

Lemma sorted_filter_prefix l i x :
  StronglySorted R l → l !! i = Some x →
  (P x ↔ (i < length (filter (λ a, P a) l))%nat).
Proof.
  intros Hl. revert i. induction Hl as [|y l Hl IH Hy]; intros i Hi; [done|].
  rewrite filter_cons. destruct (decide (P y)) as [HP|HP].
  - destruct i as [|i]; cbn in *.
    + simplify_eq. split; [lia|done].
    + rewrite (IH i Hi). lia.
  - assert (filter (λ a, P a) l = []) as Hnone.
    { apply filter_none. eapply Forall_impl; [exact Hy|].
      intros z Hyz Hz. apply HP. by apply (P_up y z). }
    destruct i as [|i]; cbn in *.
    + simplify_eq. rewrite Hnone. cbn. split; [done|lia].
    + rewrite (IH i Hi), Hnone. cbn. lia.
Qed.
End SortedPrefixFacts.

Section BadgeFacts.
Context {Id : Type}.
Implicit Types (r a b : Recommendation Id).

Lemma level_high r :
  Recommendations.level (Recommendations.confidenceDisplay r) = "high"
  ↔ Qle_bool Recommendations.literal_0_8 (Js.or_zero (confidence_score r))
    = true.
Proof.
  unfold Recommendations.confidenceDisplay,
    Recommendations.getConfidenceDisplay.
  repeat match goal with
         | |- context [Qle_bool ?a ?b] => destruct (Qle_bool a b)
         end; done.
Qed.

Lemma level_rank_mono (x y : Q) :
  (x <= y)%Q →
  (Recommendations.level_rank
     (Recommendations.level (Recommendations.getConfidenceDisplay x))
   ≤ Recommendations.level_rank
       (Recommendations.level (Recommendations.getConfidenceDisplay y)))%nat.
Proof.
  intros Hxy. unfold Recommendations.getConfidenceDisplay.
  repeat match goal with
         | |- context [Qle_bool ?a ?b] =>
             let H := fresh "H" in
             destruct (Qle_bool a b) eqn:H;
             [apply Qle_bool_iff in H
             |apply not_true_iff_false in H; rewrite Qle_bool_iff in H]
         end;
    cbn; try lia; exfalso;
    repeat match goal with
           | H : ¬ (_ <= _)%Q |- _ => apply Qnot_le_lt in H
           end;
    lra.
Qed.

(** X25. Down the list of recommendation cards the confidence badge never
    improves (high, good, fair, low in this order); the cards with the badge
    [high] are exactly the first [stats.highConfidence] cards, and
    [stats.total] is the number of recommendations received. *)
Theorem recommendation_badges_follow_the_order
    (elems : list (Recommendation Id)) :
  let sorted := Recommendations.sortedRecommendations (Js.PropArray elems) in
  Recommendations.stats_total sorted = length elems
  ∧ (Recommendations.stats_highConfidence sorted ≤ length elems)%nat
  ∧ (∀ i r, sorted !! i = Some r →
       (Recommendations.level (Recommendations.confidenceDisplay r) = "high"
        ↔ (i < Recommendations.stats_highConfidence sorted)%nat))
  ∧ StronglySorted
      (λ a b,
         (Recommendations.level_rank
            (Recommendations.level (Recommendations.confidenceDisplay b))
          ≤ Recommendations.level_rank
              (Recommendations.level (Recommendations.confidenceDisplay a)))%nat)
      sorted.
Proof.
  cbn zeta.
  change (Recommendations.sortedRecommendations (Js.PropArray elems))
    with (Js.sort Recommendations.compareFn elems).
  assert (StronglySorted
            (λ a b, (Js.or_zero (confidence_score b)
                     <= Js.or_zero (confidence_score a))%Q)
            (Js.sort Recommendations.compareFn elems)) as Hsorted.
  { apply (StronglySorted_weaken (Js.ordered Recommendations.compareFn)).
    - intros a b. unfold Js.ordered, Recommendations.compareFn. cbn zeta. lra.
    - apply sort_StronglySorted.
      + intros a b. rewrite !ordered_compareFn. lra.
      + intros a b c. rewrite !ordered_compareFn. lra. }
  assert (∀ l : list (Recommendation Id),
            Recommendations.stats_highConfidence l
            = length (filter
                        (λ r, Qle_bool Recommendations.literal_0_8
                                (Js.or_zero (confidence_score r))) l))
    as Hhigh.
  { intros l. unfold Recommendations.stats_highConfidence. cbn zeta.
    induction l as [|r l IH]; [done|]. cbn [map].
    rewrite (filter_cons _ r), (filter_cons _ (Js.or_zero _)).
    destruct (decide _); cbn [length]; by rewrite IH. }
  split_and!.
  - unfold Recommendations.stats_total. by rewrite sort_Permutation.
  - rewrite Hhigh. etrans; [apply length_filter|].
    by rewrite sort_Permutation.
  - intros i r Hi. rewrite level_high, Hhigh, <-Is_true_true.
    refine (sorted_filter_prefix _
              (λ r, Qle_bool Recommendations.literal_0_8
                      (Js.or_zero (confidence_score r)))
              _ _ i r Hsorted Hi).
    intros a b Hab. rewrite !Is_true_true, !Qle_bool_iff. lra.
  - eapply StronglySorted_weaken; [|exact Hsorted].
    intros a b Hab. by apply level_rank_mono.
Qed.
End BadgeFacts.

(** ** Browsing insights *)

Section MinMaxFacts.

Lemma foldl_Math_min_spec (x : Q) (xs : list Q) :
  foldl Js.Math_min x xs ∈ x :: xs
  ∧ Forall (λ y, (foldl Js.Math_min x xs <= y)%Q) (x :: xs).
Proof.
  revert x. induction xs as [|y ys IH]; intros x; cbn [foldl].
  - split; [by left|]. apply Forall_singleton. apply Qle_refl.
  - destruct (IH (Js.Math_min x y)) as [Hin Hall].
    apply Forall_cons_1 in Hall as [Hm Hall].
    destruct (Math_min_spec x y) as (Hx & Hy & Hcase).
    split.
    + apply elem_of_cons in Hin as [->|Hin].
      * destruct Hcase as [-> | ->]; [by left|right; by left].
      * by do 2 right.
    + repeat apply Forall_cons_2; [lra|lra|done].
Qed.

Lemma foldl_Math_max_spec (x : Q) (xs : list Q) :
  foldl Js.Math_max x xs ∈ x :: xs
  ∧ Forall (λ y, (y <= foldl Js.Math_max x xs)%Q) (x :: xs).
Proof.
  revert x. induction xs as [|y ys IH]; intros x; cbn [foldl].
  - split; [by left|]. apply Forall_singleton. apply Qle_refl.
  - destruct (IH (Js.Math_max x y)) as [Hin Hall].
    apply Forall_cons_1 in Hall as [Hm Hall].
    destruct (Math_max_spec x y) as (Hx & Hy & Hcase).
    split.
    + apply elem_of_cons in Hin as [->|Hin].
      * destruct Hcase as [-> | ->]; [by left|right; by left].
      * by do 2 right.
    + repeat apply Forall_cons_2; [lra|lra|done].
Qed.
End MinMaxFacts.

Section InsightsFacts.
Context {Id : Type} `{EqDecision Id}.
Implicit Types (h : list Id) (products : list (Product Id)).

Lemma historyProducts_ids h products :
  map product_id (BrowsingHistory.historyProducts h products)
  = reverse (BrowsingHistory.surviving h products).
Proof.
  unfold BrowsingHistory.historyProducts. rewrite filter_Boolean_omap.
  change (map product_id ?l) with (product_id <$> l).
  rewrite fmap_reverse. f_equal. apply panel_ids.
Qed.

Lemma length_Set_values {A} `{EqDecision A} (l : list A) :
  (length (Js.Set_values l) ≤ length l)%nat
  ∧ (l ≠ [] → 1 ≤ length (Js.Set_values l))%nat.
Proof.
  rewrite Set_values_distinct. split.
  - induction l as [|x l IH]; [done|]. cbn [Js.distinct length].
    pose proof (length_filter (λ y, y ≠ x) (Js.distinct l)). lia.
  - destruct l; [done|]. cbn. lia.
Qed.

(** X26. The insights box is missing exactly when no ID of the history has
    a product in the catalogue.  Otherwise [totalViewed] counts the IDs that
    have one, the price range runs from the cheapest to the dearest viewed
    product, both prices being those of viewed products, the numbers of
    categories and brands lie between 1 and [totalViewed], and [topBrands]
    lists at most three brands of viewed products, none twice. *)
Theorem browsingInsights_summary h products :
  let viewed := BrowsingHistory.historyProducts h products in
  match BrowsingHistory.browsingInsights viewed with
  | None => BrowsingHistory.surviving h products = []
  | Some insights =>
      BrowsingHistory.totalViewed insights
      = length (BrowsingHistory.surviving h products)
      ∧ (1 ≤ BrowsingHistory.totalViewed insights ≤ length h)%nat
      ∧ Forall (λ p,
                  (BrowsingHistory.span_min
                     (BrowsingHistory.priceRange insights)
                   <= product_price p
                   <= BrowsingHistory.span_max
                        (BrowsingHistory.priceRange insights))%Q) viewed
      ∧ BrowsingHistory.span_min (BrowsingHistory.priceRange insights)
        ∈ map product_price viewed
      ∧ BrowsingHistory.span_max (BrowsingHistory.priceRange insights)
        ∈ map product_price viewed
      ∧ (1 ≤ BrowsingHistory.uniqueCategories insights
         ≤ BrowsingHistory.totalViewed insights)%nat
      ∧ (1 ≤ BrowsingHistory.uniqueBrands insights
         ≤ BrowsingHistory.totalViewed insights)%nat
      ∧ NoDup (BrowsingHistory.topBrands insights)
      ∧ length (BrowsingHistory.topBrands insights)
        = Nat.min 3 (BrowsingHistory.uniqueBrands insights)
      ∧ (∀ brand, brand ∈ BrowsingHistory.topBrands insights →
           ∃ p, p ∈ viewed ∧ product_brand p = brand)
  end.
Proof.
  cbn zeta. pose proof (historyProducts_ids h products) as Hids.
  assert (length (BrowsingHistory.historyProducts h products)
          = length (BrowsingHistory.surviving h products)) as Hlen.
  { by rewrite <-(length_map product_id), Hids, length_reverse. }
  assert (length (BrowsingHistory.surviving h products) ≤ length h)%nat
    as Hle by apply length_filter.
  destruct (BrowsingHistory.historyProducts h products) as [|first rest]
    eqn:Hviewed.
  - cbn. by destruct (BrowsingHistory.surviving h products).
  - cbn [BrowsingHistory.browsingInsights]. cbn zeta.
    cbn [BrowsingHistory.totalViewed BrowsingHistory.priceRange
         BrowsingHistory.span_min BrowsingHistory.span_max
         BrowsingHistory.uniqueCategories BrowsingHistory.uniqueBrands
         BrowsingHistory.topBrands].
    destruct (foldl_Math_min_spec (product_price first)
                (map product_price rest)) as [Hmin_in Hmin].
    destruct (foldl_Math_max_spec (product_price first)
                (map product_price rest)) as [Hmax_in Hmax].
    destruct (length_Set_values (map product_category (first :: rest)))
      as [Hc1 Hc2].
    destruct (length_Set_values (map product_brand (first :: rest)))
      as [Hb1 Hb2].
    rewrite length_map in Hc1, Hb1.
    split_and!; try done.
    + cbn in Hlen |- *. lia.
    + lia.
    + change (product_price first :: map product_price rest)
        with (map product_price (first :: rest)) in Hmin, Hmax.
      rewrite Forall_fmap in Hmin, Hmax.
      by apply Forall_and.
    + by apply Hc2.
    + by apply Hb2.
    + rewrite slice_0. eapply sublist_NoDup; [|apply sublist_take].
      rewrite Set_values_distinct. apply NoDup_distinct.
    + rewrite slice_0, length_take. lia.
    + intros brand. rewrite slice_0. intros Hin%subseteq_take.
      rewrite Set_values_distinct, elem_of_distinct in Hin.
      apply list_elem_of_fmap in Hin as (p & -> & Hp). by exists p.
Qed.
End InsightsFacts.

(** ** The preferences panel *)

Section PreferencesPanelFacts.
Import UserPreferences.
Variable parseInt : string → option Z.
Implicit Types (p newPrefs : Preferences) (panel : Panel).

Lemma negative_spec (a : option Q) :
  negative a = true ↔ ∃ lo, a = Some lo ∧ (lo < 0)%Q.
Proof.
  destruct a as [x|]; cbn; [|split; [done|by intros (? & ? & _)]].
  rewrite negb_true_iff, <-not_true_iff_false, Qle_bool_iff. split.
  - intros Hx%Qnot_le_lt. by exists x.
  - intros (lo & [= <-] & Hlo). by apply Qlt_not_le.
Qed.

Lemma ge_spec (a b : option Q) :
  ge a b = true ↔ ∃ lo hi, a = Some lo ∧ b = Some hi ∧ (hi <= lo)%Q.
Proof.
  destruct a as [x|], b as [y|]; cbn;
    try (split; [done|by intros (? & ? & ? & ? & _)]).
  rewrite Qle_bool_iff. split.
  - intros Hxy. by exists x, y.
  - by intros (lo & hi & [= <-] & [= <-] & Hle).
Qed.

(** The price error of [validatePreferences], read off the price part
    alone. *)
Lemma validatePreferences_price p :
  err_priceRange (validatePreferences p)
  = if String.eqb (priceRange p) "custom" then
      if negative (customPriceRange p ≫= range_min)
      then Some "Prices cannot be negative"
      else if ge (customPriceRange p ≫= range_min)
                 (customPriceRange p ≫= range_max)
           then Some "Minimum price must be less than maximum price"
           else None
    else None.
Proof.
  unfold validatePreferences. cbn zeta.
  destruct (String.eqb (priceRange p) "custom"),
    (5 <? length (categories p))%nat,
    (negative (customPriceRange p ≫= range_min)),
    (ge (customPriceRange p ≫= range_min)
        (customPriceRange p ≫= range_max)); done.
Qed.

Lemma validatePreferences_categories p :
  err_categories (validatePreferences p)
  = if (5 <? length (categories p))%nat
    then Some "Please select no more than 5 categories for better recommendations"
    else None.
Proof.
  unfold validatePreferences. cbn zeta.
  destruct (String.eqb (priceRange p) "custom"),
    (5 <? length (categories p))%nat,
    (negative (customPriceRange p ≫= range_min)),
    (ge (customPriceRange p ≫= range_min)
        (customPriceRange p ≫= range_max)); done.
Qed.

Lemma updatePreferences_accepts newPrefs panel :
  err_priceRange (validatePreferences newPrefs) = None →
  updatePreferences newPrefs panel
  = (mkPanel newPrefs (validatePreferences newPrefs), Some newPrefs).
Proof.
  intros Hok. unfold updatePreferences. cbn zeta. rewrite Hok. cbn.
  by rewrite orb_true_r.
Qed.

Lemma updatePreferences_blocks newPrefs panel :
  err_priceRange (validatePreferences newPrefs) ≠ None →
  updatePreferences newPrefs panel
  = (mkPanel (localPreferences panel) (validatePreferences newPrefs), None).
Proof.
  intros Herr. unfold updatePreferences. cbn zeta.
  rewrite validatePreferences_price in *. unfold Object_keys.
  rewrite validatePreferences_price.
  destruct (String.eqb (priceRange newPrefs) "custom"); [|done].
  destruct (negative _); [done|]. by destruct (ge _ _).
Qed.

(** X27. [updatePreferences] always stores the validation errors, and it
    lets a change through exactly when there is no price error: then the
    panel holds the new preferences and [onPreferencesChange] receives them;
    otherwise the panel keeps its preferences and the parent hears nothing.
    A price error arises only for the ['custom'] range, when its minimum is
    negative or not below its maximum; a bound that is missing raises none.
    Selecting more than five categories is reported but never blocks. *)
Theorem updatePreferences_blocks_only_price_errors newPrefs panel :
  let errors := validatePreferences newPrefs in
  let result := updatePreferences newPrefs panel in
  validationErrors result.1 = errors
  ∧ (err_priceRange errors = None →
     result = (mkPanel newPrefs errors, Some newPrefs))
  ∧ (err_priceRange errors ≠ None →
     result = (mkPanel (localPreferences panel) errors, None))
  ∧ (err_priceRange errors ≠ None
     ↔ priceRange newPrefs = "custom"
       ∧ ∃ lo, customPriceRange newPrefs ≫= range_min = Some lo
               ∧ ((lo < 0)%Q
                  ∨ ∃ hi, customPriceRange newPrefs ≫= range_max = Some hi
                          ∧ (hi <= lo)%Q))
  ∧ (err_categories errors ≠ None
     ↔ (5 < length (categories newPrefs))%nat).
Proof.
  cbn zeta. split_and!.
  - destruct (err_priceRange (validatePreferences newPrefs)) eqn:Herr.
    + by rewrite updatePreferences_blocks by (by rewrite Herr).
    + by rewrite updatePreferences_accepts.
  - apply updatePreferences_accepts.
  - apply updatePreferences_blocks.
  - rewrite validatePreferences_price.
    destruct (String.eqb_spec (priceRange newPrefs) "custom") as [Hc|Hc];
      [|split; [done|by intros [? _]]].
    destruct (negative _) eqn:Hneg.
    + apply negative_spec in Hneg as (lo & Hlo & Hlt).
      split; [|done]. intros _. split; [done|]. exists lo. by split; [|left].
    + destruct (ge _ _) eqn:Hge.
      * apply ge_spec in Hge as (lo & hi & Hlo & Hhi & Hle).
        split; [|done]. intros _. split; [done|]. exists lo.
        split; [done|]. right. by exists hi.
      * split; [done|]. intros (_ & lo & Hlo & [Hlt|(hi & Hhi & Hle)]).
        -- assert (negative (customPriceRange newPrefs ≫= range_min) = true)
             as Hn by (apply negative_spec; by exists lo).
           congruence.
        -- assert (ge (customPriceRange newPrefs ≫= range_min)
                      (customPriceRange newPrefs ≫= range_max) = true)
             as Hg by (apply ge_spec; by exists lo, hi).
           congruence.
  - rewrite validatePreferences_categories.
    destruct (Nat.ltb_spec 5 (length (categories newPrefs)));
      split; (done || lia).
Qed.

Lemma custom_range_error lo hi p :
  priceRange p = "custom" →
  customPriceRange p = Some (mkCustomPriceRange (Some lo) (Some hi)) →
  err_priceRange (validatePreferences p) = None
  ↔ (0 <= lo)%Q ∧ (lo < hi)%Q.
Proof.
  intros Hc Hr. rewrite validatePreferences_price, Hc, Hr.
  change (String.eqb "custom" "custom") with true. cbn.
  destruct (Qle_bool 0 lo) eqn:H0; cbn.
  - apply Qle_bool_iff in H0. destruct (Qle_bool hi lo) eqn:Hhl.
    + apply Qle_bool_iff in Hhl. split; [done|]. intros [_ Hlt]. lra.
    + split; [|done]. intros _. split; [done|].
      apply Qnot_le_lt. rewrite <-Qle_bool_iff. congruence.
  - split; [done|]. intros [H0' _]. apply Qle_bool_iff in H0'. congruence.
Qed.

Lemma price_in_order_no_error p :
  price_in_order p → err_priceRange (validatePreferences p) = None.
Proof.
  unfold price_in_order.
  destruct (String.eqb_spec (priceRange p) "custom") as [Hc|Hc].
  - intros (lo & hi & Hr & H0 & Hlt). by apply (custom_range_error lo hi).
  - intros _. rewrite validatePreferences_price.
    by apply String.eqb_neq in Hc as ->.
Qed.

(** Ticking a box that was clear, or clearing one that was ticked. *)
Lemma toggle_selection (selection : list string) (x : string) :
  NoDup selection →
  let toggled :=
    if negb (Js.Array_includes selection x) then selection ++ [x]
    else filter (λ y, y ≠ x) selection in
  (∀ y, y ∈ toggled
        ↔ if decide (y = x) then y ∉ selection else y ∈ selection)
  ∧ NoDup toggled
  ∧ (if negb (Js.Array_includes toggled x) then toggled ++ [x]
     else filter (λ y, y ≠ x) toggled) ≡ₚ selection.
Proof.
  intros Hnd. cbn zeta. unfold Js.Array_includes.
  destruct (bool_decide_reflect (x ∈ selection)) as [Hin|Hout]; cbn [negb].
  - split_and!.
    + intros y. rewrite list_elem_of_filter.
      destruct (decide (y = x)) as [->|Hne]; [|tauto].
      split; [by intros [? _]|done].
    + by apply NoDup_filter.
    + rewrite bool_decide_eq_false_2; last first.
      { intros [Hne _]%list_elem_of_filter. by apply Hne. }
      cbn [negb]. apply NoDup_Permutation.
      * apply NoDup_app. split_and!; [by apply NoDup_filter| |apply NoDup_singleton].
        intros y [Hne _]%list_elem_of_filter ->%list_elem_of_singleton.
        by apply Hne.
      * done.
      * intros y. rewrite elem_of_app, list_elem_of_filter,
          list_elem_of_singleton.
        destruct (decide (y = x)) as [->|Hne]; [|tauto].
        split; [done|]. intros _. by right.
  - split_and!.
    + intros y. rewrite elem_of_app, list_elem_of_singleton.
      destruct (decide (y = x)) as [->|Hne]; [|tauto].
      split; [done|]. intros _. by right.
    + apply NoDup_app. split_and!; [done| |apply NoDup_singleton].
      by intros y Hy ->%list_elem_of_singleton.
    + rewrite bool_decide_eq_true_2; last first.
      { apply elem_of_app. right. by left. }
      cbn [negb]. rewrite filter_app, filter_cons_False by (by intros ?).
      rewrite filter_nil, app_nil_r. apply reflexive_eq, filter_all.
      apply Forall_forall. by intros y Hy ->.
Qed.

(** X28. On a panel whose price part is in order, a category or brand
    checkbox always gets its change through to the parent: the clicked name
    changes sides, every other name stays as it was, no name is listed
    twice, and a second click restores the selection.  [Clear All
    Preferences] always goes through and leaves nothing that counts as a
    preference and no validation error. *)
Theorem checkboxes_toggle_and_clear_resets panel category brand :
  price_in_order (localPreferences panel) →
  NoDup (categories (localPreferences panel)) →
  NoDup (brands (localPreferences panel)) →
  let ticked := handle parseInt panel (CategoryCheckbox category) in
  let branded := handle parseInt panel (BrandCheckbox brand) in
  let cleared := clearPreferences panel in
  ticked.2 = Some (localPreferences ticked.1)
  ∧ (∀ c, c ∈ categories (localPreferences ticked.1)
          ↔ if decide (c = category)
            then c ∉ categories (localPreferences panel)
            else c ∈ categories (localPreferences panel))
  ∧ NoDup (categories (localPreferences ticked.1))
  ∧ categories
      (localPreferences
         (handle parseInt ticked.1 (CategoryCheckbox category)).1)
    ≡ₚ categories (localPreferences panel)
  ∧ branded.2 = Some (localPreferences branded.1)
  ∧ (∀ b, b ∈ brands (localPreferences branded.1)
          ↔ if decide (b = brand)
            then b ∉ brands (localPreferences panel)
            else b ∈ brands (localPreferences panel))
  ∧ NoDup (brands (localPreferences branded.1))
  ∧ brands
      (localPreferences (handle parseInt branded.1 (BrandCheckbox brand)).1)
    ≡ₚ brands (localPreferences panel)
  ∧ cleared = (mkPanel clearedPrefs no_errors, Some clearedPrefs)
  ∧ hasPreferences clearedPrefs = false.
Proof.
  intros Hprice Hcats Hbrands. cbn zeta.
  assert (∀ l p', price_in_order p' → price_in_order (with_categories l p'))
    as Hwc by done.
  assert (∀ l p', price_in_order p' → price_in_order (with_brands l p'))
    as Hwb by done.
  cbn [handle]. unfold handleCategoryChange, handleBrandChange. cbn zeta.
  rewrite !updatePreferences_accepts
    by (first [by apply price_in_order_no_error, Hwc
              |by apply price_in_order_no_error, Hwb]).
  cbn [fst snd localPreferences with_categories with_brands categories
       brands].
  destruct (toggle_selection _ category Hcats) as (Hc1 & Hc2 & Hc3).
  destruct (toggle_selection _ brand Hbrands) as (Hb1 & Hb2 & Hb3).
  split_and!; done.
Qed.

(** What every step of the panel keeps. *)
Lemma handle_keeps_order panel e :
  price_in_order (localPreferences panel) →
  NoDup (categories (localPreferences panel)) →
  NoDup (brands (localPreferences panel)) →
  rendered panel e = true →
  let after := handle parseInt panel e in
  price_in_order (localPreferences after.1)
  ∧ NoDup (categories (localPreferences after.1))
  ∧ NoDup (brands (localPreferences after.1))
  ∧ (after.2 = None →
     (∃ text, e = MinPriceInput text ∨ e = MaxPriceInput text)
     ∧ localPreferences after.1 = localPreferences panel).
Proof.
  intros Hprice Hcats Hbrands Hrendered. cbn zeta.
  destruct e as [value|text|text|category|brand|change|];
    cbn [handle rendered] in *.
  - (* a price radio button *)
    unfold handlePriceRangeChange. cbn zeta.
    assert (price_in_order
              (with_price value
                 (if String.eqb value "custom"
                  then Some (mkCustomPriceRange (Some 0%Q) (Some 1000%Q))
                  else None) (localPreferences panel))) as Hnew.
    { unfold price_in_order. cbn [with_price priceRange customPriceRange].
      destruct (String.eqb value "custom"); [|done].
      exists 0%Q, 1000%Q. split_and!; [done|lra|lra]. }
    rewrite updatePreferences_accepts by (by apply price_in_order_no_error).
    by split_and!.
  - (* the minimum of the custom range *)
    unfold handlePriceRangeChange. cbn zeta.
    unfold price_in_order in Hprice. rewrite Hrendered in Hprice.
    destruct Hprice as (lo & hi & Hr & H0 & Hlt). rewrite Hr.
    unfold spread_range. cbn [range_min range_max mbind option_bind].
    set (new := with_price "custom" _ (localPreferences panel)).
    destruct (err_priceRange (validatePreferences new)) as [msg|] eqn:Herr.
    + rewrite updatePreferences_blocks by (by rewrite Herr).
      cbn [fst snd localPreferences]. split_and!; try done.
      * unfold price_in_order. rewrite Hrendered. by exists lo, hi.
      * intros _. split; [|done]. exists text. by left.
    + rewrite updatePreferences_accepts by done.
      cbn [fst snd localPreferences]. split_and!; try done.
      apply (custom_range_error (parsed_or parseInt 0 text) hi) in Herr;
        [|done..].
      unfold price_in_order. subst new.
      cbn [with_price priceRange customPriceRange].
      change (String.eqb "custom" "custom") with true.
      by exists (parsed_or parseInt 0 text), hi.
  - (* the maximum of the custom range *)
    unfold handlePriceRangeChange. cbn zeta.
    unfold price_in_order in Hprice. rewrite Hrendered in Hprice.
    destruct Hprice as (lo & hi & Hr & H0 & Hlt). rewrite Hr.
    unfold spread_range. cbn [range_min range_max mbind option_bind].
    set (new := with_price "custom" _ (localPreferences panel)).
    destruct (err_priceRange (validatePreferences new)) as [msg|] eqn:Herr.
    + rewrite updatePreferences_blocks by (by rewrite Herr).
      cbn [fst snd localPreferences]. split_and!; try done.
      * unfold price_in_order. rewrite Hrendered. by exists lo, hi.
      * intros _. split; [|done]. exists text. by right.
    + rewrite updatePreferences_accepts by done.
      cbn [fst snd localPreferences]. split_and!; try done.
      apply (custom_range_error lo (parsed_or parseInt 1000 text)) in Herr;
        [|done..].
      unfold price_in_order. subst new.
      cbn [with_price priceRange customPriceRange].
      change (String.eqb "custom" "custom") with true.
      by exists lo, (parsed_or parseInt 1000 text).
  - (* a category checkbox *)
    unfold handleCategoryChange. cbn zeta.
    rewrite updatePreferences_accepts by (by apply price_in_order_no_error).
    cbn [fst snd localPreferences with_categories categories brands].
    destruct (toggle_selection _ category Hcats) as (_ & Hnd & _).
    by split_and!.
  - (* a brand checkbox *)
    unfold handleBrandChange. cbn zeta.
    rewrite updatePreferences_accepts by (by apply price_in_order_no_error).
    cbn [fst snd localPreferences with_brands categories brands].
    destruct (toggle_selection _ brand Hbrands) as (_ & Hnd & _).
    by split_and!.
  - (* rating, lifestyle, needs, notes *)
    unfold handleSimpleChange. cbn zeta.
    rewrite updatePreferences_accepts
      by (apply price_in_order_no_error; by destruct change).
    cbn [fst snd localPreferences]. by destruct change.
  - (* the clear button *)
    cbn. split_and!; try done; apply NoDup_nil_2.
Qed.

(** X29. Starting from the preferences the application starts with,
    whatever the user does with the controls the panel shows, the price part
    of the panel's preferences stays in order: a ['custom'] range always has
    both bounds, with a minimum that is not negative and a maximum above it,
    and any other range carries no custom bounds; no category and no brand
    is selected twice.  Only the two custom price inputs can be refused, and
    a refused input leaves the preferences as they were. *)
Theorem custom_price_range_stays_in_order panel :
  reachable parseInt (mkPanel initialPreferences no_errors) panel →
  price_in_order (localPreferences panel)
  ∧ NoDup (categories (localPreferences panel))
  ∧ NoDup (brands (localPreferences panel))
  ∧ (∀ e, rendered panel e = true →
       (handle parseInt panel e).2 = None →
       (∃ text, e = MinPriceInput text ∨ e = MaxPriceInput text)
       ∧ localPreferences (handle parseInt panel e).1
         = localPreferences panel).
Proof.
  intros Hreach.
  assert (price_in_order (localPreferences panel)
          ∧ NoDup (categories (localPreferences panel))
          ∧ NoDup (brands (localPreferences panel))) as (Hp & Hc & Hb).
  { induction Hreach as [|panel e _ (Hp & Hc & Hb) Hrendered].
    - split_and!; [done|apply NoDup_nil_2..].
    - destruct (handle_keeps_order panel e Hp Hc Hb Hrendered)
        as (? & ? & ? & _).
      done. }
  split_and!; [done..|].
  intros e Hrendered.
  by destruct (handle_keeps_order panel e Hp Hc Hb Hrendered)
    as (_ & _ & _ & ?).
Qed.

(** The ratings the panel offers pass the validation of
    [handlePreferencesChange] unchanged. *)
Lemma rating_options_pass_validation (value : Q) :
  existsb (Qeq_bool value) rating_options = true →
  (Js.Math_max 0 (Js.Math_min 5 (Js.or_zero (Some value))) == value)%Q.
Proof.
  intros Hoption. pose proof (or_zero_Qeq value) as Hvalue.
  assert (0 <= value <= 5)%Q as [H0 H5].
  { cbn in Hoption. rewrite !orb_true_iff, !Qeq_bool_iff in Hoption.
    destruct Hoption as [Hv|[Hv|[Hv|[Hv|[Hv|[Hv|Hv]]]]]];
      try discriminate; rewrite Hv; lra. }
  rewrite clamp_inside; [done|lra..].
Qed.
End PreferencesPanelFacts.

Lemma checkboxes_toggle_and_clear_resets_witness :
  let ticked :=
    UserPreferences.handle Sample.parseInt Sample.panel
      (UserPreferences.CategoryCheckbox "books") in
  ticked.2 = Some (UserPreferences.localPreferences ticked.1)
  ∧ UserPreferences.categories (UserPreferences.localPreferences ticked.1)
    = ["books"].
Proof.
  pose proof (checkboxes_toggle_and_clear_resets Sample.parseInt Sample.panel
                "books" "Acme" eq_refl NoDup_nil_2 NoDup_nil_2)
    as H.
  cbn zeta in H. destruct H as (Hsent & _). by split.
Defined.

Lemma custom_price_range_stays_in_order_witness :
  let typed :=
    (UserPreferences.handle Sample.parseInt
       (UserPreferences.handle Sample.parseInt Sample.panel
          (UserPreferences.PriceRadio "custom")).1
       (UserPreferences.MinPriceInput "50")).1 in
  UserPreferences.price_in_order (UserPreferences.localPreferences typed)
  ∧ UserPreferences.customPriceRange (UserPreferences.localPreferences typed)
    = Some (UserPreferences.mkCustomPriceRange (Some 50%Q) (Some 1000%Q)).
Proof.
  cbn zeta. split; [|reflexivity].
  apply (custom_price_range_stays_in_order Sample.parseInt).
  apply UserPreferences.reach_event.
  - apply UserPreferences.reach_event; [apply UserPreferences.reach_start|].
    reflexivity.
  - reflexivity.
Defined.

(** ** fetchProductById *)

Lemma run_thrown {St A} (e : Exn) (s : St) ds :
  foldl Async.step (Async.Throw (A:=A) e, s) ds = (Async.Throw e, s).
Proof. induction ds as [|d ds IH]; [done|]. cbn. apply IH. Qed.

Section ProductByIdFacts.
Context {St : Type}.
Variable REACT_APP_API_URL : option string.
Variable Number_toString : Q → string.
Variable engine_message : EngineError → string.

Local Abbreviation API_BASE_URL := (Api.API_BASE_URL REACT_APP_API_URL).
Local Abbreviation fetchProductById :=
  (Api.fetchProductById (St:=St) REACT_APP_API_URL Number_toString
                        engine_message).
Local Abbreviation ToString :=
  (JsOps.ToString Number_toString engine_message).
Local Abbreviation api_outcome :=
  (Api.api_outcome Number_toString engine_message).
Local Abbreviation TypeError := (JsOps.TypeError engine_message).
Implicit Types (s : St) (o : FetchOutcome).

(** X30. [fetchProductById] puts the text of the ID into the path as it
    is, without encoding it, and sends one [GET] request for it; the answer
    is treated like that of the other operations (an [ApiError] passed on, a
    truthy [product] property or else the body, a [TypeError] for a [null]
    body).  An ID that cannot be turned into text makes it throw before any
    request is sent. *)
Theorem fetchProductById_request productId s :
  match ToString productId with
  | Normal id =>
      Async.in_flight (Async.run (fetchProductById productId) s [])
      = [mkRequest (API_BASE_URL +:+ "/products/" +:+ id) None
           (Some [("Content-Type", "application/json")]) None]
      ∧ ∀ o,
          (Async.run (fetchProductById productId) s [(0%nat, o)]).1
          = match api_outcome o with
            | Abrupt e => Async.Throw e
            | Normal Json.Null =>
                Async.Throw (TypeError (NullProperty "product"))
            | Normal body =>
                Async.Ret
                  (if Json.truthy (Api.field body "product")
                   then default body (Api.field body "product")
                   else body)
            end
  | Abrupt e =>
      ∀ ds,
        Async.run (fetchProductById productId) s ds = (Async.Throw e, s)
        ∧ Async.in_flight (Async.run (fetchProductById productId) s ds) = []
  end.
Proof.
  unfold Api.fetchProductById.
  destruct (ToString productId) as [id|e]; cbn [Async.lift Async.bind mbind].
  - split; [reflexivity|]. intros o.
    match goal with
    | |- context [Async.run ?task s _] =>
        rewrite (run_single task s o _ eq_refl
                   (keyed_deliver REACT_APP_API_URL Number_toString
                      engine_message ("/products/" +:+ id) Api.no_options
                      "product" o))
    end.
    cbn [fst]. destruct (api_outcome o) as [body|e]; [|done].
    destruct body as [|b|q|str|elems|props]; try done.
    cbn. unfold Api.prop_or_self, Json.or. cbn.
    by destruct (Json.lookup "product" props) as [v|];
      [destruct (Json.truthy (Some v))|].
  - intros ds. unfold Async.run. cbn. rewrite run_thrown. done.
Qed.
End ProductByIdFacts.
